(** * CRM lead generator: enrichment and scoring pipeline

    A shallow embedding of the deduplication, industry classification and
    quality scoring code of the repository, and the properties of the
    specification stated over it.

    Conventions of the embedding.

    - A Python [str] is a Rocq [string]; its characters are the code points
      U+0000 to U+00FF, and the character predicates below are Python's
      ([str.isspace], [str.isdigit], [\w], [\d], [str.lower]) restricted to
      that range.
    - A [Dict[str, Any]] is a [gmap string pyval]; a dictionary whose
      iteration order matters (the per-code totals) is an association list.
    - Python floats are IEEE binary64 numbers, computed with the
      [SpecFloat] operations of the standard library.
    - Code that may raise returns a [result]; a [try]/[except] is a match on
      it. *)

From Stdlib Require Import ZArith NArith Ascii String List Bool Lia.
From Stdlib Require Import Floats.SpecFloat.
From stdpp Require Import base option list gmap strings fin_maps.

Open Scope Z_scope.

(* ===================================================================== *)
(** * Python characters and strings                                        *)
(* ===================================================================== *)

Module Py.

Definition ord (c : ascii) : N := N_of_ascii c.

Definition between (lo hi : N) (c : ascii) : bool :=
  ((lo <=? ord c) && (ord c <=? hi))%N.

Definition code_is (n : N) (c : ascii) : bool := (ord c =? n)%N.

(** [str.isspace] on one character: TAB..CR, FS..US, space, NEL, NBSP. *)
Definition isspace (c : ascii) : bool :=
  between 9 13 c || between 28 32 c || code_is 133 c || code_is 160 c.

(** Unicode category Nd, what [\d] matches. *)
Definition isdecimal (c : ascii) : bool := between 48 57 c.

(** [str.isdigit]: the decimal digits and the superscripts 1, 2, 3. *)
Definition isdigit (c : ascii) : bool :=
  isdecimal c || code_is 178 c || code_is 179 c || code_is 185 c.

Definition isnumeric (c : ascii) : bool := isdigit c || between 188 190 c.

Definition isupper_ascii (c : ascii) : bool := between 65 90 c.
Definition islower_ascii (c : ascii) : bool := between 97 122 c.

Definition isalpha (c : ascii) : bool :=
  isupper_ascii c || islower_ascii c || code_is 170 c || code_is 181 c || code_is 186 c
  || between 192 214 c || between 216 246 c || between 248 255 c.

Definition isalnum (c : ascii) : bool := isalpha c || isnumeric c.

(** What [\w] matches. *)
Definition isword (c : ascii) : bool := isalnum c || code_is 95 c.

(** [str.lower] on one character. *)
Definition lower_char (c : ascii) : ascii :=
  if isupper_ascii c || (between 192 222 c && negb (code_is 215 c))
  then ascii_of_N (ord c + 32) else c.

(** [str.upper] on one ASCII letter; other characters are kept. It is
    only used by [title], which the code applies to ASCII literals. *)
Definition upper_char (c : ascii) : ascii :=
  if islower_ascii c then ascii_of_N (ord c - 32) else c.

Fixpoint lower (s : string) : string :=
  match s with
  | EmptyString => EmptyString
  | String c s' => String (lower_char c) (lower s')
  end.

(** [str.title]: a letter that follows a letter is lower-cased, any
    other letter is upper-cased. *)
Fixpoint title_go (prev_cased : bool) (s : string) : string :=
  match s with
  | EmptyString => EmptyString
  | String c s' =>
      let cased := isupper_ascii c || islower_ascii c in
      String (if prev_cased then lower_char c else upper_char c)
             (title_go cased s')
  end.
Definition title (s : string) : string := title_go false s.

Fixpoint lstrip (s : string) : string :=
  match s with
  | EmptyString => EmptyString
  | String c s' => if isspace c then lstrip s' else s
  end.

Fixpoint rstrip (s : string) : string :=
  match s with
  | EmptyString => EmptyString
  | String c s' =>
      match rstrip s' with
      | EmptyString => if isspace c then EmptyString else String c EmptyString
      | r => String c r
      end
  end.

Definition strip (s : string) : string := rstrip (lstrip s).

(** [str.split()] with no argument: the maximal runs of non-blank
    characters. *)
Fixpoint split (s : string) : list string :=
  match s with
  | EmptyString => []
  | String c s' =>
      if isspace c then split s'
      else match s' with
           | EmptyString => [String c EmptyString]
           | String c' _ =>
               if isspace c' then String c EmptyString :: split s'
               else match split s' with
                    | w :: ws => String c w :: ws
                    | [] => [String c EmptyString]
                    end
           end
  end.

(** [sep.join(ws)] *)
Fixpoint join (sep : string) (ws : list string) : string :=
  match ws with
  | [] => EmptyString
  | [w] => w
  | w :: ws' => w +:+ sep +:+ join sep ws'
  end.

Definition startswith (s pre : string) : bool := String.prefix pre s.

(** [sub in s] *)
Fixpoint contains (sub s : string) : bool :=
  String.prefix sub s ||
  match s with
  | EmptyString => false
  | String _ s' => contains sub s'
  end.

Fixpoint drop (n : nat) (s : string) : string :=
  match n, s with
  | O, _ => s
  | S _, EmptyString => EmptyString
  | S n', String _ s' => drop n' s'
  end.

Fixpoint take (n : nat) (s : string) : string :=
  match n, s with
  | O, _ => EmptyString
  | S _, EmptyString => EmptyString
  | S n', String c s' => String c (take n' s')
  end.

(** [s[i:j]] for [0 <= i <= j]. *)
Definition slice (i j : nat) (s : string) : string := take (j - i) (drop i s).

Fixpoint filter (p : ascii -> bool) (s : string) : string :=
  match s with
  | EmptyString => EmptyString
  | String c s' => if p c then String c (filter p s') else filter p s'
  end.

Fixpoint existsb (p : ascii -> bool) (s : string) : bool :=
  match s with
  | EmptyString => false
  | String c s' => p c || existsb p s'
  end.

Fixpoint map (f : ascii -> ascii) (s : string) : string :=
  match s with
  | EmptyString => EmptyString
  | String c s' => String (f c) (map f s')
  end.

(** [s.replace(old, new)] for a non-empty [old]: the occurrences of
    [old] are replaced from left to right, without overlap. *)
Fixpoint replace_go (fuel : nat) (old new s : string) : string :=
  match fuel with
  | O => s
  | S fuel' =>
      match s with
      | EmptyString => EmptyString
      | String c s' =>
          if String.prefix old s
          then new +:+ replace_go fuel' old new (drop (String.length old) s)
          else String c (replace_go fuel' old new s')
      end
  end.

(** With an empty [old], Python inserts [new] before every character
    and at the end. *)
Fixpoint intersperse (new s : string) : string :=
  match s with
  | EmptyString => new
  | String c s' => new +:+ String c (intersperse new s')
  end.

Definition replace (old new s : string) : string :=
  match old with
  | EmptyString => intersperse new s
  | _ => replace_go (String.length s) old new s
  end.

(** [s.split(sep)] for a one-character separator. *)
Fixpoint split_on (sep : ascii) (s : string) : list string :=
  match s with
  | EmptyString => [EmptyString]
  | String c s' =>
      if Ascii.eqb c sep then EmptyString :: split_on sep s'
      else match split_on sep s' with
           | w :: ws => String c w :: ws
           | [] => [String c EmptyString]
           end
  end.

(** [str(n)] for an integer. *)
Definition digit_char (d : N) : ascii := ascii_of_N (48 + d).

Fixpoint str_pos_go (fuel : nat) (n : N) (acc : string) : string :=
  match fuel with
  | O => acc
  | S fuel' =>
      let acc' := String (digit_char (n mod 10)) acc in
      if (n <? 10)%N then acc' else str_pos_go fuel' (n / 10)%N acc'
  end.

Definition str_N (n : N) : string :=
  str_pos_go (S (N.to_nat (N.log2 n))) n EmptyString.

Definition str_Z (z : Z) : string :=
  match z with
  | Z0 => "0"
  | Zpos p => str_N (Npos p)
  | Zneg p => String "-" (str_N (Npos p))
  end.

End Py.

(* ===================================================================== *)
(** * Python floats                                                        *)
(* ===================================================================== *)

Module F64.

Definition prec : Z := 53.
Definition emax : Z := 1024.

Definition t := spec_float.

(** [float(n)] *)
Definition of_Z (n : Z) : t := binary_normalize prec emax n 0 false.

Definition add (x y : t) : t := SFadd prec emax x y.
Definition mul (x y : t) : t := SFmul prec emax x y.
Definition div (x y : t) : t := SFdiv prec emax x y.
Definition ltb (x y : t) : bool := SFltb x y.
Definition leb (x y : t) : bool := SFleb x y.

(** [a / b] on integers, [b] not zero: true division. *)
Definition truediv (a b : Z) : t := div (of_Z a) (of_Z b).

(** The float literal with [n] hundredths, as in [0.25] for 25: the
    decimal is read to the nearest double, which is what the correctly
    rounded quotient gives. *)
Definition hundredths (n : Z) : t := truediv n 100.

(** [int(x)]: truncation toward zero of a finite float. *)
Definition trunc (x : t) : Z :=
  match x with
  | S754_finite s m e =>
      let a := match e with
               | Z0 => Zpos m
               | Zpos p => Zpos m * 2 ^ Zpos p
               | Zneg p => Zpos m / 2 ^ Zpos p
               end in
      if s then - a else a
  | _ => 0
  end.

(** The integer nearest to [100 * x] for a finite [x], ties to even. It is
    the decimal that [round(x, 2)] selects. *)
Definition nearest_hundredth (x : t) : Z :=
  match x with
  | S754_finite s m e =>
      let '(num, den) :=
        match e with
        | Z0 => (100 * Zpos m, 1)
        | Zpos p => (100 * Zpos m * 2 ^ Zpos p, 1)
        | Zneg p => (100 * Zpos m, 2 ^ Zpos p)
        end in
      let q := num / den in
      let r := num mod den in
      let a := if (2 * r <? den) then q
               else if (den <? 2 * r) then q + 1
               else if Z.even q then q else q + 1 in
      if s then - a else a
  | _ => 0
  end.

(** [round(x, 2)] *)
Definition round2 (x : t) : t := hundredths (nearest_hundredth x).

End F64.

(* ===================================================================== *)
(** * Python values, exceptions and dictionaries                           *)
(* ===================================================================== *)

(** The values a record field holds: [None], booleans, integers and
    strings. *)
Inductive pyval :=
| VNone
| VBool (b : bool)
| VInt (n : Z)
| VStr (s : string).

Inductive exn :=
| AttributeError (msg : string)
| TypeError (msg : string)
| ConnectionError (msg : string).

(** [str(e)] *)
Definition exn_message (e : exn) : string :=
  match e with
  | AttributeError msg => msg
  | TypeError msg => msg
  | ConnectionError msg => msg
  end.

Inductive result (A : Type) :=
| Ok (a : A)
| Raise (e : exn).
Arguments Ok {A} a.
Arguments Raise {A} e.

Definition bind {A B} (m : result A) (k : A -> result B) : result B :=
  match m with
  | Ok a => k a
  | Raise e => Raise e
  end.

Notation "'do' x <- m ; k" := (bind m (fun x => k))
  (at level 10, x name, m at level 100, k at level 200).

(** [try: body except Exception as e: handler(e)] *)
Definition try_except {A} (body : result A) (handler : exn -> A) : A :=
  match body with
  | Ok a => a
  | Raise e => handler e
  end.

Abbreviation record := (gmap string pyval).

Module Val.

(** [bool(v)] *)
Definition truthy (v : pyval) : bool :=
  match v with
  | VNone => false
  | VBool b => b
  | VInt n => negb (n =? 0)
  | VStr s => negb (String.eqb s "")
  end.

(** [v == s] and [v != s] against a string literal. *)
Definition eq_str (v : pyval) (s : string) : bool :=
  match v with
  | VStr s' => String.eqb s' s
  | _ => false
  end.
Definition ne_str (v : pyval) (s : string) : bool := negb (eq_str v s).

(** [type(v).__name__] *)
Definition type_name (v : pyval) : string :=
  match v with
  | VNone => "NoneType"
  | VBool _ => "bool"
  | VInt _ => "int"
  | VStr _ => "str"
  end.

(** [str(v)], also what an f-string field shows. *)
Definition str (v : pyval) : string :=
  match v with
  | VNone => "None"
  | VBool true => "True"
  | VBool false => "False"
  | VInt n => Py.str_Z n
  | VStr s => s
  end.

(** The receiver of a string method: anything but a [str] has no such
    attribute. *)
Definition as_str (meth : string) (v : pyval) : result string :=
  match v with
  | VStr s => Ok s
  | _ => Raise (AttributeError
                  ("'" +:+ type_name v +:+ "' object has no attribute '"
                   +:+ meth +:+ "'"))
  end.

(** [d.get(k)] and [d.get(k, default)] *)
Definition get (d : record) (k : string) : pyval := default VNone (d !! k).
Definition get_or (d : record) (k : string) (dflt : pyval) : pyval :=
  default dflt (d !! k).

(** [d.update(e)]: the entries of [e] win. *)
Definition update (d e : record) : record := e ∪ d.

(** [' '.join(items)]: every item must be a [str]. *)
Fixpoint join_items (i : nat) (items : list pyval) : result (list string) :=
  match items with
  | [] => Ok []
  | VStr s :: rest => do ws <- join_items (S i) rest; Ok (s :: ws)
  | v :: _ =>
      Raise (TypeError ("sequence item " +:+ Py.str_Z (Z.of_nat i)
                        +:+ ": expected str instance, " +:+ type_name v
                        +:+ " found"))
  end.
Definition join (sep : string) (items : list pyval) : result string :=
  do ws <- join_items 0 items; Ok (Py.join sep ws).

End Val.

(* ===================================================================== *)
(** * Regular expressions                                                  *)
(* ===================================================================== *)

(** The fragment of Python's [re] the code uses, with its backtracking
    order: the first alternative first, repetition greedy. *)
Module Re.

Inductive regex :=
| Eps
| Chr (p : ascii -> bool)      (* one character of a class *)
| Cat (r1 r2 : regex)
| Alt (r1 r2 : regex)
| Star (r : regex)
| Bol                          (* ^ *)
| Eol                          (* $ *)
| Wordb.                       (* \b *)

Definition Plus (r : regex) : regex := Cat r (Star r).
Definition Opt (r : regex) : regex := Alt r Eps.
Fixpoint Rep (n : nat) (r : regex) : regex :=
  match n with
  | O => Eps
  | S n' => Cat r (Rep n' r)
  end.
Definition AtLeast (n : nat) (r : regex) : regex := Cat (Rep n r) (Star r).

Definition one (c : ascii) : regex := Chr (Ascii.eqb c).
Definition any_of (cs : string) (c : ascii) : bool := Py.existsb (Ascii.eqb c) cs.

(** A literal, and a literal under [re.IGNORECASE]. *)
Fixpoint lit (s : string) : regex :=
  match s with
  | EmptyString => Eps
  | String c s' => Cat (one c) (lit s')
  end.
Fixpoint lit_i (s : string) : regex :=
  match s with
  | EmptyString => Eps
  | String c s' =>
      Cat (Chr (fun x => Ascii.eqb (Py.lower_char x) (Py.lower_char c)))
          (lit_i s')
  end.

(** [.] matches anything but a newline. *)
Definition newline : ascii := "010"%char.
Definition dot : regex := Chr (fun c => negb (Ascii.eqb c newline)).
Definition digit : regex := Chr Py.isdecimal.      (* \d and [0-9] *)
Definition space : regex := Chr Py.isspace.        (* \s *)

Definition wordish (o : option ascii) : bool :=
  match o with
  | Some c => Py.isword c
  | None => false
  end.
Definition head (s : string) : option ascii :=
  match s with
  | EmptyString => None
  | String c _ => Some c
  end.

(** [run r k prev s]: match [r] at the front of [s], the character
    before being [prev], and hand what is left to [k]; the first
    success in backtracking order is the answer. *)
Fixpoint run {A} (r : regex) (k : option ascii -> string -> option A)
    (prev : option ascii) (s : string) : option A :=
  match r with
  | Eps => k prev s
  | Chr p =>
      match s with
      | String c s' => if p c then k (Some c) s' else None
      | EmptyString => None
      end
  | Cat r1 r2 => run r1 (run r2 k) prev s
  | Alt r1 r2 =>
      match run r1 k prev s with
      | Some a => Some a
      | None => run r2 k prev s
      end
  | Star r' =>
      (fix loop (fuel : nat) (prev : option ascii) (s : string) : option A :=
         match fuel with
         | O => k prev s
         | S fuel' =>
             match run r'
                     (fun p' s' =>
                        if (String.length s' <? String.length s)%nat
                        then loop fuel' p' s' else None)
                     prev s with
             | Some a => Some a
             | None => k prev s
             end
         end) (String.length s) prev s
  | Bol => match prev with None => k prev s | Some _ => None end
  | Eol =>
      match s with
      | EmptyString => k prev s
      | String c EmptyString => if Ascii.eqb c newline then k prev s else None
      | _ => None
      end
  | Wordb => if xorb (wordish prev) (wordish (head s)) then k prev s else None
  end.

(** What is left of [s] after the match of [r] at its front. *)
Definition match_rest (r : regex) (s : string) : option string :=
  run r (fun _ s' => Some s') None s.

(** [bool(re.match(r, s))] *)
Definition matches (r : regex) (s : string) : bool :=
  match match_rest r s with Some _ => true | None => false end.

(** The leftmost match of [r] in [s]: what follows its start, and what
    follows its end. *)
Fixpoint search_go (r : regex) (prev : option ascii) (s : string)
    : option (string * string) :=
  match run r (fun _ s' => Some s') prev s with
  | Some rest => Some (s, rest)
  | None =>
      match s with
      | EmptyString => None
      | String c s' => search_go r (Some c) s'
      end
  end.

(** [bool(re.search(r, s))] *)
Definition search (r : regex) (s : string) : bool :=
  match search_go r None s with Some _ => true | None => false end.

(** [re.search(r, s).group()] *)
Definition search_group (r : regex) (s : string) : option string :=
  match search_go r None s with
  | Some (from, rest) =>
      Some (Py.take (String.length from - String.length rest) from)
  | None => None
  end.

(** [re.sub(cls, '', s)] for a one-character class. *)
Definition sub_class (p : ascii -> bool) (s : string) : string :=
  Py.filter (fun c => negb (p c)) s.

End Re.

(* ===================================================================== *)
(** * tools/industry_classifier_tool.py                                    *)
(* ===================================================================== *)

Module IndustryClassifierTool.

(** The keyword registry, in the order of the source. *)
Definition NAICS_MAPPINGS : list (string * string) :=
  [
    ("software", "541511");
    ("technology", "541511");
    ("tech", "541511");
    ("computer", "541511");
    ("it services", "541511");
    ("web development", "541511");
    ("app development", "541511");
    ("saas", "541511");
    ("medical", "621111");
    ("healthcare", "621111");
    ("hospital", "622110");
    ("clinic", "621111");
    ("doctor", "621111");
    ("physician", "621111");
    ("dentist", "621210");
    ("pharmacy", "446110");
    ("retail", "441000");
    ("store", "441000");
    ("shop", "441000");
    ("clothing", "448110");
    ("grocery", "445110");
    ("supermarket", "445110");
    ("restaurant", "722511");
    ("food service", "722511");
    ("cafe", "722513");
    ("bar", "722410");
    ("consulting", "541611");
    ("law", "541110");
    ("legal", "541110");
    ("attorney", "541110");
    ("accounting", "541211");
    ("cpa", "541211");
    ("real estate", "531210");
    ("insurance", "524210");
    ("financial", "522110");
    ("bank", "522110");
    ("construction", "236220");
    ("building", "236220");
    ("contractor", "236220");
    ("manufacturing", "311000");
    ("factory", "311000");
    ("automotive", "441110");
    ("auto repair", "811111");
    ("transportation", "484110");
    ("trucking", "484121");
    ("logistics", "484110");
    ("shipping", "484110");
    ("delivery", "492210");
    ("education", "611110");
    ("school", "611110");
    ("university", "611310");
    ("college", "611310");
    ("training", "611430");
    ("entertainment", "711130");
    ("fitness", "713940");
    ("gym", "713940");
    ("sports", "713940");
    ("hotel", "721110");
    ("lodging", "721110");
    ("agriculture", "111998");
    ("farming", "111998");
    ("farm", "111998");
    ("landscaping", "561730");
    ("energy", "221112");
    ("utilities", "221310");
    ("solar", "237130");
    ("renewable", "237130");
    ("nonprofit", "813211");
    ("charity", "813211");
    ("foundation", "813211")
  ].

Definition NAICS_DESCRIPTIONS : list (string * string) :=
  [
    ("541511", "Custom Computer Programming Services");
    ("621111", "Offices of Physicians (except Mental Health Specialists)");
    ("622110", "General Medical and Surgical Hospitals");
    ("621210", "Offices of Dentists");
    ("446110", "Pharmacies and Drug Stores");
    ("441000", "Motor Vehicle and Parts Dealers");
    ("448110", "Men's Clothing Stores");
    ("445110", "Supermarkets and Other Grocery (except Convenience) Stores");
    ("722511", "Full-Service Restaurants");
    ("722513", "Limited-Service Restaurants");
    ("722410", "Drinking Places (Alcoholic Beverages)");
    ("541611", "Administrative Management and General Management Consulting Services");
    ("541110", "Offices of Lawyers");
    ("541211", "Offices of Certified Public Accountants");
    ("531210", "Offices of Real Estate Agents and Brokers");
    ("524210", "Insurance Agencies and Brokerages");
    ("522110", "Commercial Banking");
    ("236220", "Commercial and Institutional Building Construction");
    ("311000", "Food Manufacturing");
    ("441110", "New Car Dealers");
    ("811111", "General Automotive Repair");
    ("484110", "General Freight Trucking, Local");
    ("484121", "General Freight Trucking, Long-Distance, Truckload");
    ("492210", "Local Messengers and Local Delivery");
    ("611110", "Elementary and Secondary Schools");
    ("611310", "Colleges, Universities, and Professional Schools");
    ("611430", "Professional and Management Development Training");
    ("711130", "Musical Groups and Artists");
    ("713940", "Fitness and Recreational Sports Centers");
    ("721110", "Hotels (except Casino Hotels) and Motels");
    ("111998", "All Other Miscellaneous Crop Farming");
    ("561730", "Landscaping Services");
    ("221112", "Fossil Fuel Electric Power Generation");
    ("221310", "Water Supply and Irrigation Systems");
    ("237130", "Power and Communication Line and Related Structures Construction");
    ("813211", "Grantmaking Foundations");
    ("999999", "Unclassified Establishments")
  ].

(** [table.get(code)] on a constant table. *)
Fixpoint lookup (code : string) (table : list (string * string))
    : option string :=
  match table with
  | [] => None
  | (c, d) :: rest => if String.eqb c code then Some d else lookup code rest
  end.

(** [keyword_scores], a dictionary from code to total that keeps the
    order in which the codes were first scored. *)
Definition scores := list (string * Z).

Fixpoint scores_get (code : string) (ks : scores) : option Z :=
  match ks with
  | [] => None
  | (c, t) :: rest => if String.eqb c code then Some t else scores_get code rest
  end.

(** [keyword_scores[code] = value] *)
Fixpoint scores_set (code : string) (value : Z) (ks : scores) : scores :=
  match ks with
  | [] => [(code, value)]
  | (c, t) :: rest =>
      if String.eqb c code then (c, value) :: rest
      else (c, t) :: scores_set code value rest
  end.

(** The score of one registry keyword against the text. *)
Definition keyword_score (keyword combined_text : string) : Z :=
  let score := 0 in
  let score := if Py.contains keyword combined_text then score + 10 else score in
  fold_left (fun score word =>
               if Py.contains word combined_text then score + 3 else score)
            (Py.split keyword) score.

(** The loop over the registry. *)
Definition score_step (combined_text : string) (ks : scores)
    (entry : string * string) : scores :=
  let '(keyword, naics_code) := entry in
  let score := keyword_score keyword combined_text in
  if 0 <? score
  then scores_set naics_code (default 0 (scores_get naics_code ks) + score) ks
  else ks.

Definition score_registry (combined_text : string) : scores :=
  fold_left (score_step combined_text) NAICS_MAPPINGS [].

(** [max(keyword_scores, key=keyword_scores.get)]: the first code, in
    dictionary order, whose total no other exceeds. *)
Fixpoint max_from (best : string * Z) (ks : scores) : string * Z :=
  match ks with
  | [] => best
  | (c, t) :: rest => if snd best <? t then max_from (c, t) rest else max_from best rest
  end.

Definition text_fields (business_info : record) : list pyval :=
  [ Val.get_or business_info "company_name" (VStr "");
    Val.get_or business_info "business_description" (VStr "");
    Val.get_or business_info "industry" (VStr "");
    Val.get_or business_info "category" (VStr "");
    Val.get_or business_info "website_content" (VStr "") ].

Definition keyword_result (best_naics : string) (total : Z) : record :=
  {[ "success" := VBool true;
     "naics_code" := VStr best_naics;
     "industry_description" :=
       VStr (default "Unknown Industry" (lookup best_naics NAICS_DESCRIPTIONS));
     "confidence_score" := VInt (Z.min (total * 5) 85);
     "reasoning" :=
       VStr ("Keyword-based classification (score: " +:+ Py.str_Z total +:+ ")");
     "source" := VStr "keyword";
     "model" := VStr "keyword_matching" ]}.

Definition no_match_result : record :=
  {[ "success" := VBool true;
     "naics_code" := VStr "999999";
     "industry_description" := VStr "Unclassified Establishments";
     "confidence_score" := VInt 20;
     "reasoning" := VStr "No clear industry indicators found";
     "source" := VStr "keyword";
     "model" := VStr "keyword_matching" ]}.

Definition keyword_error_result (e : exn) : record :=
  {[ "success" := VBool false;
     "naics_code" := VStr "999999";
     "industry_description" := VStr "Classification error";
     "confidence_score" := VInt 0;
     "reasoning" := VStr ("Keyword classification error: " +:+ exn_message e);
     "source" := VStr "error";
     "model" := VStr "keyword_matching" ]}.

(** The body of the [try] of [_classify_with_keywords]. *)
Definition keywords_body (business_info : record) : result record :=
  do joined <- Val.join " " (text_fields business_info);
  let combined_text := Py.lower joined in
  let keyword_scores := score_registry combined_text in
  match keyword_scores with
  | first :: rest =>
      let '(best_naics, total) := max_from first rest in
      Ok (keyword_result best_naics total)
  | [] => Ok no_match_result
  end.

Definition _classify_with_keywords (business_info : record) : record :=
  try_except (keywords_body business_info) keyword_error_result.

(** [r'^\d{6}$'] and [r'\b\d{6}\b'] *)
Definition six_digits_anchored : Re.regex :=
  Re.Cat Re.Bol (Re.Cat (Re.Rep 6 Re.digit) Re.Eol).
Definition six_digits_word : Re.regex :=
  Re.Cat Re.Wordb (Re.Cat (Re.Rep 6 Re.digit) Re.Wordb).

(** [re.match(pattern, v)] raises on anything but a string. *)
Definition re_match (r : Re.regex) (v : pyval) : result bool :=
  match v with
  | VStr s => Ok (Re.matches r s)
  | _ => Raise (TypeError "expected string or bytes-like object")
  end.

(** [min(v, 100)] *)
Definition min_100 (v : pyval) : result pyval :=
  match v with
  | VInt n => Ok (if 100 <? n then VInt 100 else VInt n)
  | VBool b => Ok (VBool b)
  | _ => Raise (TypeError
                  ("'<' not supported between instances of 'int' and '"
                   +:+ Val.type_name v +:+ "'"))
  end.

(** [v > 70] for the values [min_100] returns. *)
Definition gt_70 (v : pyval) : bool :=
  match v with
  | VInt n => 70 <? n
  | _ => false
  end.

(** The language-model client: what [classify_industry] returns for a
    business, or the exception it raises. *)
Definition llm_client := record -> result record.

Definition ai_body (llm : llm_client) (business_info : record)
    : result record :=
  do response <- llm business_info;
  let naics_code := Val.get_or response "naics_code" (VStr "000000") in
  do ok <- re_match six_digits_anchored naics_code;
  let naics_code :=
    if ok then Val.str naics_code
    else match Re.search_group six_digits_word (Val.str naics_code) with
         | Some code => code
         | None => "999999"
         end in
  let industry_description :=
    match lookup naics_code NAICS_DESCRIPTIONS with
    | Some d => VStr d
    | None => Val.get_or response "industry_description" (VStr "Unknown")
    end in
  do confidence <- min_100 (Val.get_or response "confidence_score" (VInt 0));
  Ok ({[ "success" := Val.get_or response "success" (VBool false);
         "naics_code" := VStr naics_code;
         "industry_description" := industry_description;
         "confidence_score" := confidence;
         "reasoning" := Val.get_or response "reasoning" (VStr "");
         "source" := Val.get_or response "source" (VStr "ai");
         "model" := Val.get_or response "model" (VStr "unknown") ]} : record).

Definition ai_failure (e : exn) : record :=
  {[ "success" := VBool false; "error" := VStr (exn_message e) ]}.

Definition _classify_with_ai (llm : llm_client) (business_info : record)
    : record :=
  try_except (ai_body llm business_info) ai_failure.

(** The AI answer is taken when it reports success with a confidence
    above 70. *)
Definition ai_accepted (ai_result : record) : bool :=
  Val.truthy (Val.get ai_result "success")
  && gt_70 (Val.get ai_result "confidence_score").

Definition classify_error_result (e : exn) : record :=
  {[ "success" := VBool false;
     "naics_code" := VStr "999999";
     "industry_description" := VStr "Classification failed";
     "confidence_score" := VInt 0;
     "reasoning" := VStr ("Classification failed: " +:+ exn_message e);
     "source" := VStr "error";
     "model" := VStr "none" ]}.

(** The body of the [try] of [classify]; the statistics it keeps are
    left out. *)
Definition classify_body (llm_client : option llm_client)
    (business_info : record) : result record :=
  let keyword_path := Ok (_classify_with_keywords business_info) in
  match llm_client with
  | Some llm =>
      let ai_result := _classify_with_ai llm business_info in
      if ai_accepted ai_result then Ok ai_result else keyword_path
  | None => keyword_path
  end.

Definition classify (llm_client : option llm_client) (business_info : record)
    : record :=
  try_except (classify_body llm_client business_info) classify_error_result.

(** The answer of [get_naics_info]. *)
Record naics_info := {
  info_naics_code : string;
  info_description : string;
  is_valid : bool
}.

Definition get_naics_info (naics_code : string) : naics_info :=
  {| info_naics_code := naics_code;
     info_description := default "Unknown" (lookup naics_code NAICS_DESCRIPTIONS);
     is_valid := match lookup naics_code NAICS_DESCRIPTIONS with
                 | Some _ => true
                 | None => false
                 end |}.

(** One entry of the list that [search_naics_by_keyword] returns. *)
Record naics_match := {
  match_naics_code : string;
  match_description : string;
  keyword_match : string;
  relevance : string
}.

(** The first loop of [search_naics_by_keyword], over the keyword
    registry. *)
Definition search_mappings (keyword : string) (matches : list naics_match)
    : list naics_match :=
  fold_left (fun matches '(kw, naics_code) =>
               if Py.contains keyword kw || Py.contains kw keyword
               then matches ++
                    [ {| match_naics_code := naics_code;
                         match_description :=
                           default "Unknown" (lookup naics_code NAICS_DESCRIPTIONS);
                         keyword_match := kw;
                         relevance := if String.eqb keyword kw
                                      then "exact" else "partial" |} ]
               else matches)
            NAICS_MAPPINGS matches.

(** The second loop, over the descriptions: a code that was matched
    already is not reported again. *)
Definition search_descriptions (keyword : string) (matches : list naics_match)
    : list naics_match :=
  fold_left (fun matches '(naics_code, description) =>
               if Py.contains keyword (Py.lower description)
                  && negb (List.existsb
                             (fun m => String.eqb (match_naics_code m) naics_code)
                             matches)
               then matches ++
                    [ {| match_naics_code := naics_code;
                         match_description := description;
                         keyword_match := keyword;
                         relevance := "description" |} ]
               else matches)
            NAICS_DESCRIPTIONS matches.

Definition search_naics_by_keyword (keyword : string) : list naics_match :=
  let keyword := Py.lower keyword in
  search_descriptions keyword (search_mappings keyword []).

End IndustryClassifierTool.

(* ===================================================================== *)
(** * agents/crm_lead_agent.py: deduplication on an exact key              *)
(* ===================================================================== *)

Module CRMLeadAgent.

(** The key of one business: its phone if there is one, else its name. *)
Definition dedup_key (business : record) : result string :=
  do name_s <- Val.as_str "lower" (Val.get_or business "business_name" (VStr ""));
  let name := Py.strip (Py.lower name_s) in
  do phone_s <- Val.as_str "strip" (Val.get_or business "phone_number" (VStr ""));
  let phone := Py.strip phone_s in
  Ok (if negb (String.eqb phone "") then phone else name).

(** The loop over the businesses: its state is the set [seen] and the
    list [unique_data]. *)
Definition state := (gset string * list record)%type.

Definition dedup_step (st : state) (business : record) : result state :=
  let '(seen, unique_data) := st in
  do key <- dedup_key business;
  if negb (String.eqb key "") && negb (bool_decide (key ∈ seen))
  then Ok ({[ key ]} ∪ seen, unique_data ++ [business])
  else Ok st.

Fixpoint dedup_loop (data : list record) (st : state) : result state :=
  match data with
  | [] => Ok st
  | business :: rest => do st <- dedup_step st business; dedup_loop rest st
  end.

Definition _deduplicate_businesses (data : list record) : result (list record) :=
  do st <- dedup_loop data (∅, []); Ok (snd st).

End CRMLeadAgent.

(* ===================================================================== *)
(** * scrapers/isp_scraper.py: deduplication on name similarity            *)
(* ===================================================================== *)

Module ISPScraper.

(** The double the literal [0.6] denotes. *)
Definition zero_point_six : F64.t := S754_finite false 5404319552844595 (-53).

(** [overlap / n > 0.6] *)
Definition ratio_exceeds (overlap n : nat) : bool :=
  F64.ltb zero_point_six (F64.truediv (Z.of_nat overlap) (Z.of_nat n)).

(** [re.sub(r'[^\w\s]', '', name)] *)
Definition normalize (name : string) : string :=
  Re.sub_class (fun c => negb (Py.isword c || Py.isspace c)) name.

Definition word_set (s : string) : gset string := list_to_set (Py.split s).

(** The test of the inner loop for one earlier name. *)
Definition similar (name_words : gset string) (seen_name : string) : bool :=
  let seen_words := word_set seen_name in
  let overlap := size (name_words ∩ seen_words) in
  (2 <=? overlap)%nat
  && (ratio_exceeds overlap (size name_words)
      || ratio_exceeds overlap (size seen_words)).

(** The inner loop: it stops at the first similar name. *)
Definition is_duplicate (name_words : gset string) (seen_names : gset string)
    : bool :=
  List.existsb (similar name_words) (elements seen_names).

Definition normalized_name (business : record) : result string :=
  do name_s <- Val.as_str "lower" (Val.get_or business "business_name" (VStr ""));
  Ok (normalize (Py.strip (Py.lower name_s))).

(** The loop over the businesses: its state is the set [seen_names]
    and the list [unique_businesses]. *)
Definition state := (gset string * list record)%type.

Definition dedup_step (st : state) (business : record) : result state :=
  let '(seen_names, unique_businesses) := st in
  do name_normalized <- normalized_name business;
  let name_words := word_set name_normalized in
  if is_duplicate name_words seen_names
  then Ok st
  else Ok ({[ name_normalized ]} ∪ seen_names, unique_businesses ++ [business]).

Fixpoint dedup_loop (businesses : list record) (st : state) : result state :=
  match businesses with
  | [] => Ok st
  | business :: rest => do st <- dedup_step st business; dedup_loop rest st
  end.

Definition _deduplicate_businesses (businesses : list record)
    : result (list record) :=
  match businesses with
  | [] => Ok []
  | _ => do st <- dedup_loop businesses (∅, []); Ok (snd st)
  end.

Definition isp_keywords : list string :=
  [ "internet"; "isp"; "broadband"; "fiber"; "cable"; "wireless";
    "telecommunications"; "telecom"; "network"; "connectivity" ].

Definition _is_isp_business (business_data : record) : result bool :=
  do name_s <- Val.as_str "lower" (Val.get_or business_data "business_name" (VStr ""));
  let name := Py.lower name_s in
  do description_s <-
    Val.as_str "lower" (Val.get_or business_data "business_description" (VStr ""));
  let description := Py.lower description_s in
  Ok (List.existsb (fun keyword =>
                      Py.contains keyword name || Py.contains keyword description)
                   isp_keywords).

Definition contact_fields : list string :=
  [ "ceo_name"; "ceo_email"; "ceo_linkedin"; "president_name"; "cfo_name";
    "cto_name"; "sales_director"; "marketing_director" ].

(** [if field not in enhanced_data: enhanced_data[field] = 'NOT_FOUND'],
    for every field of the list. *)
Definition fill_missing (fields : list string) (enhanced_data : record) : record :=
  fold_left (fun enhanced_data field =>
               match enhanced_data !! field with
               | Some _ => enhanced_data
               | None => <[ field := VStr "NOT_FOUND" ]> enhanced_data
               end)
            fields enhanced_data.

(** [extract_leadership_contacts] stands for the contact scraper, which
    reads the web and returns a dictionary whatever happens there.
    [None] stands for the [KeyError] of [business_data['business_name']]. *)
Definition _enhance_contact_information
    (extract_leadership_contacts : pyval -> pyval -> record)
    (business_data : record) : option record :=
  let enhanced_data := business_data in
  let looked_up :=
    if Val.truthy (Val.get business_data "website") then
      match business_data !! "business_name" with
      | Some business_name =>
          let contact_info :=
            extract_leadership_contacts (Val.get business_data "website")
                                        business_name in
          Some (Val.update enhanced_data contact_info)
      | None => None
      end
    else Some enhanced_data in
  match looked_up with
  | Some enhanced_data => Some (fill_missing contact_fields enhanced_data)
  | None => None
  end.

Definition _calculate_data_quality_score (data : record) : Z :=
  let score := 0 in
  let max_score := 10 in
  let score := if Val.truthy (Val.get data "business_name") then score + 2 else score in
  let score := if Val.truthy (Val.get data "phone_number") then score + 1 else score in
  let score := if Val.truthy (Val.get data "website") then score + 1 else score in
  let score := if Val.truthy (Val.get data "address") then score + 1 else score in
  let score :=
    if Val.truthy (Val.get data "business_description") then score + 1 else score in
  let score :=
    if Val.truthy (Val.get data "ceo_name")
       && Val.ne_str (Val.get data "ceo_name") "NOT_FOUND"
    then score + 1 else score in
  let score :=
    if Val.truthy (Val.get data "ceo_email")
       && Val.ne_str (Val.get data "ceo_email") "NOT_FOUND"
    then score + 1 else score in
  let score := if Val.truthy (Val.get data "service_type") then score + 1 else score in
  let score :=
    if Val.truthy (Val.get data "industry") || Val.truthy (Val.get data "naics_code")
    then score + 1 else score in
  Z.min score max_score.

End ISPScraper.

(* ===================================================================== *)
(** * processors/data_validator.py                                         *)
(* ===================================================================== *)

Module DataValidator.

Definition alnum_ascii (c : ascii) : bool :=
  Py.isupper_ascii c || Py.islower_ascii c || Py.isdecimal c.
Definition alpha_ascii (c : ascii) : bool :=
  Py.isupper_ascii c || Py.islower_ascii c.

(** [r'^[a-zA-Z0-9._%+-]+@[a-zA-Z0-9.-]+\.[a-zA-Z]{2,}$'] *)
Definition email_pattern : Re.regex :=
  Re.Cat Re.Bol
    (Re.Cat (Re.Plus (Re.Chr (fun c => alnum_ascii c || Re.any_of "._%+-" c)))
    (Re.Cat (Re.one "@")
    (Re.Cat (Re.Plus (Re.Chr (fun c => alnum_ascii c || Re.any_of ".-" c)))
    (Re.Cat (Re.one ".")
    (Re.Cat (Re.AtLeast 2 (Re.Chr alpha_ascii)) Re.Eol))))).

(** [r'^\(\d{3}\) \d{3}-\d{4}$'] *)
Definition phone_pattern : Re.regex :=
  Re.Cat Re.Bol
    (Re.Cat (Re.one "(") (Re.Cat (Re.Rep 3 Re.digit) (Re.Cat (Re.lit ") ")
    (Re.Cat (Re.Rep 3 Re.digit) (Re.Cat (Re.one "-")
    (Re.Cat (Re.Rep 4 Re.digit) Re.Eol)))))).

(** [r'^https?://.+\..+'] *)
Definition url_pattern : Re.regex :=
  Re.Cat Re.Bol
    (Re.Cat (Re.lit "http") (Re.Cat (Re.Opt (Re.one "s")) (Re.Cat (Re.lit "://")
    (Re.Cat (Re.Plus Re.dot) (Re.Cat (Re.one ".") (Re.Plus Re.dot)))))).

(** [r'([A-Z]{2})\s+(\d{5})'] *)
Definition state_zip_pattern : Re.regex :=
  Re.Cat (Re.Rep 2 (Re.Chr Py.isupper_ascii))
    (Re.Cat (Re.Plus Re.space) (Re.Rep 5 Re.digit)).

Definition suffixes : list (string * string) :=
  [ (" inc.", " Inc."); (" llc", " LLC"); (" corp.", " Corp.");
    (" ltd.", " Ltd."); (" co.", " Co.") ].

Definition _clean_business_name (name : string) : string :=
  let cleaned := Py.join " " (Py.split name) in
  fold_left (fun cleaned '(old, new) =>
               let cleaned := Py.replace old new cleaned in
               Py.replace (Py.title old) new cleaned)
            suffixes cleaned.

(** [parts[-2]] and [parts[-1]] of a list of at least two parts. *)
Fixpoint last_two (parts : list string) : option (string * string) :=
  match parts with
  | [a; b] => Some (a, b)
  | _ :: rest => last_two rest
  | [] => None
  end.

Definition _parse_address (address : string) : record :=
  let parsed : record := ∅ in
  if negb (String.eqb address "") && negb (String.eqb address "NOT_FOUND") then
    let parsed := <[ "headquarters_address" := VStr address ]> parsed in
    match last_two (Py.split_on "," address) with
    | Some (city_part, last_part) =>
        let parsed := <[ "headquarters_city" := VStr (Py.strip city_part) ]> parsed in
        let last_part := Py.strip last_part in
        match Re.search_group state_zip_pattern last_part with
        | Some m =>
            let parsed := <[ "headquarters_state" := VStr (Py.take 2 m) ]> parsed in
            <[ "headquarters_zip" := VStr (Py.drop (String.length m - 5) m) ]> parsed
        | None => parsed
        end
    | None => parsed
    end
  else parsed.

Definition _clean_description (description : string) : string :=
  let cleaned := Py.join " " (Py.split description) in
  if (500 <? String.length cleaned)%nat
  then Py.take 497 cleaned +:+ "..."
  else cleaned.

Definition _validate_core_fields (data : record) : result record :=
  let validated := data in
  do name_s <- Val.as_str "strip" (Val.get_or validated "business_name" (VStr ""));
  let business_name := Py.strip name_s in
  let validated :=
    if negb (String.eqb business_name "")
    then <[ "business_name" := VStr (_clean_business_name business_name) ]> validated
    else <[ "business_name" := VStr "UNKNOWN" ]> validated in
  do address_s <- Val.as_str "strip" (Val.get_or validated "address" (VStr ""));
  let address := Py.strip address_s in
  let validated :=
    if negb (String.eqb address "")
    then Val.update validated (_parse_address address)
    else validated in
  do description_s <-
    Val.as_str "strip" (Val.get_or validated "business_description" (VStr ""));
  let description := Py.strip description_s in
  let validated :=
    if negb (String.eqb description "")
    then <[ "business_description" := VStr (_clean_description description) ]> validated
    else validated in
  Ok validated.

(** A value that is present and is not the [NOT_FOUND] sentinel:
    [v and v != 'NOT_FOUND']. *)
Definition found (v : pyval) : bool := Val.truthy v && Val.ne_str v "NOT_FOUND".

(** [''.join(filter(str.isdigit, phone))] needs an iterable. *)
Definition digits_of (phone : pyval) : result string :=
  match phone with
  | VStr s => Ok (Py.filter Py.isdigit s)
  | _ => Raise (TypeError ("'" +:+ Val.type_name phone +:+ "' object is not iterable"))
  end.

Definition format_phone (d : string) : string :=
  "(" +:+ Py.take 3 d +:+ ") " +:+ Py.slice 3 6 d +:+ "-" +:+ Py.drop 6 d.

Definition _validate_phone (phone : pyval) : result pyval :=
  if negb (Val.truthy phone) || Val.eq_str phone "NOT_FOUND"
  then Ok (VStr "NOT_FOUND")
  else
    do digits <- digits_of phone;
    if (String.length digits =? 10)%nat then
      let formatted := format_phone digits in
      Ok (if Re.matches phone_pattern formatted then VStr formatted else phone)
    else if (String.length digits =? 11)%nat
            && String.prefix "1" digits then
      let formatted := format_phone (Py.drop 1 digits) in
      Ok (if Re.matches phone_pattern formatted then VStr formatted else phone)
    else Ok phone.

Definition _validate_email (email : pyval) : result pyval :=
  if negb (Val.truthy email) || Val.eq_str email "NOT_FOUND"
  then Ok (VStr "NOT_FOUND")
  else
    do email_s <- Val.as_str "strip" email;
    let email := Py.lower (Py.strip email_s) in
    Ok (if Re.matches email_pattern email then VStr email
        else VStr "INVALID_EMAIL").

Definition _validate_website (website : pyval) : result pyval :=
  if negb (Val.truthy website) || Val.eq_str website "NOT_FOUND"
  then Ok (VStr "NOT_FOUND")
  else
    do website_s <- Val.as_str "strip" website;
    let website := Py.strip website_s in
    let website :=
      if negb (Py.startswith website "http://" || Py.startswith website "https://")
      then "https://" +:+ website else website in
    Ok (if Re.matches url_pattern website then VStr website
        else VStr "INVALID_URL").

(** One step of the contact checks: the field is rewritten when it is
    found. *)
Definition validate_field (check : pyval -> result pyval) (field : string)
    (validated : record) : result record :=
  let value := Val.get_or validated field (VStr "") in
  if found value
  then do checked <- check value; Ok (<[ field := checked ]> validated)
  else Ok validated.

Definition email_fields : list string :=
  [ "ceo_email"; "general_email"; "sales_email"; "support_email" ].

Fixpoint validate_emails (fields : list string) (validated : record)
    : result record :=
  match fields with
  | [] => Ok validated
  | field :: rest =>
      do validated <- validate_field _validate_email field validated;
      validate_emails rest validated
  end.

Definition _validate_contact_info (data : record) : result record :=
  let validated := data in
  do validated <- validate_field _validate_phone "phone_number" validated;
  do validated <- validate_emails email_fields validated;
  validate_field _validate_website "website" validated.

Definition _calculate_confidence_score (data : record) : Z :=
  let score := 10 in
  let score :=
    if negb (Val.truthy (Val.get data "business_name"))
       || Val.eq_str (Val.get data "business_name") "UNKNOWN"
    then score - 3 else score in
  let score :=
    if negb (Val.truthy (Val.get data "phone_number"))
       || Val.eq_str (Val.get data "phone_number") "NOT_FOUND"
    then score - 2 else score in
  let score :=
    if negb (Val.truthy (Val.get data "address"))
       || Val.eq_str (Val.get data "address") "NOT_FOUND"
    then score - 2 else score in
  let score :=
    if negb (Val.truthy (Val.get data "website"))
       || Val.eq_str (Val.get data "website") "NOT_FOUND"
    then score - 1 else score in
  let score := if found (Val.get data "ceo_name") then score + 1 else score in
  let score := if found (Val.get data "ceo_email") then score + 1 else score in
  Z.max 1 (Z.min 10 score).

Definition _calculate_overall_quality_score (data : record) : Z :=
  let score := 0 in
  let score :=
    if Val.truthy (Val.get data "business_name")
       && Val.ne_str (Val.get data "business_name") "UNKNOWN"
    then score + 2 else score in
  let score :=
    if Val.truthy (Val.get data "business_description") then score + 1 else score in
  let score :=
    if Val.truthy (Val.get data "industry")
       || Val.truthy (Val.get data "industry_primary")
    then score + 1 else score in
  let score := if found (Val.get data "phone_number") then score + 1 else score in
  let score := if found (Val.get data "address") then score + 1 else score in
  let score := if found (Val.get data "website") then score + 1 else score in
  let score := if found (Val.get data "ceo_name") then score + 1 else score in
  let score := if found (Val.get data "ceo_email") then score + 1 else score in
  let score := if found (Val.get data "general_email") then score + 1 else score in
  Z.min 10 score.

Definition _calculate_lead_score (data : record) : Z :=
  let score := 5 in
  let score := if Val.truthy (Val.get data "company_size") then score + 1 else score in
  let score :=
    if Val.truthy (Val.get data "service_type")
       || Val.truthy (Val.get data "technology_focus")
    then score + 1 else score in
  let score :=
    if found (Val.get data "ceo_email") then score + 2
    else if found (Val.get data "general_email") then score + 1
    else score in
  let score := if found (Val.get data "website") then score + 1 else score in
  Z.min 10 score.

(** [value and str(value).strip() and value != 'NOT_FOUND'] *)
Definition completed (value : pyval) : bool :=
  Val.truthy value
  && negb (String.eqb (Py.strip (Val.str value)) "")
  && Val.ne_str value "NOT_FOUND".

Definition total_fields : Z := 50.

Definition completeness_of (completed_fields : Z) : Z :=
  Z.min 100
    (F64.trunc (F64.mul (F64.truediv completed_fields total_fields)
                        (F64.of_Z 100))).

Definition _calculate_quality_scores (data : record) : record :=
  let enhanced := data in
  let completed_fields :=
    Z.of_nat (length (List.filter completed (snd <$> map_to_list data))) in
  let enhanced :=
    <[ "completeness_score" := VInt (completeness_of completed_fields) ]> enhanced in
  let enhanced :=
    <[ "confidence_score" := VInt (_calculate_confidence_score data) ]> enhanced in
  let enhanced :=
    <[ "data_quality_score" := VInt (_calculate_overall_quality_score data) ]>
      enhanced in
  <[ "lead_score" := VInt (_calculate_lead_score data) ]> enhanced.

(** [quality_score >= n] needs a number. *)
Definition as_number (v : pyval) : result Z :=
  match v with
  | VInt n => Ok n
  | VBool b => Ok (if b then 1 else 0)
  | _ => Raise (TypeError
                  ("'>=' not supported between instances of '"
                   +:+ Val.type_name v +:+ "' and 'int'"))
  end.

(** [now] is the reading of the clock, as [strftime] shows it. *)
Definition _add_validation_metadata (now : string) (data : record)
    : result record :=
  let enhanced := <[ "validation_date" := VStr now ]> data in
  do quality_score <- as_number (Val.get_or enhanced "data_quality_score" (VInt 0));
  let status :=
    if 8 <=? quality_score then "high_quality"
    else if 6 <=? quality_score then "good_quality"
    else if 4 <=? quality_score then "acceptable_quality"
    else "needs_review" in
  Ok (<[ "validation_status" := VStr status ]> enhanced).

(** The steps run in a [try] that keeps the result of the last step
    that finished. *)
Definition validate_and_enhance (now : string) (business_data : record)
    : record :=
  let enhanced_data := business_data in
  match _validate_core_fields enhanced_data with
  | Raise _ => enhanced_data
  | Ok enhanced_data =>
      match _validate_contact_info enhanced_data with
      | Raise _ => enhanced_data
      | Ok enhanced_data =>
          let enhanced_data := _calculate_quality_scores enhanced_data in
          match _add_validation_metadata now enhanced_data with
          | Raise _ => enhanced_data
          | Ok enhanced_data => enhanced_data
          end
      end
  end.

End DataValidator.

(* ===================================================================== *)
(** * tools/data_validator_tool.py: the boolean field validators           *)
(* ===================================================================== *)

Module DataValidatorTool.

(** [r'^\(?([0-9]{3})\)?[-. ]?([0-9]{3})[-. ]?([0-9]{4})$'] *)
Definition phone_pattern : Re.regex :=
  let sep := Re.Opt (Re.Chr (Re.any_of "-. ")) in
  Re.Cat Re.Bol
    (Re.Cat (Re.Opt (Re.one "(")) (Re.Cat (Re.Rep 3 Re.digit)
    (Re.Cat (Re.Opt (Re.one ")")) (Re.Cat sep (Re.Cat (Re.Rep 3 Re.digit)
    (Re.Cat sep (Re.Cat (Re.Rep 4 Re.digit) Re.Eol))))))).

(** [r'^https?://[^\s/$.?#].[^\s]*$'] *)
Definition url_pattern : Re.regex :=
  Re.Cat Re.Bol
    (Re.Cat (Re.lit "http") (Re.Cat (Re.Opt (Re.one "s")) (Re.Cat (Re.lit "://")
    (Re.Cat (Re.Chr (fun c => negb (Py.isspace c || Re.any_of "/$.?#" c)))
    (Re.Cat Re.dot
    (Re.Cat (Re.Star (Re.Chr (fun c => negb (Py.isspace c)))) Re.Eol)))))).

Definition _validate_phone (phone : string) : bool :=
  if String.eqb phone "" then false
  else Re.matches phone_pattern (Py.strip phone).

Definition _validate_address (address : string) : bool :=
  if String.eqb address "" then false
  else (10 <? String.length (Py.strip address))%nat
       && Py.existsb Py.isdigit address.

Definition _validate_website (website : string) : bool :=
  if String.eqb website "" then false
  else Re.matches url_pattern (Py.strip website).

(** [r'^[a-zA-Z0-9._%+-]+@[a-zA-Z0-9.-]+\.[a-zA-Z]{2,}$'], the pattern of
    [processors/data_validator.py] again. *)
Definition email_pattern : Re.regex := DataValidator.email_pattern.

Definition _validate_email (email : string) : bool :=
  if String.eqb email "" then false
  else Re.matches email_pattern (Py.strip email).

(** A validator on the value of a field: [if not value: return False]
    comes first, and what is left must have the string methods. *)
Definition on_field (check : string -> bool) (value : pyval) : result bool :=
  if negb (Val.truthy value) then Ok false
  else do s <- Val.as_str "strip" value; Ok (check s).

(** The dictionary that [validate] returns. *)
Record validation := {
  phone_valid : bool;
  email_valid : bool;
  address_valid : bool;
  website_valid : bool;
  validation_flags : list string;
  quality_score : F64.t
}.

(** [validation_results] is read for its three flags. *)
Definition _calculate_quality_score (business_data : record)
    (phone_valid email_valid website_valid : bool) : F64.t :=
  let score := F64.of_Z 0 in
  let max_score := F64.of_Z 0 in
  let score := if Val.truthy (Val.get business_data "business_name")
               then F64.add score (F64.hundredths 30) else score in
  let max_score := F64.add max_score (F64.hundredths 30) in
  let score := if Val.truthy (Val.get business_data "address")
               then F64.add score (F64.hundredths 20) else score in
  let max_score := F64.add max_score (F64.hundredths 20) in
  let score := if phone_valid then F64.add score (F64.hundredths 20) else score in
  let max_score := F64.add max_score (F64.hundredths 20) in
  let score := if email_valid then F64.add score (F64.hundredths 10) else score in
  let max_score := F64.add max_score (F64.hundredths 10) in
  let score := if website_valid then F64.add score (F64.hundredths 10) else score in
  let max_score := F64.add max_score (F64.hundredths 10) in
  let score := if Val.truthy (Val.get business_data "business_description")
               then F64.add score (F64.hundredths 10) else score in
  let max_score := F64.add max_score (F64.hundredths 10) in
  let final_score :=
    if F64.ltb (F64.of_Z 0) max_score then F64.div score max_score
    else F64.of_Z 0 in
  F64.round2 final_score.

Definition validation_error : validation :=
  {| quality_score := F64.hundredths 10;
     validation_flags := ["validation_error"];
     phone_valid := false;
     email_valid := false;
     address_valid := false;
     website_valid := false |}.

Definition validate (business_data : record) : validation :=
  try_except
    (do phone_ok <-
       on_field _validate_phone (Val.get_or business_data "phone_number" (VStr ""));
     do email_ok <-
       on_field _validate_email (Val.get_or business_data "email_address" (VStr ""));
     do address_ok <-
       on_field _validate_address (Val.get_or business_data "address" (VStr ""));
     do website_ok <-
       on_field _validate_website (Val.get_or business_data "website" (VStr ""));
     Ok {| phone_valid := phone_ok;
           email_valid := email_ok;
           address_valid := address_ok;
           website_valid := website_ok;
           validation_flags := [];
           quality_score :=
             _calculate_quality_score business_data phone_ok email_ok website_ok |})
    (fun _ => validation_error).

End DataValidatorTool.

(* ===================================================================== *)
(** * agents/crm_lead_agent.py: the classification step                    *)
(* ===================================================================== *)

Module CRMLeadGenerationAgent.

(** What [_classify_industries] hands to the classifier tool for one
    business. *)
Definition classification_input (business : record) : record :=
  {[ "company_name" := Val.get_or business "business_name" (VStr "");
     "description" := Val.get_or business "business_description" (VStr "");
     "website" := Val.get_or business "website" (VStr "");
     "location" := Val.get_or business "address" (VStr "") ]}.

(** The fields that the [except] branch of the loop body writes. *)
Definition classification_failed : record :=
  {[ "naics_code" := VNone;
     "industry_category" := VStr "Unknown";
     "industry_description" := VStr "Classification failed";
     "classification_confidence" := VInt 0 ]}.

(** The body of the loop of [_classify_industries]. *)
Definition classify_business (llm_client : option IndustryClassifierTool.llm_client)
    (business : record) : record :=
  try_except
    (let classification_input := classification_input business in
     let classification :=
       IndustryClassifierTool.classify llm_client classification_input in
     Ok (Val.update business
           {[ "naics_code" := Val.get classification "naics_code";
              "industry_category" := Val.get classification "industry_category";
              "industry_description" := Val.get classification "industry_description";
              "classification_confidence" :=
                Val.get_or classification "confidence_score" (VInt 0) ]}))
    (fun _ => Val.update business classification_failed).

(** The batches of ten are gone through one after the other, so every
    business is classified, in the order of the list. *)
Definition _classify_industries (llm_client : option IndustryClassifierTool.llm_client)
    (data : list record) : list record :=
  List.map (classify_business llm_client) data.

End CRMLeadGenerationAgent.

(* ===================================================================== *)
(** * urllib.parse                                                         *)
(* ===================================================================== *)

(** The scheme and the network location that [urlparse] of Python's
    standard library finds in a URL, after [urlsplit] of CPython 3.11,
    with the check of a bracketed host that it makes through the
    [ipaddress] module. The library is not part of the repository. *)
Module Urllib.

Definition scheme_char (c : ascii) : bool :=
  Py.isupper_ascii c || Py.islower_ascii c || Py.isdecimal c
  || Re.any_of "+-." c.

Definition c0_control_or_space (c : ascii) : bool := (Py.ord c <=? 32)%N.

Fixpoint lstrip_c0 (url : string) : string :=
  match url with
  | EmptyString => EmptyString
  | String c url' => if c0_control_or_space c then lstrip_c0 url' else url
  end.

(** Tabs, carriage returns and newlines are removed. *)
Definition unsafe (c : ascii) : bool := Py.between 9 10 c || Py.code_is 13 c.

(** The text before the first character that satisfies [p], and the
    text from it on. *)
Fixpoint break (p : ascii -> bool) (s : string) : string * string :=
  match s with
  | EmptyString => (EmptyString, EmptyString)
  | String c s' =>
      if p c then (EmptyString, s)
      else let '(a, b) := break p s' in (String c a, b)
  end.

Fixpoint forallb (p : ascii -> bool) (s : string) : bool :=
  match s with
  | EmptyString => true
  | String c s' => p c && forallb p s'
  end.

(** [s.partition(sep)]: the text before the first [sep], whether there
    is one, and the text after it. *)
Definition partition (sep : ascii) (s : string) : string * bool * string :=
  let '(before, from_sep) := break (Ascii.eqb sep) s in
  match from_sep with
  | EmptyString => (before, false, EmptyString)
  | String _ after => (before, true, after)
  end.

(** [s.rpartition(sep)[2]]: the text after the last [sep], all of [s]
    when there is none. *)
Fixpoint after_last (sep : ascii) (s : string) : string :=
  match s with
  | EmptyString => EmptyString
  | String c s' =>
      if Py.existsb (Ascii.eqb sep) s' then after_last sep s'
      else if Ascii.eqb sep c then s' else s
  end.

(** [int(s, 10)] and [int(s, 16)] on digits. *)
Definition digit_value (c : ascii) : N :=
  if Py.isdecimal c then (Py.ord c - 48)%N
  else if Py.between 97 102 c then (Py.ord c - 87)%N
  else (Py.ord c - 55)%N.

Fixpoint int_go (base acc : N) (s : string) : N :=
  match s with
  | EmptyString => acc
  | String c s' => int_go base (acc * base + digit_value c)%N s'
  end.
Definition int_of (base : N) (s : string) : N := int_go base 0%N s.

(** ['%x' % n] *)
Definition hex_char (d : N) : ascii :=
  if (d <? 10)%N then ascii_of_N (48 + d) else ascii_of_N (87 + d).

Fixpoint hex_go (fuel : nat) (n : N) (acc : string) : string :=
  match fuel with
  | O => acc
  | S fuel' =>
      let acc' := String (hex_char (n mod 16)) acc in
      if (n <? 16)%N then acc' else hex_go fuel' (n / 16)%N acc'
  end.
Definition hex (n : N) : string := hex_go (S (N.to_nat (N.log2 n))) n EmptyString.

(** [IPv4Address._parse_octet] returns. *)
Definition octet_ok (octet_str : string) : bool :=
  negb (String.eqb octet_str "")
  && forallb Py.isdecimal octet_str
  && (String.length octet_str <=? 3)%nat
  && (String.eqb octet_str "0" || negb (Py.startswith octet_str "0"))
  && (int_of 10 octet_str <=? 255)%N.

(** [IPv4Address(address)]: the integer of the address, [None] for an
    [AddressValueError]. *)
Definition ipv4_address (address : string) : option N :=
  if Py.existsb (Ascii.eqb "/") address then None
  else if String.eqb address "" then None
  else
    let octets := Py.split_on "." address in
    if negb (length octets =? 4)%nat then None
    else if negb (List.forallb octet_ok octets) then None
    else Some (fold_left (fun acc octet => (acc * 256 + int_of 10 octet)%N)
                         octets 0%N).

Definition hex_digit (c : ascii) : bool :=
  Py.isdecimal c || Py.between 65 70 c || Py.between 97 102 c.

(** [IPv6Address._parse_hextet] returns: [int('', 16)] raises too. *)
Definition hextet_ok (hextet_str : string) : bool :=
  forallb hex_digit hextet_str
  && (String.length hextet_str <=? 4)%nat
  && negb (String.eqb hextet_str "").

(** [IPv6Address._ip_int_from_string] returns. *)
Definition ipv6_int_ok (ip_str : string) : bool :=
  if String.eqb ip_str "" then false
  else
    let parts := Py.split_on ":" ip_str in
    if (length parts <? 3)%nat then false
    else
      let with_suffix :=
        if Py.existsb (Ascii.eqb ".") (List.last parts EmptyString)
        then match ipv4_address (List.last parts EmptyString) with
             | Some ipv4_int =>
                 Some (removelast parts
                       ++ [ hex (N.land (N.shiftr ipv4_int 16) 65535);
                            hex (N.land ipv4_int 65535) ])
             | None => None
             end
        else Some parts in
      match with_suffix with
      | None => false
      | Some parts =>
          let count := length parts in
          if (9 <? count)%nat then false
          else
            let first_empty := String.eqb (nth 0 parts EmptyString) "" in
            let last_empty := String.eqb (List.last parts EmptyString) "" in
            match List.filter (fun i => String.eqb (nth i parts EmptyString) "")
                              (seq 1 (count - 2)) with
            | _ :: _ :: _ => false
            | [skip_index] =>
                let parts_hi := if first_empty then skip_index - 1 else skip_index in
                let parts_lo := if last_empty then count - skip_index - 1 - 1
                                else count - skip_index - 1 in
                if first_empty && negb (parts_hi =? 0) then false
                else if last_empty && negb (parts_lo =? 0) then false
                else if (8 - (parts_hi + parts_lo) <? 1) then false
                else List.forallb hextet_ok (take parts_hi parts)
                     && List.forallb hextet_ok (drop (count - parts_lo) parts)
            | [] =>
                if negb (count =? 8) then false
                else if first_empty then false
                else if last_empty then false
                else List.forallb hextet_ok parts
            end%nat
      end.

(** [IPv6Address(address)] returns: the scope after a [%] is split off
    first. *)
Definition ipv6_address_ok (address : string) : bool :=
  if Py.existsb (Ascii.eqb "/") address then false
  else
    let '(addr, sep, scope_id) := partition "%" address in
    if sep && (String.eqb scope_id "" || Py.existsb (Ascii.eqb "%") scope_id)
    then false
    else ipv6_int_ok addr.

(** [re.match(r"\Av[a-fA-F0-9]+\..+\Z", hostname)] *)
Definition ipvfuture_ok (hostname : string) : bool :=
  match hostname with
  | String "v" rest =>
      let '(digits, from_dot) := break (fun c => negb (hex_digit c)) rest in
      negb (String.eqb digits "")
      && match from_dot with
         | String "." tail =>
             negb (String.eqb tail "")
             && forallb (fun c => negb (Py.code_is 10 c)) tail
         | _ => false
         end
  | _ => false
  end.

(** [_check_bracketed_host] returns: an IPvFuture address, or an
    address that [ip_address] takes and that is no IPv4 address. *)
Definition check_bracketed_host (hostname : string) : bool :=
  if Py.startswith hostname "v" then ipvfuture_ok hostname
  else match ipv4_address hostname with
       | Some _ => false
       | None => ipv6_address_ok hostname
       end.

(** [_check_bracketed_netloc] returns. *)
Definition check_bracketed_netloc (netloc : string) : bool :=
  let hostname_and_port := after_last "@" netloc in
  let '(before_bracket, have_open_br, bracketed) :=
    partition "[" hostname_and_port in
  if have_open_br then
    if negb (String.eqb before_bracket "") then false
    else
      let '(hostname, _, port) := partition "]" bracketed in
      if negb (String.eqb port "") && negb (Py.startswith port ":") then false
      else check_bracketed_host hostname
  else
    let '(hostname, _, _) := partition ":" hostname_and_port in
    check_bracketed_host hostname.

(** [None] stands for the [ValueError] of a netloc whose brackets are
    unbalanced or hold no IP literal. The check of [_checknetloc] never
    fails on the characters of a string here, none of which normalises
    to a delimiter. *)
Definition urlparse (url : string) : option (string * string) :=
  let url := Py.filter (fun c => negb (unsafe c)) (lstrip_c0 url) in
  let '(before, from_colon) := break (Ascii.eqb ":") url in
  let '(scheme, url) :=
    match before, from_colon with
    | String c _, String _ rest =>
        if (Py.isupper_ascii c || Py.islower_ascii c) && forallb scheme_char before
        then (Py.lower before, rest) else (EmptyString, url)
    | _, _ => (EmptyString, url)
    end in
  if Py.startswith url "//" then
    let netloc := fst (break (Re.any_of "/?#") (Py.drop 2 url)) in
    let has_open := Py.existsb (Ascii.eqb "[") netloc in
    let has_close := Py.existsb (Ascii.eqb "]") netloc in
    if xorb has_open has_close then None
    else if has_open && has_close && negb (check_bracketed_netloc netloc) then None
    else Some (scheme, netloc)
  else Some (scheme, EmptyString).

End Urllib.

(* ===================================================================== *)
(** * scripts/run_isp_nc.py: the ISP data validator                        *)
(* ===================================================================== *)

Module ISPDataValidator.

Record validation := {
  quality_score : F64.t;
  phone_valid : bool;
  website_valid : bool;
  validation_flags : list string
}.

(** [if not phone: return False], then [phone.strip()]. *)
Definition _validate_phone (phone : pyval) : result bool :=
  if negb (Val.truthy phone) then Ok false
  else
    do phone_s <- Val.as_str "strip" phone;
    Ok (Re.matches DataValidatorTool.phone_pattern (Py.strip phone_s)).

(** Whatever [urlparse] raises is caught. *)
Definition _validate_website (website : pyval) : bool :=
  if negb (Val.truthy website) then false
  else match website with
       | VStr url =>
           match Urllib.urlparse url with
           | Some (scheme, netloc) =>
               negb (String.eqb scheme "") && negb (String.eqb netloc "")
           | None => false
           end
       | _ => false
       end.

(** The running state of [validate]: the score and the flags. *)
Definition state := (F64.t * list string)%type.

Definition credit (w : Z) (st : state) : state :=
  (F64.add (fst st) (F64.hundredths w), snd st).
Definition flag (f : string) (st : state) : state := (fst st, snd st ++ [f]).

Definition validate (business_data : record) : result validation :=
  let st : state := (F64.of_Z 0, []) in
  let st := if Val.truthy (Val.get business_data "business_name")
            then credit 25 st else flag "missing_business_name" st in
  let st := if Val.truthy (Val.get business_data "address")
            then credit 15 st else flag "missing_address" st in
  do st <-
    (if Val.truthy (Val.get business_data "phone_number") then
       let st := credit 20 st in
       do ok <- _validate_phone (Val.get business_data "phone_number");
       Ok (if ok then credit 5 st else flag "invalid_phone_format" st)
     else Ok (flag "missing_phone" st));
  let st :=
    if Val.truthy (Val.get business_data "website") then
      let st := credit 15 st in
      if _validate_website (Val.get business_data "website")
      then credit 5 st else flag "invalid_website_format" st
    else flag "missing_website" st in
  let st := if Val.truthy (Val.get business_data "business_description")
            then credit 15 st else flag "missing_description" st in
  let st := if Val.truthy (Val.get business_data "service_type")
            then credit 5 st else st in
  let st := if Val.truthy (Val.get business_data "coverage")
            then credit 5 st else st in
  do phone_ok <- _validate_phone (Val.get_or business_data "phone_number" (VStr ""));
  Ok {| quality_score := F64.round2 (fst st);
        phone_valid := phone_ok;
        website_valid := _validate_website (Val.get_or business_data "website" (VStr ""));
        validation_flags := snd st |}.

End ISPDataValidator.

(* ===================================================================== *)
(** * scripts/run_isp_nc.py: the ISP classifier and the name filter         *)
(* ===================================================================== *)

Module ISPClassifier.

Definition isp_keywords : list string :=
  [ "internet service provider"; "isp"; "broadband"; "internet";
    "telecommunications"; "telecom"; "fiber"; "cable internet";
    "wireless internet"; "satellite internet"; "dsl"; "high-speed internet" ].

(** [any(word in combined_text for word in words)] *)
Definition any_in (words : list string) (combined_text : string) : bool :=
  List.existsb (fun word => Py.contains word combined_text) words.

(** [keyword in words], for a list of literals. *)
Definition among (keyword : string) (words : list string) : bool :=
  List.existsb (String.eqb keyword) words.

Definition _determine_isp_type (name description service_type : string) : string :=
  let combined_text := name +:+ " " +:+ description +:+ " " +:+ service_type in
  if any_in ["fiber"; "fibre"] combined_text then "Fiber"
  else if any_in ["cable"; "coax"] combined_text then "Cable"
  else if any_in ["satellite"] combined_text then "Satellite"
  else if any_in ["dsl"; "digital subscriber"] combined_text then "DSL"
  else if any_in ["wireless"; "radio"] combined_text then "Wireless"
  else "Mixed/Other".

Definition _calculate_confidence (name description : string) : Z :=
  let combined_text := name +:+ " " +:+ description in
  let score := 0 in
  let score :=
    fold_left (fun score keyword =>
                 if Py.contains keyword combined_text then
                   if among keyword ["internet service provider"; "isp"]
                   then score + 30
                   else if among keyword ["broadband"; "internet"]
                   then score + 20
                   else score + 10
                 else score)
              isp_keywords score in
  let score :=
    if any_in ["telecommunications"; "telecom"] combined_text
    then score + 15 else score in
  let score :=
    if any_in ["fiber"; "cable"; "satellite"; "dsl"] combined_text
    then score + 10 else score in
  Z.min score 100.

Definition classify (business_data : record) : result record :=
  do name_s <- Val.as_str "lower" (Val.get_or business_data "business_name" (VStr ""));
  let business_name := Py.lower name_s in
  do description_s <-
    Val.as_str "lower" (Val.get_or business_data "business_description" (VStr ""));
  let description := Py.lower description_s in
  do service_s <- Val.as_str "lower" (Val.get_or business_data "service_type" (VStr ""));
  let service_type := Py.lower service_s in
  let isp_type := _determine_isp_type business_name description service_type in
  let confidence := _calculate_confidence business_name description in
  Ok ({[ "naics_code" := VStr "517311";
         "industry_category" := VStr "Telecommunications";
         "industry_description" := VStr "Internet Service Providers";
         "isp_type" := VStr isp_type;
         "confidence_score" := VInt confidence;
         "classification_method" := VStr "keyword_matching" ]} : record).

End ISPClassifier.

Module NCISPLeadGenerator.

(** The loop of [_deduplicate_businesses]: its state is the set
    [seen_names] and the list [unique_businesses]. *)
Definition state := (gset string * list record)%type.

Definition dedup_step (st : state) (business : record) : result state :=
  let '(seen_names, unique_businesses) := st in
  do name_s <- Val.as_str "lower" (Val.get_or business "business_name" (VStr ""));
  let name := Py.strip (Py.lower name_s) in
  if negb (String.eqb name "") && negb (bool_decide (name ∈ seen_names))
  then Ok ({[ name ]} ∪ seen_names, unique_businesses ++ [business])
  else Ok st.

Fixpoint dedup_loop (data : list record) (st : state) : result state :=
  match data with
  | [] => Ok st
  | business :: rest => do st <- dedup_step st business; dedup_loop rest st
  end.

Definition _deduplicate_businesses (data : list record) : result (list record) :=
  do st <- dedup_loop data (∅, []); Ok (snd st).

(** Steps 3 and 4 of [generate_isp_leads] on one business, as far as the
    validation reads it: the classification is merged into the business
    before it is validated. *)
Definition classify_then_validate (business : record)
    : result ISPDataValidator.validation :=
  do classification <- ISPClassifier.classify business;
  ISPDataValidator.validate (Val.update business classification).

(** The test of [high_quality_leads]: [quality_score > 0.7]. *)
Definition high_quality (validation : ISPDataValidator.validation) : bool :=
  F64.ltb (F64.hundredths 70) (ISPDataValidator.quality_score validation).

End NCISPLeadGenerator.

(* ===================================================================== *)
(** * processors/industry_classifier.py                                    *)
(* ===================================================================== *)

Module IndustryClassifier.

(** [r'\bw\b'] under [re.IGNORECASE] *)
Definition word (w : string) : Re.regex :=
  Re.Cat Re.Wordb (Re.Cat (Re.lit_i w) Re.Wordb).

(** [_build_naics_mapping]: industry to code and description. *)
Definition naics_mapping : list (string * (string * string)) :=
  [
    ("Internet Service Provider", ("517311", "Wired Telecommunications Carriers"));
    ("Telecommunications", ("517000", "Telecommunications"));
    ("Software Development", ("541511", "Custom Computer Programming Services"));
    ("IT Services", ("541512", "Computer Systems Design Services"));
    ("Computer Services", ("541510", "Computer Systems Design and Related Services"));
    ("Medical Practice", ("621111", "Offices of Physicians (except Mental Health Specialists)"));
    ("Legal Services", ("541110", "Offices of Lawyers"));
    ("Accounting", ("541211", "Offices of Certified Public Accountants"));
    ("Real Estate", ("531210", "Offices of Real Estate Agents and Brokers"));
    ("Insurance", ("524210", "Insurance Agencies and Brokerages"));
    ("Banking", ("522110", "Commercial Banking"));
    ("Restaurant", ("722511", "Full-Service Restaurants"));
    ("Retail", ("441000", "Motor Vehicle and Parts Dealers"));
    ("Manufacturing", ("311000", "Food Manufacturing"));
    ("Construction", ("236100", "Residential Building Construction"));
    ("Consulting", ("541611", "Administrative Management and General Management Consulting Services"));
    ("Marketing Services", ("541810", "Advertising Agencies"));
    ("Engineering Services", ("541330", "Engineering Services"))
  ].

(** [_build_keyword_patterns]: industry to weighted patterns, all
    searched under [re.IGNORECASE]. *)
Definition keyword_patterns : list (string * list (Re.regex * Z)) :=
  [
    ("Internet Service Provider",
     [ (word "isp", 5);
       (Re.lit_i "internet service", 5);
       (Re.lit_i "broadband", 4);
       (Re.lit_i "fiber optic", 4);
       (Re.lit_i "telecommunications", 3);
       (Re.lit_i "cable internet", 4);
       (Re.lit_i "wireless internet", 4);
       (Re.lit_i "network provider", 3) ]);
    ("Telecommunications",
     [ (Re.Cat (Re.lit_i "telecommunication") (Re.Opt (Re.lit_i "s")), 5);
       (Re.lit_i "telecom", 4);
       (Re.lit_i "phone service", 3);
       (Re.lit_i "wireless", 3);
       (Re.lit_i "cellular", 3);
       (Re.lit_i "mobile service", 3) ]);
    ("Software Development",
     [ (Re.lit_i "software development", 5);
       (Re.lit_i "programming", 4);
       (Re.lit_i "application development", 4);
       (Re.lit_i "web development", 4);
       (Re.lit_i "mobile app", 3);
       (Re.lit_i "custom software", 4) ]);
    ("IT Services",
     [ (Re.lit_i "it services", 5);
       (Re.lit_i "information technology", 4);
       (Re.lit_i "computer support", 3);
       (Re.lit_i "network services", 3);
       (Re.lit_i "tech support", 3);
       (Re.lit_i "managed services", 4) ]);
    ("Medical Practice",
     [ (Re.lit_i "medical", 4);
       (Re.lit_i "physician", 5);
       (Re.lit_i "doctor", 4);
       (Re.lit_i "clinic", 4);
       (Re.lit_i "healthcare", 3);
       (Re.lit_i "dental", 4);
       (Re.lit_i "dentist", 5) ]);
    ("Legal Services",
     [ (Re.lit_i "law firm", 5);
       (Re.lit_i "attorney", 5);
       (Re.lit_i "lawyer", 5);
       (Re.lit_i "legal services", 5);
       (Re.lit_i "paralegal", 3) ]);
    ("Real Estate",
     [ (Re.lit_i "real estate", 5);
       (Re.lit_i "realtor", 5);
       (Re.lit_i "property management", 4);
       (Re.lit_i "home sales", 3);
       (Re.lit_i "commercial property", 4) ]);
    ("Restaurant",
     [ (Re.lit_i "restaurant", 5);
       (Re.lit_i "food service", 4);
       (Re.lit_i "dining", 3);
       (Re.lit_i "cafe", 4);
       (Re.lit_i "bistro", 4);
       (Re.lit_i "eatery", 4) ]);
    ("Retail",
     [ (Re.lit_i "retail", 4);
       (Re.lit_i "store", 3);
       (Re.lit_i "shop", 3);
       (Re.lit_i "sales", 2);
       (Re.lit_i "merchandise", 3) ]);
    ("Manufacturing",
     [ (Re.lit_i "manufacturing", 5);
       (Re.lit_i "factory", 4);
       (Re.lit_i "production", 3);
       (Re.lit_i "industrial", 3);
       (Re.lit_i "assembly", 3) ]);
    ("Construction",
     [ (Re.lit_i "construction", 5);
       (Re.lit_i "contractor", 4);
       (Re.lit_i "building", 3);
       (Re.lit_i "renovation", 3);
       (Re.lit_i "remodeling", 3) ]);
    ("Consulting",
     [ (Re.lit_i "consulting", 5);
       (Re.lit_i "consultant", 4);
       (Re.lit_i "advisory", 3);
       (Re.lit_i "business services", 3) ]);
    ("Accounting",
     [ (Re.lit_i "accounting", 5);
       (Re.lit_i "accountant", 5);
       (Re.lit_i "cpa", 5);
       (Re.lit_i "bookkeeping", 4);
       (Re.lit_i "tax preparation", 4) ]);
    ("Insurance",
     [ (Re.lit_i "insurance", 5);
       (Re.lit_i "coverage", 3);
       (Re.lit_i "policy", 3);
       (Re.lit_i "claims", 3) ])
  ].

Fixpoint lookup {A} (k : string) (table : list (string * A)) : option A :=
  match table with
  | [] => None
  | (k', v) :: rest => if String.eqb k' k then Some v else lookup k rest
  end.

(** The inner loop: the weight and the number of the patterns found. *)
Definition tally (text : string) (patterns : list (Re.regex * Z)) : Z * Z :=
  fold_left (fun '(score, matches) '(pattern, weight) =>
               if Re.search pattern text
               then (score + weight, matches + 1)
               else (score, matches))
            patterns (0, 0).

Definition best_step (text : string) (acc : option string * F64.t)
    (entry : string * list (Re.regex * Z)) : option string * F64.t :=
  let '(best_match, highest_score) := acc in
  let '(industry, patterns) := entry in
  let '(score, matches) := tally text patterns in
  if 0 <? matches then
    let normalized_score := F64.truediv score (Z.of_nat (length patterns)) in
    if F64.ltb highest_score normalized_score
    then (Some industry, normalized_score)
    else (best_match, highest_score)
  else (best_match, highest_score).

Definition _classify_by_keywords (text : string) : string * string * Z :=
  let '(best_match, highest_score) :=
    fold_left (best_step text) keyword_patterns (None, F64.of_Z 0) in
  match best_match with
  | Some industry =>
      if negb (String.eqb industry "") then
        let naics_code :=
          match lookup industry naics_mapping with
          | Some (code, _) => code
          | None => "UNKNOWN"
          end in
        let confidence :=
          Z.min 10 (F64.trunc (F64.mul highest_score (F64.of_Z 10))) in
        (industry, naics_code, confidence)
      else ("Unknown", "UNKNOWN", 1)
  | None => ("Unknown", "UNKNOWN", 1)
  end.

Definition _find_secondary_industries (text primary : string) : list string :=
  let secondary :=
    fold_left (fun secondary '(industry, patterns) =>
                 if String.eqb industry primary then secondary
                 else
                   let score := fst (tally text patterns) in
                   if 2 <=? score then secondary ++ [industry] else secondary)
              keyword_patterns [] in
  take 3 secondary.

Definition categories : list (string * list string) :=
  [ ("Technology",
     [ "Software Development"; "Internet Service Provider"; "Computer Services";
       "IT Services"; "Telecommunications"; "Data Processing" ]);
    ("Healthcare",
     [ "Medical Practice"; "Healthcare Services"; "Pharmaceutical";
       "Medical Equipment"; "Dental Services" ]);
    ("Financial Services",
     [ "Banking"; "Insurance"; "Investment Services"; "Real Estate";
       "Financial Planning"; "Accounting" ]);
    ("Professional Services",
     [ "Legal Services"; "Consulting"; "Marketing Services";
       "Engineering Services"; "Architectural Services" ]);
    ("Manufacturing",
     [ "Manufacturing"; "Construction"; "Industrial Services";
       "Automotive"; "Aerospace" ]);
    ("Retail/Commerce",
     [ "Retail"; "E-commerce"; "Wholesale"; "Food Services";
       "Restaurant"; "Hospitality" ]);
    ("Energy/Utilities",
     [ "Utilities"; "Energy Services"; "Oil and Gas";
       "Renewable Energy"; "Environmental Services" ]) ].

Fixpoint category_of (industry : string) (table : list (string * list string))
    : string :=
  match table with
  | [] => "Other"
  | (category, industries) :: rest =>
      if List.existsb (String.eqb industry) industries then category
      else category_of industry rest
  end.

Definition _get_industry_category (industry : string) : string :=
  category_of industry categories.

(** The classification of the [except] branch. Reading a dictionary and
    formatting its values does not raise, so [classify] never takes it. *)
Definition _default_classification : record :=
  {[ "industry_primary" := VStr "Unknown";
     "naics_code" := VStr "UNKNOWN";
     "industry_confidence" := VInt 1;
     "industry_category" := VStr "Other";
     "classification_method" := VStr "default" ]}.

Definition classify (business_data : record) : record :=
  let business_name := Val.get_or business_data "business_name" (VStr "") in
  let description := Val.get_or business_data "business_description" (VStr "") in
  let existing_industry := Val.get_or business_data "industry" (VStr "") in
  let combined_text :=
    Py.lower (Val.str business_name +:+ " " +:+ Val.str description
              +:+ " " +:+ Val.str existing_industry) in
  let '(primary_industry, naics_code, confidence) :=
    _classify_by_keywords combined_text in
  let classification : record :=
    {[ "industry_primary" := VStr primary_industry;
       "naics_code" := VStr naics_code;
       "industry_confidence" := VInt confidence;
       "industry_category" := VStr (_get_industry_category primary_industry);
       "classification_method" := VStr "keyword_matching" ]} in
  let secondary_industries :=
    _find_secondary_industries combined_text primary_industry in
  match secondary_industries with
  | [] => classification
  | _ => <[ "industry_secondary" := VStr (Py.join ", " secondary_industries) ]>
           classification
  end.

End IndustryClassifier.

(* ===================================================================== *)
(** * main.py: classification, then validation, of one record              *)
(* ===================================================================== *)

Module EnhancedCRMApp.

(** [industry_info = classifier.classify(business)] and
    [business.update(industry_info)], as in [_generate_business_leads]. *)
Definition classify_business (business : record) : record :=
  Val.update business (IndustryClassifier.classify business).

(** One run of classification and validation over a record; [now] is the
    clock of the validation. *)
Definition classify_and_validate (now : string) (business : record) : record :=
  DataValidator.validate_and_enhance now (classify_business business).

Definition isp_keywords : list string :=
  [ "isp"; "internet service provider"; "internet provider"; "broadband";
    "telecommunications"; "telecom"; "fiber"; "cable internet";
    "wireless internet" ].

Definition _is_isp_related_query (query : string) : bool :=
  let query_lower := Py.lower query in
  List.existsb (fun keyword => Py.contains keyword query_lower) isp_keywords.

Definition _enhance_isp_data (isp_data : record) : result record :=
  let enhanced := isp_data in
  let enhanced := <[ "industry" := VStr "Internet Service Provider" ]> enhanced in
  let enhanced := <[ "naics_code" := VStr "517311" ]> enhanced in
  let enhanced := <[ "industry_category" := VStr "Telecommunications" ]> enhanced in
  let service_type := Val.get_or enhanced "service_type" (VStr "") in
  do service_s <- Val.as_str "lower" service_type;
  let technology_focus :=
    if Py.contains "fiber" (Py.lower service_s) then "Fiber Optic"
    else if Py.contains "cable" (Py.lower service_s) then "Cable Broadband"
    else if Py.contains "satellite" (Py.lower service_s) then "Satellite Internet"
    else if Py.contains "wireless" (Py.lower service_s) then "Wireless/5G"
    else "Mixed Services" in
  Ok (<[ "technology_focus" := VStr technology_focus ]> enhanced).

End EnhancedCRMApp.

(* ===================================================================== *)
(** * scrapers/base_scraper.py and processors/csv_generator.py             *)
(* ===================================================================== *)

Module BaseScraper.

(** [all(field in data and data[field] for field in ['business_name'])] *)
Definition _validate_business_data (data : record) : bool :=
  match data !! "business_name" with
  | Some value => Val.truthy value
  | None => false
  end.

Definition _standardize_phone (phone : string) : string :=
  if String.eqb phone "" then ""
  else
    let digits := Py.filter Py.isdigit phone in
    if (String.length digits =? 10)%nat then DataValidator.format_phone digits
    else if (String.length digits =? 11)%nat && String.prefix "1" digits
    then DataValidator.format_phone (Py.drop 1 digits)
    else phone.

Definition _clean_website_url (url : string) : string :=
  if String.eqb url "" then ""
  else
    let url := Py.strip url in
    if negb (Py.startswith url "http://" || Py.startswith url "https://")
    then "https://" +:+ url else url.

End BaseScraper.

Module CSVGenerator.

Definition _standardize_phone (phone : string) : string :=
  if String.eqb phone "" || String.eqb phone "NOT_FOUND" then "NOT_FOUND"
  else
    let digits := Py.filter Py.isdigit phone in
    if (String.length digits =? 10)%nat then DataValidator.format_phone digits
    else if (String.length digits =? 11)%nat && String.prefix "1" digits
    then DataValidator.format_phone (Py.drop 1 digits)
    else phone.

Definition _standardize_url (url : string) : string :=
  if String.eqb url "" || String.eqb url "NOT_FOUND" then "NOT_FOUND"
  else
    let url := Py.strip url in
    if negb (Py.startswith url "http://" || Py.startswith url "https://")
    then "https://" +:+ url else url.

Definition safe_chars : string := "abcdefghijklmnopqrstuvwxyz0123456789_-".

Definition _slugify (text : string) : string :=
  if String.eqb text "" then "unknown"
  else
    let slug :=
      Py.replace "," "" (Py.replace "/" "_" (Py.replace " " "_" (Py.lower text))) in
    let slug := Py.filter (fun c => Re.any_of safe_chars c) slug in
    Py.take 50 slug.

End CSVGenerator.

(* ===================================================================== *)
(** * The specification's wording, for comparison with the code            *)
(* ===================================================================== *)

Module Stated.

(** The points of one keyword: 10 for the phrase, 3 for each of its
    words found in the text. *)
Definition keyword_points (keyword text : string) : Z :=
  (if Py.contains keyword text then 10 else 0)
  + 3 * Z.of_nat (length (List.filter (fun w => Py.contains w text)
                                      (Py.split keyword))).

(** The total of a code: the points of the registry keywords that map
    to it. *)
Fixpoint total_for (registry : list (string * string)) (text code : string) : Z :=
  match registry with
  | [] => 0
  | (keyword, c) :: rest =>
      (if String.eqb c code then keyword_points keyword text else 0)
      + total_for rest text code
  end.

Definition valid (check : string -> bool) (v : pyval) : bool :=
  match v with
  | VStr s => check s
  | _ => false
  end.

(** The business-path quality table as the specification words it, a
    contact field counting when it is valid. *)
Definition quality_rubric (data : record) : Z :=
  Z.min 10
    (2 * Z.b2z (Val.truthy (Val.get data "business_name")
                && Val.ne_str (Val.get data "business_name") "UNKNOWN")
     + Z.b2z (Val.truthy (Val.get data "business_description"))
     + Z.b2z (Val.truthy (Val.get data "industry")
              || Val.truthy (Val.get data "industry_primary"))
     + Z.b2z (valid DataValidatorTool._validate_phone (Val.get data "phone_number"))
     + Z.b2z (valid DataValidatorTool._validate_address (Val.get data "address"))
     + Z.b2z (valid DataValidatorTool._validate_website (Val.get data "website"))
     + Z.b2z (DataValidator.found (Val.get data "ceo_name"))
     + Z.b2z (DataValidator.found (Val.get data "ceo_email"))
     + Z.b2z (DataValidator.found (Val.get data "general_email"))).

(** The ISP weights of a record, in hundredths. *)
Definition isp_weights (data : record) : Z :=
  let present k := Z.b2z (Val.truthy (Val.get data k)) in
  let phone_ok :=
    match ISPDataValidator._validate_phone (Val.get data "phone_number") with
    | Ok b => b
    | Raise _ => false
    end in
  25 * present "business_name"
  + 15 * present "address"
  + 20 * present "phone_number"
  + 5 * Z.b2z (Val.truthy (Val.get data "phone_number") && phone_ok)
  + 15 * present "website"
  + 5 * Z.b2z (Val.truthy (Val.get data "website")
               && ISPDataValidator._validate_website (Val.get data "website"))
  + 15 * present "business_description"
  + 5 * present "service_type"
  + 5 * present "coverage".

(** The business has the deduplication key [key]. *)
Definition has_key (key : string) (business : record) : bool :=
  match CRMLeadAgent.dedup_key business with
  | Ok k => String.eqb k key
  | Raise _ => false
  end.

(** The phone of a business reduced to its digits. *)
Definition phone_digits (business : record) : string :=
  Py.filter Py.isdecimal (Val.str (Val.get_or business "phone_number" (VStr ""))).

(** What holds of the state once the businesses [pre] have been seen. *)
Definition exact_inv (pre : list record) (st : CRMLeadAgent.state) : Prop :=
  sublist st.2 pre
  ∧ (∀ key, key ∈ st.1 ↔ key ≠ "" ∧ List.filter (has_key key) pre ≠ [])
  ∧ ∀ key, List.filter (has_key key) st.2
           = if String.eqb key "" then []
             else take 1 (List.filter (has_key key) pre).

(** The normalized names of the businesses kept so far. *)
Definition name_of (business : record) : string :=
  match ISPScraper.normalized_name business with
  | Ok n => n
  | Raise _ => EmptyString
  end.
Definition names_of (businesses : list record) : gset string :=
  list_to_set (name_of <$> businesses).

(** What holds of the state of the fuzzy loop once the businesses [pre]
    have been seen. *)
Definition fuzzy_inv (pre : list record) (st : ISPScraper.state) : Prop :=
  st.1 = names_of st.2 ∧ sublist st.2 pre.

(** The shape of a string: its blanks as they are, an [x] for every
    other character. *)
Definition shape_char (c : ascii) : ascii :=
  if Py.isspace c then c else "x"%char.
Definition shape (s : string) : string := Py.map shape_char s.

(** A word: not empty, no blank in it. *)
Definition blank_free (w : string) : bool := negb (Py.existsb Py.isspace w).
Definition is_word (w : string) : Prop := w ≠ EmptyString ∧ blank_free w = true.

(** The name that [_validate_core_fields] writes for the name [n]. *)
Definition name_after (n : string) : string :=
  if String.eqb (Py.strip n) "" then "UNKNOWN"
  else DataValidator._clean_business_name (Py.strip n).

(** The description that [_validate_core_fields] leaves for [v]. *)
Definition description_after (v : option pyval) (s : string) : option pyval :=
  if String.eqb (Py.strip s) "" then v
  else Some (VStr (DataValidator._clean_description (Py.strip s))).

(** The record that the core step returns. *)
Definition core_of (d : record) (n0 a0 s0 : string) : record :=
  let d := <[ "business_name" := VStr (name_after n0) ]> d in
  let d := if negb (String.eqb (Py.strip a0) "")
           then Val.update d (DataValidator._parse_address (Py.strip a0)) else d in
  if negb (String.eqb (Py.strip s0) "")
  then <[ "business_description" := VStr (DataValidator._clean_description (Py.strip s0)) ]> d
  else d.

(** The chain of the replacements of [_clean_business_name]. *)
Definition replace_suffixes (cleaned : string) : string :=
  fold_left (fun cleaned '(old, new) =>
               let cleaned := Py.replace old new cleaned in
               Py.replace (Py.title old) new cleaned)
            DataValidator.suffixes cleaned.

(** The contact fields with their checks, in the order of
    [_validate_contact_info]. *)
Definition contact_checks : list (string * (pyval -> result pyval)) :=
  [ ("phone_number", DataValidator._validate_phone);
    ("ceo_email", DataValidator._validate_email);
    ("general_email", DataValidator._validate_email);
    ("sales_email", DataValidator._validate_email);
    ("support_email", DataValidator._validate_email);
    ("website", DataValidator._validate_website) ].

Fixpoint validate_fields (checks : list (string * (pyval -> result pyval)))
    (validated : record) : result record :=
  match checks with
  | [] => Ok validated
  | (field, check) :: rest =>
      do validated <- DataValidator.validate_field check field validated;
      validate_fields rest validated
  end.

(** The key [k] is none of [keys]. *)
Definition outside (keys : list string) (k : string) : bool :=
  forallb (fun x => negb (String.eqb x k)) keys.

(** The keys each step of a run may write. *)
Definition classification_keys : list string :=
  [ "industry_primary"; "naics_code"; "industry_confidence";
    "industry_category"; "classification_method"; "industry_secondary" ].
Definition core_keys : list string :=
  [ "business_name"; "business_description"; "headquarters_address";
    "headquarters_city"; "headquarters_state"; "headquarters_zip" ].
Definition contact_keys : list string :=
  [ "phone_number"; "ceo_email"; "general_email"; "sales_email";
    "support_email"; "website" ].
Definition score_keys : list string :=
  [ "completeness_score"; "confidence_score"; "data_quality_score";
    "lead_score"; "validation_date"; "validation_status" ].

(** What a contact check does to a DataValidator.found value: it returns a found
    string, or it raises because the value is no string. *)
Definition sound_check (check : pyval -> result pyval) : Prop :=
  ∀ v, DataValidator.found v = true ->
       match check v with
       | Ok v' => (∃ s, v = VStr s) ∧ ∃ s', v' = VStr s' ∧ DataValidator.found v' = true
       | Raise _ => ∀ s, v ≠ VStr s
       end.

(** A field whose value, when found, is a string. *)
Definition str_if_found (d : record) (k : string) : Prop :=
  DataValidator.found (Val.get d k) = true -> ∃ s, d !! k = Some (VStr s).

(** Two records with the same values under the keys [keys]. *)
Definition agree (keys : list string) (d d' : record) : Prop :=
  ∀ k, k ∈ keys -> d' !! k = d !! k.

(** The flag of a name: it is there, and it is not UNKNOWN. *)
Definition string_flag (n : string) : bool :=
  negb (String.eqb n "") && negb (String.eqb n "UNKNOWN").

(** The flags the three scores read. *)
Definition name_flag (d : record) : bool :=
  Val.truthy (Val.get d "business_name")
  && Val.ne_str (Val.get d "business_name") "UNKNOWN".
Definition industry_flag (d : record) : bool :=
  Val.truthy (Val.get d "industry") || Val.truthy (Val.get d "industry_primary").
Definition service_flag (d : record) : bool :=
  Val.truthy (Val.get d "service_type") || Val.truthy (Val.get d "technology_focus").
Definition found_at (d : record) (k : string) : bool :=
  DataValidator.found (Val.get d k).

(** Two records that the three scores cannot tell apart. *)
Definition same_flags (d d' : record) : Prop :=
  name_flag d = name_flag d'
  ∧ Val.truthy (Val.get d "business_description")
    = Val.truthy (Val.get d' "business_description")
  ∧ industry_flag d = industry_flag d'
  ∧ Val.truthy (Val.get d "company_size") = Val.truthy (Val.get d' "company_size")
  ∧ service_flag d = service_flag d'
  ∧ ∀ k, k ∈ ["phone_number"; "address"; "website"; "ceo_name"; "ceo_email";
              "general_email"] -> found_at d k = found_at d' k.

(** The end of a run that did not raise: the scores of [d2] are stored
    and the other fields of [d2] are kept. *)
Definition finished (d2 r : record) : Prop :=
  r !! "data_quality_score" = Some (VInt (DataValidator._calculate_overall_quality_score d2))
  ∧ r !! "confidence_score" = Some (VInt (DataValidator._calculate_confidence_score d2))
  ∧ r !! "lead_score" = Some (VInt (DataValidator._calculate_lead_score d2))
  ∧ ∀ k, outside score_keys k = true -> r !! k = d2 !! k.

(** The dictionary of totals agrees with [total], code by code, and
    holds the codes whose total is positive. *)
Definition agrees (ks : IndustryClassifierTool.scores) (total : string -> Z) : Prop :=
  NoDup ks.*1
  ∧ ∀ code, IndustryClassifierTool.scores_get code ks
            = if 0 <? total code then Some (total code) else None.

(** A field that is a string, or is absent. *)
Definition str_or_absent (business : record) (field : string) : Prop :=
  ∃ s, Val.get_or business field (VStr "") = VStr s.

(** The test of similar names in the words of the specification, on
    exact fractions: the names share at least 2 words, and the shared
    words are more than 0.6, that is three fifths, of the words of
    either name. *)
Definition same_business (name_words seen_words : gset string) : bool :=
  let overlap := size (name_words ∩ seen_words) in
  (2 <=? overlap)%nat
  && ((3 * size name_words <? 5 * overlap)%nat
      || (3 * size seen_words <? 5 * overlap)%nat).

End Stated.

(* ===================================================================== *)
(** * Sample records                                                       *)
(* ===================================================================== *)

Module Sample.

(** The record of the keyword-classification scenario. *)
Definition acme : record :=
  {[ "business_name" := VStr "Acme Fiber Internet";
     "business_description" := VStr "fiber optic broadband provider" ]}.

(** A record with a name, a street without a number and a bad URL. *)
Definition main_street : record :=
  {[ "business_name" := VStr "Acme";
     "address" := VStr "Main St";
     "website" := VStr "INVALID_URL" ]}.

(** The first of the providers that [isp_scraper.py] lists. *)
Definition spectrum : record :=
  {[ "business_name" := VStr "Spectrum (Charter Communications)";
     "address" := VStr "Multiple locations across North Carolina";
     "phone_number" := VStr "(855) 243-8892";
     "website" := VStr "https://www.spectrum.com";
     "business_description" :=
       VStr "Cable internet, TV, and phone services throughout North Carolina";
     "service_type" := VStr "Cable";
     "coverage" := VStr "Statewide";
     "source" := VStr "known_provider";
     "industry" := VStr "Internet Service Provider";
     "naics_code" := VStr "517311" ]}.

Definition with_phone (name phone : string) : record :=
  {[ "business_name" := VStr name; "phone_number" := VStr phone ]}.

Definition named (name : string) : record :=
  {[ "business_name" := VStr name ]}.

Definition software_shop : record :=
  {[ "company_name" := VStr "Joe's Software Shop";
     "business_description" := VStr "IT services and web development" ]}.

(** A business whose name was never filled in. *)
Definition nameless : record := {[ "company_name" := VNone ]}.

(** A client that cannot reach its model. *)
Definition unreachable_llm : IndustryClassifierTool.llm_client :=
  fun _ => Raise (ConnectionError "connection refused").

(** A client whose answer ends its code with a newline. *)
Definition code_with_newline : string := "541511" +:+ String Re.newline "".
Definition newline_llm : IndustryClassifierTool.llm_client :=
  fun _ => Ok {[ "success" := VBool true;
                 "naics_code" := VStr code_with_newline;
                 "industry_description" := VStr "Custom Computer Programming Services";
                 "confidence_score" := VInt 90;
                 "reasoning" := VStr "software company";
                 "source" := VStr "local";
                 "model" := VStr "llama" ]}.

(** A client that labels its own answer with the source "error". *)
Definition error_label_llm : IndustryClassifierTool.llm_client :=
  fun _ => Ok {[ "success" := VBool true;
                 "naics_code" := VStr "541511";
                 "industry_description" := VStr "Custom Computer Programming Services";
                 "confidence_score" := VInt 90;
                 "reasoning" := VStr "software company";
                 "source" := VStr "error";
                 "model" := VStr "llama" ]}.

(** A client whose answer is too unsure to be taken. *)
Definition unsure_llm : IndustryClassifierTool.llm_client :=
  fun _ => Ok {[ "success" := VBool true;
                 "naics_code" := VStr "541511";
                 "industry_description" := VStr "Custom Computer Programming Services";
                 "confidence_score" := VInt 50;
                 "reasoning" := VStr "perhaps a software company";
                 "source" := VStr "local";
                 "model" := VStr "llama" ]}.

(** A business whose name is [None]. *)
Definition no_name : record := {[ "business_name" := VNone ]}.

End Sample.

(* ===================================================================== *)
(** * Definitions for the statements about the rest of the code            *)
(* ===================================================================== *)

Module Facts.

(** The integers from [lo] to [hi]. *)
Definition Zrange (lo hi : Z) : list Z :=
  List.map (fun i => lo + Z.of_nat i) (seq 0 (Z.to_nat (hi + 1 - lo))).

(** The least and the total weight of a list of weighted patterns. *)
Definition least_weight (patterns : list (Re.regex * Z)) : Z :=
  match patterns with
  | [] => 0
  | p :: rest => fold_left Z.min rest.*2 p.2
  end.
Definition total_weight (patterns : list (Re.regex * Z)) : Z :=
  fold_left Z.add patterns.*2 0.

(** What [_classify_by_keywords] returns when [industry] wins with the
    weight [score]. *)
Definition classified (industry : string) (patterns : list (Re.regex * Z))
    (score : Z) : string * string * Z :=
  (industry,
   match IndustryClassifier.lookup industry IndustryClassifier.naics_mapping with
   | Some (code, _) => code
   | None => "UNKNOWN"
   end,
   Z.min 10 (F64.trunc (F64.mul (F64.truediv score (Z.of_nat (length patterns)))
                                (F64.of_Z 10)))).

(** An industry of the registry, with its code and its category, and a
    confidence from 3 to 10. *)
Definition well_classified (outcome : string * string * Z) : bool :=
  let '(industry, naics_code, confidence) := outcome in
  negb (String.eqb industry "")
  && match IndustryClassifier.lookup industry IndustryClassifier.naics_mapping with
     | Some (code, _) => String.eqb code naics_code
     | None => false
     end
  && match IndustryClassifier.lookup industry IndustryClassifier.keyword_patterns with
     | Some _ => true
     | None => false
     end
  && negb (String.eqb (IndustryClassifier._get_industry_category industry) "Other")
  && (3 <=? confidence) && (confidence <=? 10).

(** A loop that keeps the first business of every key that is not
    empty, for any way [key] of reading the key of a business. *)
Definition keyed_step (key : record -> result string)
    (st : gset string * list record) (business : record)
    : result (gset string * list record) :=
  let '(seen, kept) := st in
  do k <- key business;
  if negb (String.eqb k "") && negb (bool_decide (k ∈ seen))
  then Ok ({[ k ]} ∪ seen, kept ++ [business])
  else Ok st.

Fixpoint keyed_loop (key : record -> result string) (data : list record)
    (st : gset string * list record) : result (gset string * list record) :=
  match data with
  | [] => Ok st
  | business :: rest => do st <- keyed_step key st business; keyed_loop key rest st
  end.

(** The business has the key [k]. *)
Definition keyed_as (key : record -> result string) (k : string)
    (business : record) : bool :=
  match key business with
  | Ok k' => String.eqb k' k
  | Raise _ => false
  end.

(** The key of [NCISPLeadGenerator._deduplicate_businesses]: the name in
    lower case, trimmed. *)
Definition nc_key (business : record) : result string :=
  do name_s <- Val.as_str "lower" (Val.get_or business "business_name" (VStr ""));
  Ok (Py.strip (Py.lower name_s)).

(** What holds of the state of a keyed loop once the businesses [pre]
    have been seen. *)
Definition keyed_inv (key : record -> result string) (pre : list record)
    (st : gset string * list record) : Prop :=
  st.2 `sublist_of` pre
  ∧ (∀ k, k ∈ st.1 ↔ k ≠ "" ∧ List.filter (keyed_as key k) pre ≠ [])
  ∧ ∀ k, List.filter (keyed_as key k) st.2
         = if String.eqb k "" then []
           else take 1 (List.filter (keyed_as key k) pre).


(** A value the validators of the tool take: a falsy value, or a
    string. *)
Definition text_or_empty (value : pyval) : bool :=
  negb (Val.truthy value)
  || match value with
     | VStr _ => true
     | _ => false
     end.

(** The hundredths that the quality score of the tool adds up. *)
Definition tool_weights (business_data : record)
    (v : DataValidatorTool.validation) : Z :=
  (if Val.truthy (Val.get business_data "business_name") then 30 else 0)
  + (if Val.truthy (Val.get business_data "address") then 20 else 0)
  + (if DataValidatorTool.phone_valid v then 20 else 0)
  + (if DataValidatorTool.email_valid v then 10 else 0)
  + (if DataValidatorTool.website_valid v then 10 else 0)
  + (if Val.truthy (Val.get business_data "business_description") then 10 else 0).

(** The four fields that the classification step of the agent writes. *)
Definition classification_keys : list string :=
  [ "naics_code"; "industry_category"; "industry_description";
    "classification_confidence" ].

End Facts.

(* ===================================================================== *)
(** * Scores of the business path                                          *)
(* ===================================================================== *)

(** Case analysis on the flags that a sum of points mentions. *)
Ltac flag_cases :=
  repeat match goal with
         | |- context [Z.b2z ?b] =>
             lazymatch b with
             | true => fail
             | false => fail
             | _ => destruct b
             end
         end.

Section Scores.
Import DataValidator.

(** C10. The lead score starts at 5, is only raised (company size +1,
    service or technology +1, CEO email +2 or else general email +1,
    website +1), and so lies between 5 and 10 for every record; the cap
    at 10 never cuts anything off. *)
Theorem lead_score_between_5_and_10 (data : record) :
  5 <= _calculate_lead_score data <= 10
  ∧ _calculate_lead_score data =
      5 + Z.b2z (Val.truthy (Val.get data "company_size"))
      + Z.b2z (Val.truthy (Val.get data "service_type")
               || Val.truthy (Val.get data "technology_focus"))
      + (if found (Val.get data "ceo_email") then 2
         else Z.b2z (found (Val.get data "general_email")))
      + Z.b2z (found (Val.get data "website")).
Proof.
  unfold _calculate_lead_score.
  destruct (Val.truthy (Val.get data "company_size"));
    destruct (Val.truthy (Val.get data "service_type")
              || Val.truthy (Val.get data "technology_focus"));
    destruct (found (Val.get data "ceo_email"));
    destruct (found (Val.get data "general_email"));
    destruct (found (Val.get data "website")); simpl; lia.
Qed.

(** C6, as amended. The quality score of the business path is the sum
    of its points: name present and not UNKNOWN (+2), description
    present (+1), industry or primary industry present (+1), and +1 for
    each of phone, address, website, CEO name, CEO email and general
    email that is present and is not the NOT_FOUND sentinel. It lies
    between 0 and 10, and the cap at 10 never cuts anything off. *)
Theorem quality_score_is_sum_of_points (data : record) :
  _calculate_overall_quality_score data =
    2 * Z.b2z (Val.truthy (Val.get data "business_name")
               && Val.ne_str (Val.get data "business_name") "UNKNOWN")
    + Z.b2z (Val.truthy (Val.get data "business_description"))
    + Z.b2z (Val.truthy (Val.get data "industry")
             || Val.truthy (Val.get data "industry_primary"))
    + Z.b2z (found (Val.get data "phone_number"))
    + Z.b2z (found (Val.get data "address"))
    + Z.b2z (found (Val.get data "website"))
    + Z.b2z (found (Val.get data "ceo_name"))
    + Z.b2z (found (Val.get data "ceo_email"))
    + Z.b2z (found (Val.get data "general_email"))
  ∧ 0 <= _calculate_overall_quality_score data <= 10.
Proof.
  unfold _calculate_overall_quality_score.
  destruct (Val.truthy (Val.get data "business_name")
            && Val.ne_str (Val.get data "business_name") "UNKNOWN");
    destruct (Val.truthy (Val.get data "business_description"));
    destruct (Val.truthy (Val.get data "industry")
              || Val.truthy (Val.get data "industry_primary"));
    destruct (found (Val.get data "phone_number"));
    destruct (found (Val.get data "address"));
    destruct (found (Val.get data "website"));
    destruct (found (Val.get data "ceo_name"));
    destruct (found (Val.get data "ceo_email"));
    destruct (found (Val.get data "general_email")); simpl; lia.
Qed.

(** C6, as stated, fails: a street name without a number and the
    INVALID_URL marker are not valid, yet each earns its point. *)
Lemma quality_score_counts_invalid_fields :
  Stated.valid DataValidatorTool._validate_address
    (Val.get Sample.main_street "address") = false
  ∧ Stated.valid DataValidatorTool._validate_website
      (Val.get Sample.main_street "website") = false
  ∧ Stated.quality_rubric Sample.main_street = 2
  ∧ _calculate_overall_quality_score Sample.main_street = 4.
Proof. repeat split; vm_compute; reflexivity. Qed.

End Scores.

(* ===================================================================== *)
(** * The ISP quality score                                                *)
(* ===================================================================== *)

Section ISPQuality.
Import ISPDataValidator.

Lemma validate_phone_default (data : record) :
  _validate_phone (Val.get_or data "phone_number" (VStr ""))
  = _validate_phone (Val.get data "phone_number").
Proof.
  unfold Val.get_or, Val.get. destruct (data !! "phone_number"); reflexivity.
Qed.

(** Every sum of weights is a float between 0.0 and 1.1. *)
Lemma hundredths_in_range (k : Z) :
  0 <= k <= 110 ->
  F64.leb (F64.of_Z 0) (F64.hundredths k) = true
  ∧ F64.leb (F64.hundredths k) (F64.hundredths 110) = true.
Proof.
  intros Hk.
  assert (Hall : forallb (fun n => let k := Z.of_nat n in
                     F64.leb (F64.of_Z 0) (F64.hundredths k)
                     && F64.leb (F64.hundredths k) (F64.hundredths 110))
                   (seq 0 111) = true) by (vm_compute; reflexivity).
  rewrite forallb_forall in Hall.
  specialize (Hall (Z.to_nat k)).
  rewrite Z2Nat.id in Hall by lia.
  apply andb_true_iff, Hall, in_seq. lia.
Qed.

(** C7, as amended. The ISP quality score is the sum of the weights
    (name 0.25, address 0.15, phone 0.20 and 0.05 more when well formed,
    website 0.15 and 0.05 more when well formed, description 0.15,
    service type 0.05, coverage 0.05) rounded to two decimals, and lies
    between 0.0 and 1.10; the validator raises only on a phone that is
    present and is not a string. *)
Theorem isp_quality_score_is_sum_of_weights (data : record) :
  0 <= Stated.isp_weights data <= 110
  ∧ match validate data with
    | Ok v =>
        quality_score v = F64.hundredths (Stated.isp_weights data)
        ∧ F64.leb (F64.of_Z 0) (quality_score v) = true
        ∧ F64.leb (quality_score v) (F64.hundredths 110) = true
    | Raise _ =>
        Val.truthy (Val.get data "phone_number") = true
        ∧ ∀ s, Val.get data "phone_number" ≠ VStr s
    end.
Proof.
  assert (Hrange : 0 <= Stated.isp_weights data <= 110).
  { unfold Stated.isp_weights.
    flag_cases; simpl; lia. }
  split; [exact Hrange|].
  assert (Hsum : match validate data with
                 | Ok v => quality_score v = F64.hundredths (Stated.isp_weights data)
                 | Raise _ => Val.truthy (Val.get data "phone_number") = true
                              ∧ ∀ s, Val.get data "phone_number" ≠ VStr s
                 end).
  { unfold validate, Stated.isp_weights.
    rewrite validate_phone_default.
    generalize (_validate_website (Val.get_or data "website" (VStr ""))).
    generalize (_validate_website (Val.get data "website")).
    unfold _validate_phone.
    generalize (Val.truthy (Val.get data "business_name")).
    generalize (Val.truthy (Val.get data "address")).
    generalize (Val.truthy (Val.get data "website")).
    generalize (Val.truthy (Val.get data "business_description")).
    generalize (Val.truthy (Val.get data "service_type")).
    generalize (Val.truthy (Val.get data "coverage")).
    destruct (Val.truthy (Val.get data "phone_number")) eqn:Hphone.
    - destruct (Val.get data "phone_number") as [| |n|s] eqn:Hval.
      1-3: intros; simpl; split; [reflexivity | congruence].
      cbn [negb Val.as_str bind].
      generalize (Re.matches DataValidatorTool.phone_pattern (Py.strip s)).
      intros [] [] [] [] [] [] [] [] w; vm_compute; reflexivity.
    - intros [] [] [] [] [] [] [] w; vm_compute; reflexivity. }
  destruct (validate data) as [v|e]; [|exact Hsum].
  rewrite Hsum. split; [reflexivity|]. apply hundredths_in_range, Hrange.
Qed.

(** C7, as stated, fails: the first provider of the scraper's own list
    has every field, and scores 1.1. *)
Lemma isp_quality_score_exceeds_one :
  match validate Sample.spectrum with
  | Ok v => quality_score v = F64.hundredths 110
            ∧ F64.leb (quality_score v) (F64.of_Z 1) = false
  | Raise _ => False
  end.
Proof. vm_compute. split; reflexivity. Qed.

End ISPQuality.

(* ===================================================================== *)
(** * Keyword classification                                              *)
(* ===================================================================== *)

Section KeywordClassification.
Import IndustryClassifierTool.

Lemma fold_word_points (text : string) (ws : list string) (a : Z) :
  fold_left (fun score word =>
               if Py.contains word text then score + 3 else score) ws a
  = a + 3 * Z.of_nat (length (List.filter (fun w => Py.contains w text) ws)).
Proof.
  revert a. induction ws as [|w ws IH]; intros a; simpl; [lia|].
  rewrite IH. destruct (Py.contains w text); simpl; lia.
Qed.

Lemma keyword_score_points (keyword text : string) :
  keyword_score keyword text = Stated.keyword_points keyword text.
Proof.
  unfold keyword_score, Stated.keyword_points. rewrite fold_word_points.
  destruct (Py.contains keyword text); lia.
Qed.

Lemma keyword_points_nonneg (keyword text : string) :
  0 <= Stated.keyword_points keyword text.
Proof. unfold Stated.keyword_points. destruct (Py.contains keyword text); lia. Qed.

Lemma total_for_nonneg (registry : list (string * string)) (text code : string) :
  0 <= Stated.total_for registry text code.
Proof.
  induction registry as [|[kw c] rest IH]; simpl; [lia|].
  pose proof (keyword_points_nonneg kw text). destruct (String.eqb c code); lia.
Qed.

Lemma scores_get_set_eq (code : string) (v : Z) (ks : scores) :
  scores_get code (scores_set code v ks) = Some v.
Proof.
  induction ks as [|[c t] ks IH]; simpl.
  - by rewrite String.eqb_refl.
  - destruct (String.eqb c code) eqn:E; simpl; rewrite E; [done|apply IH].
Qed.

Lemma scores_get_set_ne (code code' : string) (v : Z) (ks : scores) :
  code ≠ code' -> scores_get code' (scores_set code v ks) = scores_get code' ks.
Proof.
  intros Hne. induction ks as [|[c t] ks IH]; simpl.
  - apply String.eqb_neq in Hne. by rewrite Hne.
  - destruct (String.eqb c code) eqn:E; simpl.
    + apply String.eqb_eq in E as ->.
      apply String.eqb_neq in Hne. by rewrite Hne.
    + destruct (String.eqb c code'); [done|apply IH].
Qed.

Lemma scores_get_elem (code : string) (t : Z) (ks : scores) :
  scores_get code ks = Some t -> (code, t) ∈ ks.
Proof.
  induction ks as [|[c t'] ks IH]; simpl; [done|].
  destruct (String.eqb c code) eqn:E.
  - apply String.eqb_eq in E as ->. intros [= ->]. left.
  - intros H. right. by apply IH.
Qed.

Lemma scores_set_keys (code : string) (v : Z) (ks : scores) :
  (scores_set code v ks).*1
  = match scores_get code ks with
    | Some _ => ks.*1
    | None => ks.*1 ++ [code]
    end.
Proof.
  induction ks as [|[c t] ks IH]; [done|].
  cbn [scores_set scores_get].
  destruct (String.eqb c code) eqn:E; rewrite !fmap_cons; cbn [fst].
  - done.
  - rewrite IH. by destruct (scores_get code ks).
Qed.

Lemma scores_get_none (code : string) (ks : scores) :
  scores_get code ks = None -> code ∉ ks.*1.
Proof.
  induction ks as [|[c t] ks IH]; simpl; [intros _; apply not_elem_of_nil|].
  destruct (String.eqb c code) eqn:E; [done|].
  intros H [Heq|Hin]%elem_of_cons; [|by apply IH].
  apply String.eqb_neq in E. congruence.
Qed.

Lemma scores_elem_get (code : string) (t : Z) (ks : scores) :
  NoDup ks.*1 -> (code, t) ∈ ks -> scores_get code ks = Some t.
Proof.
  induction ks as [|[c t'] ks IH]; simpl; [by intros _ ?%elem_of_nil|].
  intros [Hc Hnd]%NoDup_cons [Heq|Hin]%elem_of_cons.
  - injection Heq as -> ->. by rewrite String.eqb_refl.
  - destruct (String.eqb c code) eqn:E; [|by apply IH].
    apply String.eqb_eq in E as ->. exfalso. apply Hc.
    by apply (list_elem_of_fmap_2 fst _ (code, t)).
Qed.

Lemma score_step_agrees (text : string) (ks : scores) (total : string -> Z)
    (keyword code : string) :
  (∀ c, 0 <= total c) ->
  Stated.agrees ks total ->
  Stated.agrees (score_step text ks (keyword, code))
         (fun c => total c + if String.eqb code c
                             then Stated.keyword_points keyword text else 0).
Proof.
  intros Hpos [Hnd Hget]. unfold score_step.
  rewrite keyword_score_points.
  pose proof (keyword_points_nonneg keyword text) as Hp.
  destruct (0 <? Stated.keyword_points keyword text) eqn:Hs.
  - apply Z.ltb_lt in Hs. split.
    + rewrite scores_set_keys. destruct (scores_get code ks) eqn:Hg; [done|].
      apply NoDup_app. split_and!; [done| |apply NoDup_singleton].
      intros x Hx ->%list_elem_of_singleton. by apply scores_get_none in Hg.
    + intros c. destruct (String.eqb code c) eqn:E.
      * apply String.eqb_eq in E as <-. rewrite scores_get_set_eq, Hget.
        specialize (Hpos code).
        destruct (0 <? total code) eqn:Ht; simpl.
        -- destruct (0 <? total code + _) eqn:Ht'; [done|].
           apply Z.ltb_ge in Ht'. apply Z.ltb_lt in Ht. lia.
        -- apply Z.ltb_ge in Ht. assert (total code = 0) as -> by lia. simpl.
           destruct (0 <? _) eqn:Ht'; [done|]. apply Z.ltb_ge in Ht'. lia.
      * apply String.eqb_neq in E. rewrite scores_get_set_ne by done.
        rewrite Hget. by rewrite Z.add_0_r.
  - apply Z.ltb_ge in Hs. assert (Stated.keyword_points keyword text = 0) as -> by lia.
    split; [done|]. intros c. rewrite Hget.
    destruct (String.eqb code c); by rewrite Z.add_0_r.
Qed.

Lemma agrees_ext (ks : scores) (t1 t2 : string -> Z) :
  (∀ c, t1 c = t2 c) -> Stated.agrees ks t1 -> Stated.agrees ks t2.
Proof. intros Heq [Hnd Hget]. split; [done|]. intros c. by rewrite <- Heq. Qed.

Lemma fold_agrees (text : string) (registry : list (string * string))
    (ks : scores) (total : string -> Z) :
  (∀ c, 0 <= total c) ->
  Stated.agrees ks total ->
  Stated.agrees (fold_left (score_step text) registry ks)
         (fun c => total c + Stated.total_for registry text c).
Proof.
  revert ks total. induction registry as [|[kw code] rest IH]; intros ks total Hpos Hag.
  - simpl. eapply agrees_ext; [|exact Hag]. intros c. simpl. lia.
  - pose proof (score_step_agrees text ks total kw code Hpos Hag) as Hstep.
    apply IH in Hstep.
    + simpl. eapply agrees_ext; [|exact Hstep]. intros c. simpl. lia.
    + intros c. simpl. specialize (Hpos c).
      pose proof (keyword_points_nonneg kw text). destruct (String.eqb code c); lia.
Qed.

Lemma score_registry_agrees (text : string) :
  Stated.agrees (score_registry text) (Stated.total_for NAICS_MAPPINGS text).
Proof.
  unfold score_registry.
  eapply agrees_ext; [|apply (fold_agrees text NAICS_MAPPINGS [] (fun _ => 0))].
  - intros c. simpl. lia.
  - done.
  - split; [constructor|]. done.
Qed.

Lemma max_from_elem (best : string * Z) (ks : scores) :
  max_from best ks ∈ best :: ks.
Proof.
  revert best. induction ks as [|[c t] ks IH]; intros best; simpl; [left|].
  destruct (best.2 <? t).
  - right. apply IH.
  - specialize (IH best). apply elem_of_cons in IH as [->|?]; [left|by do 2 right].
Qed.

Lemma max_from_ge_best (best : string * Z) (ks : scores) :
  best.2 <= (max_from best ks).2.
Proof.
  revert best. induction ks as [|[c t] ks IH]; intros best; simpl; [lia|].
  destruct (best.2 <? t) eqn:E.
  - apply Z.ltb_lt in E. specialize (IH (c, t)). simpl in IH. lia.
  - apply IH.
Qed.

Lemma max_from_max (best : string * Z) (ks : scores) (e : string * Z) :
  e ∈ best :: ks -> e.2 <= (max_from best ks).2.
Proof.
  revert best. induction ks as [|[c t] ks IH]; intros best; simpl.
  - intros ->%list_elem_of_singleton. lia.
  - intros [->|[->|Hin]%elem_of_cons]%elem_of_cons.
    + destruct (best.2 <? t) eqn:E; [|apply max_from_ge_best].
      apply Z.ltb_lt in E. pose proof (max_from_ge_best (c, t) ks). simpl in *. lia.
    + destruct (best.2 <? t) eqn:E; [apply (max_from_ge_best (c, t))|].
      apply Z.ltb_ge in E. pose proof (max_from_ge_best best ks). simpl in *. lia.
    + destruct (best.2 <? t); apply IH; by right.
Qed.

Lemma total_for_zero (registry : list (string * string)) (text : string) :
  (∀ keyword code, (keyword, code) ∈ registry ->
                   Stated.keyword_points keyword text = 0) ->
  ∀ code, Stated.total_for registry text code = 0.
Proof.
  induction registry as [|[kw c] rest IH]; intros Hall code; simpl; [done|].
  rewrite IH by (intros ???; eapply Hall; by right).
  rewrite (Hall kw c) by left. by destruct (String.eqb c code).
Qed.

Lemma total_for_ge_points (registry : list (string * string))
    (text keyword code : string) :
  (keyword, code) ∈ registry ->
  Stated.keyword_points keyword text <= Stated.total_for registry text code.
Proof.
  induction registry as [|[kw c] rest IH]; [by intros ?%elem_of_nil|].
  simpl. pose proof (total_for_nonneg rest text code).
  pose proof (keyword_points_nonneg kw text).
  intros [Heq|Hin]%elem_of_cons.
  - injection Heq as -> ->. rewrite String.eqb_refl. lia.
  - specialize (IH Hin). destruct (String.eqb c code); lia.
Qed.

Lemma keywords_body_joined (business_info : record) (joined : string) :
  Val.join " " (text_fields business_info) = Ok joined ->
  _classify_with_keywords business_info
  = match score_registry (Py.lower joined) with
    | first :: rest =>
        keyword_result (max_from first rest).1 (max_from first rest).2
    | [] => no_match_result
    end.
Proof.
  intros Hj. unfold _classify_with_keywords, keywords_body. rewrite Hj. simpl.
  destruct (score_registry (Py.lower joined)) as [|first rest]; [done|].
  by destruct (max_from first rest).
Qed.

(** C1. On a business whose text fields are strings, the keyword
    classification scores every registry keyword with 10 points for the
    phrase and 3 points for each of its words found in the lower-cased
    text; when some keyword scores, it returns a code whose total no
    other code exceeds, with confidence min(total * 5, 85); when none
    does, it returns 999999 with confidence 20 and the reasoning that no
    clear indicators were found. The source is "keyword" either way. *)
Theorem keyword_classification (business_info : record) (joined : string) :
  Val.join " " (text_fields business_info) = Ok joined ->
  let text := Py.lower joined in
  let total := Stated.total_for NAICS_MAPPINGS text in
  let result := _classify_with_keywords business_info in
  (∀ keyword, keyword_score keyword text = Stated.keyword_points keyword text)
  ∧ result !! "source" = Some (VStr "keyword")
  ∧ ((∃ keyword code, (keyword, code) ∈ NAICS_MAPPINGS
                      ∧ 0 < keyword_score keyword text) ->
     ∃ best,
       result !! "naics_code" = Some (VStr best)
       ∧ 0 < total best
       ∧ (∀ code, total code <= total best)
       ∧ result !! "confidence_score" = Some (VInt (Z.min (total best * 5) 85)))
  ∧ ((∀ keyword code, (keyword, code) ∈ NAICS_MAPPINGS ->
                      keyword_score keyword text = 0) ->
     result !! "naics_code" = Some (VStr "999999")
     ∧ result !! "confidence_score" = Some (VInt 20)
     ∧ result !! "reasoning" = Some (VStr "No clear industry indicators found")).
Proof.
  intros Hj text total result.
  pose proof (score_registry_agrees text) as [Hnd Hget].
  fold total in Hget.
  assert (Hres := keywords_body_joined business_info joined Hj).
  fold text result in Hres.
  split; [intros kw; apply keyword_score_points|]. split; [|split].
  - rewrite Hres. by destruct (score_registry text).
  - intros (kw & code & Hin & Hpos). rewrite keyword_score_points in Hpos.
    pose proof (total_for_ge_points _ text _ _ Hin) as Hge. fold total in Hge.
    pose proof (Hget code) as Hcode.
    destruct (0 <? total code) eqn:Hc; [|apply Z.ltb_ge in Hc; lia].
    destruct (score_registry text) as [|first rest] eqn:Hks; [done|].
    destruct (max_from first rest) as [best t] eqn:Hmax.
    assert (Hbest : scores_get best (first :: rest) = Some t).
    { apply scores_elem_get; [done|]. rewrite <- Hmax. apply max_from_elem. }
    rewrite Hget in Hbest.
    destruct (0 <? total best) eqn:Hb; [|done]. injection Hbest as <-.
    apply Z.ltb_lt in Hb. exists best. rewrite Hres. simpl.
    split_and!; [done|done| |done].
    intros c. pose proof (Hget c) as Hgc.
    destruct (0 <? total c) eqn:Htc; [|apply Z.ltb_ge in Htc; lia].
    apply scores_get_elem in Hgc.
    pose proof (max_from_max first rest _ Hgc) as Hle.
    rewrite Hmax in Hle. exact Hle.
  - intros Hall.
    assert (Hzero : ∀ code, total code = 0).
    { apply total_for_zero. intros kw code Hin.
      rewrite <- keyword_score_points. by apply (Hall kw code). }
    destruct (score_registry text) as [|[c t] rest] eqn:Hks.
    + by rewrite Hres.
    + specialize (Hget c). simpl in Hget. rewrite String.eqb_refl, Hzero in Hget.
      done.
Qed.

(** The theorem at a software shop, whose text gives 541511 the
    highest total. *)
Lemma keyword_classification_witness :
  Val.join " " (text_fields Sample.software_shop)
  = Ok "Joe's Software Shop IT services and web development   "
  ∧ _classify_with_keywords Sample.software_shop !! "source"
    = Some (VStr "keyword").
Proof.
  split; [reflexivity|].
  exact (proj1 (proj2 (keyword_classification Sample.software_shop _ eq_refl))).
Defined.

End KeywordClassification.

(* ===================================================================== *)
(** * The boundary of classify                                            *)
(* ===================================================================== *)

Section ClassifyBoundary.
Import IndustryClassifierTool.

(** The three results of the keyword path. *)
Lemma keyword_path_cases (business_info : record) :
  (∃ best total, _classify_with_keywords business_info = keyword_result best total)
  ∨ _classify_with_keywords business_info = no_match_result
  ∨ ∃ e, keywords_body business_info = Raise e
         ∧ _classify_with_keywords business_info = keyword_error_result e.
Proof.
  unfold _classify_with_keywords, keywords_body.
  destruct (Val.join " " (text_fields business_info)) as [joined|e]; simpl.
  - destruct (score_registry (Py.lower joined)) as [|first rest]; [by right; left|].
    left. destruct (max_from first rest) as [best total]. by exists best, total.
  - right; right. by exists e.
Qed.

(** The AI path: the client's answer with its code checked, or the
    failure record. *)
Lemma ai_path_cases (llm : llm_client) (business_info : record) :
  (∃ e, ai_body llm business_info = Raise e
        ∧ _classify_with_ai llm business_info = ai_failure e)
  ∨ ∃ response code description confidence,
      llm business_info = Ok response
      ∧ _classify_with_ai llm business_info
        = {[ "success" := Val.get_or response "success" (VBool false);
             "naics_code" := VStr code;
             "industry_description" := description;
             "confidence_score" := confidence;
             "reasoning" := Val.get_or response "reasoning" (VStr "");
             "source" := Val.get_or response "source" (VStr "ai");
             "model" := Val.get_or response "model" (VStr "unknown") ]}.
Proof.
  unfold _classify_with_ai, ai_body.
  destruct (llm business_info) as [response|e]; simpl; [|left; by exists e].
  destruct (re_match six_digits_anchored _) as [ok|e]; simpl; [|left; by exists e].
  destruct (min_100 _) as [confidence|e]; simpl; [|left; by exists e].
  right. by eexists response, _, _, confidence.
Qed.

Lemma ai_failure_not_accepted (e : exn) : ai_accepted (ai_failure e) = false.
Proof. reflexivity. Qed.

Lemma classify_unfold (client : option llm_client) (business_info : record) :
  classify client business_info
  = match client with
    | Some llm =>
        if ai_accepted (_classify_with_ai llm business_info)
        then _classify_with_ai llm business_info
        else _classify_with_keywords business_info
    | None => _classify_with_keywords business_info
    end.
Proof.
  unfold classify, classify_body. destruct client as [llm|]; [|done].
  by destruct (ai_accepted _).
Qed.

Lemma classify_body_returns (client : option llm_client)
    (business_info : record) :
  classify_body client business_info = Ok (classify client business_info).
Proof.
  unfold classify, classify_body. destruct client as [llm|]; [|done].
  by destruct (ai_accepted _).
Qed.

(** C3, as amended. Whatever the input and whatever the language-model
    client does, [classify] returns a result with a code, a confidence
    and a source. Without a client, or when the AI path raises, the
    result is that of the keyword path. An exception in the keyword
    path becomes the result with code 999999, confidence 0 and source
    "error". The body of [classify] itself never raises, as both paths
    catch their exceptions; its handler turns any exception into the
    result with code 999999, confidence 0 and source "error". A result
    whose source is "error" has confidence 0, unless it is the accepted
    answer of a client that labelled its answer "error" itself. *)
Theorem classify_never_raises (client : option llm_client)
    (business_info : record) :
  let result := classify client business_info in
  (∃ code confidence source,
      result !! "naics_code" = Some (VStr code)
      ∧ result !! "confidence_score" = Some confidence
      ∧ result !! "source" = Some source)
  ∧ (client = None -> result = _classify_with_keywords business_info)
  ∧ (∀ llm e, client = Some llm -> ai_body llm business_info = Raise e ->
              result = _classify_with_keywords business_info)
  ∧ (∀ e, keywords_body business_info = Raise e ->
          _classify_with_keywords business_info !! "naics_code" = Some (VStr "999999")
          ∧ _classify_with_keywords business_info !! "confidence_score" = Some (VInt 0)
          ∧ _classify_with_keywords business_info !! "source" = Some (VStr "error"))
  ∧ (result = try_except (classify_body client business_info) classify_error_result
     ∧ classify_body client business_info = Ok result
     ∧ ∀ e, let failed := try_except (Raise e) classify_error_result in
            failed !! "naics_code" = Some (VStr "999999")
            ∧ failed !! "confidence_score" = Some (VInt 0)
            ∧ failed !! "source" = Some (VStr "error"))
  ∧ (result !! "source" = Some (VStr "error") ->
     result !! "confidence_score" = Some (VInt 0)
     ∨ ∃ llm response,
         client = Some llm
         ∧ llm business_info = Ok response
         ∧ Val.get_or response "source" (VStr "ai") = VStr "error"
         ∧ result = _classify_with_ai llm business_info).
Proof.
  intros result.
  assert (Hkw : ∀ r, r = _classify_with_keywords business_info ->
                (∃ code confidence source,
                    r !! "naics_code" = Some (VStr code)
                    ∧ r !! "confidence_score" = Some confidence
                    ∧ r !! "source" = Some source)
                ∧ (r !! "source" = Some (VStr "error") ->
                   r !! "confidence_score" = Some (VInt 0))).
  { intros r ->.
    destruct (keyword_path_cases business_info)
      as [(best & total & ->)|[->|(e & _ & ->)]].
    - split; [by eexists _, _, _|]. done.
    - split; [by eexists _, _, _|]. done.
    - split; [by eexists _, _, _|]. done. }
  assert (Hai : ∀ llm, client = Some llm ->
                ai_accepted (_classify_with_ai llm business_info) = true ->
                ∀ r, r = _classify_with_ai llm business_info ->
                (∃ code confidence source,
                    r !! "naics_code" = Some (VStr code)
                    ∧ r !! "confidence_score" = Some confidence
                    ∧ r !! "source" = Some source)
                ∧ (r !! "source" = Some (VStr "error") ->
                   ∃ response,
                     llm business_info = Ok response
                     ∧ Val.get_or response "source" (VStr "ai") = VStr "error")).
  { intros llm Hc Hacc r ->.
    destruct (ai_path_cases llm business_info)
      as [(e & _ & Hr)|(response & code & d & c & Hok & Hr)].
    - rewrite Hr in Hacc. done.
    - rewrite Hr. split; [by eexists _, _, _|].
      intros Hsrc. exists response. split; [done|].
      rewrite !lookup_insert_ne, lookup_insert_eq in Hsrc by done.
      by injection Hsrc. }
  split_and!.
  - subst result. rewrite classify_unfold. destruct client as [llm|].
    + destruct (ai_accepted _) eqn:Hacc.
      * by apply (Hai llm).
      * by apply Hkw.
    + by apply Hkw.
  - intros ->. subst result. by rewrite classify_unfold.
  - intros llm e -> He. subst result. rewrite classify_unfold.
    unfold _classify_with_ai. rewrite He. reflexivity.
  - intros e He. unfold _classify_with_keywords. rewrite He. done.
  - reflexivity.
  - apply classify_body_returns.
  - intros e. done.
  - subst result. rewrite classify_unfold. destruct client as [llm|].
    + destruct (ai_accepted _) eqn:Hacc.
      * intros Hsrc. right.
        destruct (Hai llm eq_refl Hacc _ eq_refl) as [_ Hlabel].
        destruct (Hlabel Hsrc) as (response & Hok & Hsource).
        by exists llm, response.
      * intros Hsrc. left. by apply Hkw.
    + intros Hsrc. left. by apply Hkw.
Qed.

(** The theorem at a business without a name and a client whose answer,
    labelled "local", is too unsure to be taken: the keyword path raises
    on the missing name, and the result has the source "error" and the
    confidence 0. *)
Lemma classify_never_raises_witness :
  let result := classify (Some Sample.unsure_llm) Sample.nameless in
  result !! "source" = Some (VStr "error")
  ∧ result !! "confidence_score" = Some (VInt 0).
Proof.
  intros result.
  assert (Hsrc : result !! "source" = Some (VStr "error"))
    by (vm_compute; reflexivity).
  split; [exact Hsrc|].
  destruct (proj2 (proj2 (proj2 (proj2 (proj2
              (classify_never_raises (Some Sample.unsure_llm) Sample.nameless)))))
              Hsrc)
    as [Hzero|(llm & response & Hclient & Hok & Hlabel & _)].
  - exact Hzero.
  - injection Hclient as <-. injection Hok as <-. discriminate Hlabel.
Defined.

(** C3, as stated, fails: the source of an accepted answer is the one
    the client gives, so a client that labels its answer "error" gets a
    result with the source "error" and the confidence 90. *)
Lemma error_label_keeps_confidence :
  let result := classify (Some Sample.error_label_llm) Sample.software_shop in
  result !! "naics_code" = Some (VStr "541511")
  ∧ result !! "source" = Some (VStr "error")
  ∧ result !! "confidence_score" = Some (VInt 90).
Proof. vm_compute. repeat split. Qed.

(** C2 on an answer whose code ends with a newline: [$] matches before
    it, so the code passes the six-digit check as it is, and the
    accepted result carries seven characters. *)
Lemma ai_code_with_newline_is_accepted :
  let result := classify (Some Sample.newline_llm) Sample.software_shop in
  result !! "naics_code" = Some (VStr Sample.code_with_newline)
  ∧ result !! "confidence_score" = Some (VInt 90)
  ∧ result !! "source" = Some (VStr "local")
  ∧ String.length Sample.code_with_newline = 7%nat.
Proof. vm_compute. repeat split. Qed.

End ClassifyBoundary.

(* ===================================================================== *)
(** * The keyword-classification scenario                                 *)
(* ===================================================================== *)

(** C8, as amended. For the Acme Fiber Internet record the industry
    classifier finds the Internet Service Provider industry, of the
    Technology category, with code 517311 and confidence 10, the top of
    its scale of 1 to 10; the NAICS keyword tool, which reads
    [company_name] and has no keyword for this text, answers 999999 with
    confidence 20. *)
Theorem acme_fiber_classification :
  let c := IndustryClassifier.classify Sample.acme in
  let t := IndustryClassifierTool.classify None Sample.acme in
  c !! "industry_primary" = Some (VStr "Internet Service Provider")
  ∧ c !! "industry_category" = Some (VStr "Technology")
  ∧ c !! "naics_code" = Some (VStr "517311")
  ∧ c !! "industry_confidence" = Some (VInt 10)
  ∧ t !! "naics_code" = Some (VStr "999999")
  ∧ t !! "confidence_score" = Some (VInt 20).
Proof. vm_compute. repeat split. Qed.

(** C8, as stated, fails: neither classifier reports a confidence of 50
    or more for the record. *)
Lemma acme_fiber_confidence_below_50 :
  (∃ n, IndustryClassifier.classify Sample.acme !! "industry_confidence"
        = Some (VInt n) ∧ n < 50)
  ∧ IndustryClassifier.classify Sample.acme !! "confidence_score" = None
  ∧ (∃ n, IndustryClassifierTool.classify None Sample.acme !! "confidence_score"
          = Some (VInt n) ∧ n < 50).
Proof.
  split_and!.
  - exists 10. split; [vm_compute; reflexivity | lia].
  - vm_compute; reflexivity.
  - exists 20. split; [vm_compute; reflexivity | lia].
Qed.

(* ===================================================================== *)
(** * Deduplication on an exact key                                       *)
(* ===================================================================== *)

Section ExactKeyDedup.
Import CRMLeadAgent.

Lemma has_key_iff (key : string) (business : record) :
  Stated.has_key key business = true ↔ dedup_key business = Ok key.
Proof.
  unfold Stated.has_key. destruct (dedup_key business) as [k|e].
  - rewrite String.eqb_eq. split; [by intros ->|by intros [= ->]].
  - split; discriminate.
Qed.

Lemma filter_has_key_one (key : string) (business : record) :
  List.filter (Stated.has_key key) [business]
  = if Stated.has_key key business then [business] else [].
Proof. reflexivity. Qed.

Lemma exact_step_inv (pre : list record) (st st' : state) (business : record) :
  Stated.exact_inv pre st ->
  dedup_step st business = Ok st' ->
  Stated.exact_inv (pre ++ [business]) st'.
Proof.
  destruct st as [seen unique_data]. intros (Hsub & Hseen & Hfilter).
  unfold dedup_step. destruct (dedup_key business) as [k0|e] eqn:Hk; [|done].
  simpl in *.
  assert (Hhas : ∀ key, Stated.has_key key business = String.eqb k0 key).
  { intros key. unfold Stated.has_key. by rewrite Hk. }
  destruct (String.eqb k0 "") eqn:Hempty; simpl.
  { (* an empty key: the business is dropped *)
    apply String.eqb_eq in Hempty as ->. intros [= <-]. split_and!; simpl.
    - by apply sublist_inserts_r.
    - intros key. rewrite Hseen, List.filter_app, filter_has_key_one, Hhas.
      destruct (String.eqb "" key) eqn:E; [|by rewrite app_nil_r].
      apply String.eqb_eq in E as <-. split; intros [? _]; done.
    - intros key. rewrite Hfilter, List.filter_app, filter_has_key_one, Hhas.
      rewrite (String.eqb_sym key "").
      destruct (String.eqb "" key); [done|by rewrite app_nil_r]. }
  apply String.eqb_neq in Hempty.
  destruct (bool_decide (k0 ∈ seen)) eqn:Hin; simpl.
  - (* a key seen before: the business is dropped *)
    apply bool_decide_eq_true in Hin. intros [= <-]. split_and!; simpl.
    + by apply sublist_inserts_r.
    + intros key. rewrite Hseen, List.filter_app, filter_has_key_one, Hhas.
      destruct (String.eqb k0 key) eqn:E; [|by rewrite app_nil_r].
      apply String.eqb_eq in E as <-. apply Hseen in Hin as [_ Hne].
      split; [|by intros [? _]]. intros _. split; [done|].
      by destruct (List.filter (Stated.has_key k0) pre).
    + intros key. rewrite Hfilter, List.filter_app, filter_has_key_one, Hhas.
      destruct (String.eqb key ""); [done|].
      destruct (String.eqb k0 key) eqn:E; [|by rewrite app_nil_r].
      apply String.eqb_eq in E as <-. apply Hseen in Hin as [_ Hne].
      by destruct (List.filter (Stated.has_key k0) pre).
  - (* a new key: the business is kept *)
    apply bool_decide_eq_false in Hin. intros [= <-].
    assert (Hnone : List.filter (Stated.has_key k0) pre = []).
    { destruct (List.filter (Stated.has_key k0) pre) eqn:E; [done|].
      exfalso. apply Hin, Hseen. by rewrite E. }
    split_and!; simpl.
    + by apply sublist_app.
    + intros key. rewrite elem_of_union, elem_of_singleton, Hseen.
      rewrite List.filter_app, filter_has_key_one, Hhas.
      destruct (String.eqb k0 key) eqn:E.
      * apply String.eqb_eq in E as <-. split; [intros _|by left].
        split; [done|]. by destruct (List.filter _ pre).
      * apply String.eqb_neq in E. rewrite app_nil_r. split; [|by right].
        intros [->|?]; done.
    + intros key. rewrite !List.filter_app, filter_has_key_one, Hhas, Hfilter.
      destruct (String.eqb key "") eqn:Hkey.
      * apply String.eqb_eq in Hkey as ->.
        apply String.eqb_neq in Hempty. by rewrite Hempty.
      * destruct (String.eqb k0 key) eqn:E; [|by rewrite !app_nil_r].
        apply String.eqb_eq in E as <-. by rewrite Hnone.
Qed.

Lemma exact_loop_inv (rest pre : list record) (st st' : state) :
  Stated.exact_inv pre st ->
  dedup_loop rest st = Ok st' ->
  Stated.exact_inv (pre ++ rest) st'.
Proof.
  revert pre st. induction rest as [|business rest IH]; intros pre st Hinv; simpl.
  - intros [= <-]. by rewrite app_nil_r.
  - destruct (dedup_step st business) as [st1|e] eqn:Hstep; [|done]. simpl.
    intros Hloop. rewrite (cons_middle business), app_assoc.
    eapply IH; [|exact Hloop]. by eapply exact_step_inv.
Qed.

Lemma exact_loop_total (data : list record) (st : state) :
  Forall (fun b => Stated.str_or_absent b "business_name"
                   ∧ Stated.str_or_absent b "phone_number") data ->
  ∃ st', dedup_loop data st = Ok st'.
Proof.
  revert st. induction data as [|business rest IH]; intros st Hall; [by eexists|].
  apply Forall_cons in Hall as [[[n Hn] [p Hp]] Hrest]. simpl.
  assert (∃ st1, dedup_step st business = Ok st1) as [st1 ->].
  { destruct st as [seen unique_data]. unfold dedup_step, dedup_key.
    rewrite Hn, Hp. simpl. destruct (_ && _); by eexists. }
  simpl. by apply IH.
Qed.

(** C4, as amended. The key of a business is its phone number stripped
    of surrounding blanks when that is not empty, otherwise its name
    lower-cased and stripped; a business with an empty key is dropped. On
    lists whose names and phones are strings the deduplication returns,
    and what it returns is a sublist of the input, in order, that holds
    for every non-empty key exactly the first business with that key. *)
Theorem exact_key_deduplication (data : list record) :
  (∀ business name phone,
      Val.get_or business "business_name" (VStr "") = VStr name ->
      Val.get_or business "phone_number" (VStr "") = VStr phone ->
      dedup_key business
      = Ok (if String.eqb (Py.strip phone) "" then Py.strip (Py.lower name)
            else Py.strip phone))
  ∧ (Forall (fun b => Stated.str_or_absent b "business_name"
                      ∧ Stated.str_or_absent b "phone_number") data ->
     ∃ out, _deduplicate_businesses data = Ok out)
  ∧ ∀ out, _deduplicate_businesses data = Ok out ->
      sublist out data
      ∧ ∀ key, List.filter (Stated.has_key key) out
               = if String.eqb key "" then []
                 else take 1 (List.filter (Stated.has_key key) data).
Proof.
  split_and!.
  - intros business name phone Hn Hp. unfold dedup_key. rewrite Hn, Hp. simpl.
    by destruct (String.eqb (Py.strip phone) "").
  - intros Hall. unfold _deduplicate_businesses.
    destruct (exact_loop_total data (∅, []) Hall) as [st ->]. by eexists.
  - intros out. unfold _deduplicate_businesses.
    destruct (dedup_loop data (∅, [])) as [st|e] eqn:Hloop; [|done].
    simpl. intros [= <-].
    assert (Hinit : Stated.exact_inv [] (∅, [])).
    { split_and!; simpl.
      - constructor.
      - intros key. split; [by intros ?%elem_of_empty|by intros [_ ?]].
      - intros key. by destruct (String.eqb key ""). }
    destruct (exact_loop_inv data [] _ _ Hinit Hloop) as (Hsub & _ & Hfilter).
    done.
Qed.

(** The theorem on three sightings of two businesses. *)
Lemma exact_key_deduplication_witness :
  let a := Sample.with_phone "Acme Fiber" "555-1234" in
  let b := Sample.with_phone "Blue Ridge Net" "555-9876" in
  let a' := Sample.with_phone "ACME Fiber LLC" " 555-1234 " in
  Forall (fun b => Stated.str_or_absent b "business_name"
                   ∧ Stated.str_or_absent b "phone_number") [a; b; a']
  ∧ _deduplicate_businesses [a; b; a'] = Ok [a; b]
  ∧ sublist [a; b] [a; b; a'].
Proof.
  intros a b a'.
  assert (Hrun : _deduplicate_businesses [a; b; a'] = Ok [a; b])
    by (vm_compute; reflexivity).
  split_and!.
  - repeat constructor; eexists; reflexivity.
  - exact Hrun.
  - exact (proj1 (proj2 (proj2 (exact_key_deduplication [a; b; a'])) _ Hrun)).
Defined.

(** C4, as stated, fails: two phones with the same digits, written
    differently, are two keys, and both businesses are kept. *)
Lemma same_digits_both_kept :
  let a := Sample.with_phone "Acme Fiber" "555-1234" in
  let b := Sample.with_phone "Acme Fiber" "5551234" in
  Stated.phone_digits a = Stated.phone_digits b
  ∧ _deduplicate_businesses [a; b] = Ok [a; b].
Proof. split; vm_compute; reflexivity. Qed.

End ExactKeyDedup.

(* ===================================================================== *)
(** * Deduplication on name similarity                                    *)
(* ===================================================================== *)

Section FuzzyNameDedup.
Import ISPScraper.

(** On names of up to 100 words the float comparison is the comparison
    of the fractions: [overlap / n > 0.6] exactly when [5 * overlap > 3 * n]. *)
Lemma ratio_exceeds_exact (overlap n : nat) :
  (0 < n <= 100)%nat -> (overlap <= n)%nat ->
  ratio_exceeds overlap n = (3 * n <? 5 * overlap)%nat.
Proof.
  intros Hn Ho.
  assert (Hall : forallb (fun n => forallb (fun overlap =>
                     Bool.eqb (ratio_exceeds overlap n) (3 * n <? 5 * overlap)%nat)
                     (seq 0 (S n))) (seq 1 100) = true) by (vm_compute; reflexivity).
  rewrite forallb_forall in Hall. specialize (Hall n).
  rewrite forallb_forall in Hall.
  apply Bool.eqb_prop, Hall; apply in_seq; lia.
Qed.

(** On such names the test of the code is the test on exact
    fractions. *)
Lemma similar_exact (name_words : gset string) (seen_name : string) :
  (size name_words <= 100)%nat -> (size (word_set seen_name) <= 100)%nat ->
  similar name_words seen_name
  = Stated.same_business name_words (word_set seen_name).
Proof.
  intros H1 H2. unfold similar, Stated.same_business. cbv zeta.
  set (overlap := size (name_words ∩ word_set seen_name)).
  assert (Ho1 : (overlap <= size name_words)%nat).
  { apply subseteq_size, intersection_subseteq_l. }
  assert (Ho2 : (overlap <= size (word_set seen_name))%nat).
  { apply subseteq_size, intersection_subseteq_r. }
  destruct (2 <=? overlap)%nat eqn:Htwo; [|done].
  apply Nat.leb_le in Htwo. cbn [andb].
  rewrite !ratio_exceeds_exact by lia. done.
Qed.

Lemma is_duplicate_iff (name_words seen_names : gset string) :
  is_duplicate name_words seen_names = true
  ↔ ∃ seen_name,
      seen_name ∈ seen_names
      ∧ let overlap := size (name_words ∩ word_set seen_name) in
        (2 <= overlap)%nat
        ∧ (ratio_exceeds overlap (size name_words) = true
           ∨ ratio_exceeds overlap (size (word_set seen_name)) = true).
Proof.
  unfold is_duplicate. rewrite existsb_exists. split.
  - intros (seen_name & Hin & Hsim). exists seen_name.
    apply list_elem_of_In, elem_of_elements in Hin. split; [done|].
    unfold similar in Hsim. apply andb_true_iff in Hsim as [H2 Hr].
    apply Nat.leb_le in H2. apply orb_true_iff in Hr. done.
  - intros (seen_name & Hin & H2 & Hr). exists seen_name. split.
    + by apply list_elem_of_In, elem_of_elements.
    + unfold similar. apply andb_true_iff. split.
      * by apply Nat.leb_le.
      * by apply orb_true_iff.
Qed.

Lemma is_duplicate_exact (name_words seen_names : gset string) :
  (size name_words <= 100)%nat ->
  (∀ seen_name, seen_name ∈ seen_names -> (size (word_set seen_name) <= 100)%nat) ->
  is_duplicate name_words seen_names = true
  ↔ ∃ seen_name,
      seen_name ∈ seen_names
      ∧ Stated.same_business name_words (word_set seen_name) = true.
Proof.
  intros H1 H2. unfold is_duplicate. rewrite existsb_exists. split.
  - intros (seen_name & Hin & Hsim). exists seen_name.
    apply list_elem_of_In, elem_of_elements in Hin. split; [done|].
    by rewrite <- similar_exact by auto.
  - intros (seen_name & Hin & Hsame). exists seen_name. split.
    + by apply list_elem_of_In, elem_of_elements.
    + by rewrite similar_exact by auto.
Qed.

Lemma fuzzy_loop_app (l1 l2 : list record) (st : state) :
  dedup_loop (l1 ++ l2) st
  = bind (dedup_loop l1 st) (fun st1 => dedup_loop l2 st1).
Proof.
  revert st. induction l1 as [|b l1 IH]; intros st; simpl; [done|].
  destruct (dedup_step st b) as [st1|e]; simpl; [apply IH|done].
Qed.

Lemma fuzzy_step_inv (pre : list record) (st st' : state) (business : record) :
  Stated.fuzzy_inv pre st ->
  dedup_step st business = Ok st' ->
  Stated.fuzzy_inv (pre ++ [business]) st'.
Proof.
  destruct st as [seen kept]. intros [Hseen Hsub]. simpl in *.
  unfold dedup_step.
  destruct (normalized_name business) as [n|e] eqn:Hn; [|done]. simpl.
  destruct (is_duplicate (word_set n) seen).
  - intros [= <-]. split; [done|]. by apply sublist_inserts_r.
  - intros [= <-]. split; simpl; [|by apply sublist_app].
    unfold Stated.names_of. rewrite fmap_app, list_to_set_app_L. simpl.
    unfold Stated.name_of at 2. rewrite Hn. fold (Stated.names_of kept).
    rewrite <- Hseen, union_empty_r_L. apply union_comm_L.
Qed.

Lemma fuzzy_loop_inv (rest pre : list record) (st st' : state) :
  Stated.fuzzy_inv pre st ->
  dedup_loop rest st = Ok st' ->
  Stated.fuzzy_inv (pre ++ rest) st'.
Proof.
  revert pre st. induction rest as [|business rest IH]; intros pre st Hinv; simpl.
  - intros [= <-]. by rewrite app_nil_r.
  - destruct (dedup_step st business) as [st1|e] eqn:Hstep; [|done]. simpl.
    intros Hloop. rewrite (cons_middle business), app_assoc.
    eapply IH; [|exact Hloop]. by eapply fuzzy_step_inv.
Qed.

Lemma fuzzy_loop_total (businesses : list record) (st : state) :
  Forall (fun b => Stated.str_or_absent b "business_name") businesses ->
  ∃ st', dedup_loop businesses st = Ok st'.
Proof.
  revert st. induction businesses as [|business rest IH]; intros st Hall; [by eexists|].
  apply Forall_cons in Hall as [[n Hn] Hrest]. simpl.
  assert (∃ st1, dedup_step st business = Ok st1) as [st1 ->].
  { destruct st as [seen kept]. unfold dedup_step, normalized_name.
    rewrite Hn. simpl. destruct (is_duplicate _ _); by eexists. }
  simpl. by apply IH.
Qed.

Lemma normalized_name_returns (business : record) :
  (∃ name, normalized_name business = Ok name)
  ↔ Stated.str_or_absent business "business_name".
Proof.
  unfold normalized_name, Stated.str_or_absent. split.
  - intros [name Hn].
    destruct (Val.get_or business "business_name" (VStr "")) as [| | |s];
      try done. by exists s.
  - intros [s ->]. by eexists.
Qed.

Lemma fuzzy_loop_names (businesses : list record) (st st' : state) :
  dedup_loop businesses st = Ok st' ->
  Forall (fun b => Stated.str_or_absent b "business_name") businesses.
Proof.
  revert st. induction businesses as [|business rest IH]; intros st; [done|].
  cbn [dedup_loop].
  destruct (dedup_step st business) as [st1|e] eqn:Hstep; [|done].
  cbn [bind]. intros Hrest. constructor; [|by eapply IH].
  apply normalized_name_returns. destruct st as [seen kept].
  unfold dedup_step in Hstep.
  destruct (normalized_name business) as [name|]; [by exists name|done].
Qed.

Lemma fuzzy_inv_init : Stated.fuzzy_inv [] (∅, []).
Proof. split; [done|constructor]. Qed.

(** The deduplication is the loop from the empty state, the empty list
    included. *)
Lemma deduplicate_is_loop (businesses : list record) :
  _deduplicate_businesses businesses
  = bind (dedup_loop businesses (∅, [])) (fun st => Ok st.2).
Proof. by destruct businesses. Qed.

Lemma deduplicate_state (businesses kept : list record) :
  _deduplicate_businesses businesses = Ok kept ->
  dedup_loop businesses (∅, []) = Ok (Stated.names_of kept, kept)
  ∧ sublist kept businesses.
Proof.
  rewrite deduplicate_is_loop.
  destruct (dedup_loop businesses (∅, [])) as [[seen k]|e] eqn:Hloop; [|done].
  simpl. intros [= <-].
  destruct (fuzzy_loop_inv businesses [] _ _ fuzzy_inv_init Hloop) as [Hseen Hsub].
  simpl in *. by subst seen.
Qed.

Lemma deduplicate_snoc (pre kept : list record) (business : record) (name : string) :
  _deduplicate_businesses pre = Ok kept ->
  normalized_name business = Ok name ->
  _deduplicate_businesses (pre ++ [business])
  = Ok (if is_duplicate (word_set name) (Stated.names_of kept)
        then kept else kept ++ [business]).
Proof.
  intros [Hloop _]%deduplicate_state Hname.
  rewrite deduplicate_is_loop, fuzzy_loop_app, Hloop. simpl.
  unfold dedup_step. rewrite Hname. simpl.
  by destruct (is_duplicate _ _).
Qed.

(** The deduplication returns exactly on the lists whose names are
    strings, or absent. *)
Lemma deduplicate_returns (businesses : list record) :
  (∃ kept, _deduplicate_businesses businesses = Ok kept)
  ↔ Forall (fun b => Stated.str_or_absent b "business_name") businesses.
Proof.
  rewrite deduplicate_is_loop. split.
  - intros [kept Hk].
    destruct (dedup_loop businesses (∅, [])) as [st|e] eqn:Hloop; [|done].
    by eapply fuzzy_loop_names.
  - intros Hall.
    destruct (fuzzy_loop_total businesses (∅, []) Hall) as [st ->].
    by eexists.
Qed.

(** C5, as amended. On names of up to 100 words, a name is a duplicate
    exactly when some name kept before shares at least 2 words with it
    and 5 times the shared words exceed 3 times the words of either
    name, that is, the shared words are more than 0.6 of them. The
    empty list gives the empty list; the deduplication returns exactly
    when every name is a string or absent, and what it returns is a
    sublist of the input, obtained by adding each business that is no
    duplicate of those kept before it: the first business of a similar
    pair is kept and the later one is dropped, no field merged. *)
Theorem fuzzy_name_deduplication :
  (∀ name_words seen_names,
      (size name_words <= 100)%nat ->
      (∀ seen_name, seen_name ∈ seen_names ->
                    (size (word_set seen_name) <= 100)%nat) ->
      is_duplicate name_words seen_names = true
      ↔ ∃ seen_name,
          seen_name ∈ seen_names
          ∧ let overlap := size (name_words ∩ word_set seen_name) in
            (2 <= overlap)%nat
            ∧ (3 * size name_words < 5 * overlap
               ∨ 3 * size (word_set seen_name) < 5 * overlap)%nat)
  ∧ _deduplicate_businesses [] = Ok []
  ∧ (∀ businesses,
        (∃ kept, _deduplicate_businesses businesses = Ok kept)
        ↔ Forall (fun b => Stated.str_or_absent b "business_name") businesses)
  ∧ (∀ businesses kept,
        _deduplicate_businesses businesses = Ok kept -> sublist kept businesses)
  ∧ (∀ pre kept business name,
        _deduplicate_businesses pre = Ok kept ->
        normalized_name business = Ok name ->
        _deduplicate_businesses (pre ++ [business])
        = Ok (if is_duplicate (word_set name) (Stated.names_of kept)
              then kept else kept ++ [business]))
  ∧ (∀ first second name1 name2,
        normalized_name first = Ok name1 ->
        normalized_name second = Ok name2 ->
        (size (word_set name1) <= 100)%nat ->
        (size (word_set name2) <= 100)%nat ->
        _deduplicate_businesses [first; second]
        = Ok (if Stated.same_business (word_set name2) (word_set name1)
              then [first] else [first; second])).
Proof.
  split_and!.
  - intros name_words seen_names H1 H2.
    rewrite (is_duplicate_exact _ _ H1 H2).
    apply exist_proper. intros seen_name. apply and_iff_compat_l.
    unfold Stated.same_business. cbv zeta.
    rewrite andb_true_iff, orb_true_iff, Nat.leb_le, !Nat.ltb_lt. done.
  - reflexivity.
  - apply deduplicate_returns.
  - intros businesses kept Hrun. by apply deduplicate_state in Hrun as [_ ?].
  - apply deduplicate_snoc.
  - intros first second name1 name2 H1 H2 Hs1 Hs2.
    assert (Hfirst : _deduplicate_businesses [first] = Ok [first]).
    { simpl. unfold dedup_step. rewrite H1. simpl.
      unfold is_duplicate. by rewrite elements_empty. }
    change [first; second] with ([first] ++ [second]).
    rewrite (deduplicate_snoc [first] [first] second name2 Hfirst H2).
    unfold is_duplicate, Stated.names_of. simpl.
    unfold Stated.name_of. rewrite H1.
    rewrite union_empty_r_L, elements_singleton. simpl.
    rewrite orb_false_r, (similar_exact _ _ Hs2 Hs1). done.
Qed.

(** The theorem on two names that share 3 of their 4 words, a ratio of
    0.75: the first is kept, the second dropped. *)
Lemma fuzzy_name_deduplication_witness :
  let first := Sample.named "Carolina Fiber Internet Services" in
  let second := Sample.named "Carolina Fiber Internet, Inc." in
  normalized_name first = Ok "carolina fiber internet services"
  ∧ normalized_name second = Ok "carolina fiber internet inc"
  ∧ size (word_set "carolina fiber internet inc"
          ∩ word_set "carolina fiber internet services") = 3%nat
  ∧ size (word_set "carolina fiber internet inc") = 4%nat
  ∧ _deduplicate_businesses [first; second] = Ok [first].
Proof.
  intros first second.
  assert (H1 : normalized_name first = Ok "carolina fiber internet services")
    by reflexivity.
  assert (H2 : normalized_name second = Ok "carolina fiber internet inc")
    by reflexivity.
  split_and!; [exact H1 | exact H2 | vm_compute; reflexivity
               | vm_compute; reflexivity |].
  rewrite (proj2 (proj2 (proj2 (proj2 (proj2 fuzzy_name_deduplication))))
             first second _ _ H1 H2);
    [|vm_compute; lia|vm_compute; lia].
  vm_compute. reflexivity.
Defined.

(** C5, as stated, fails: the deduplication can fail. A business whose
    name is [None] has no [lower], and the [AttributeError] leaves the
    function. *)
Lemma none_name_raises :
  _deduplicate_businesses [Sample.named "Acme Fiber"; Sample.no_name]
  = Raise (AttributeError "'NoneType' object has no attribute 'lower'").
Proof. vm_compute. reflexivity. Qed.

(** Two names that share 4 of the 5 words of the longer one, a ratio of
    0.8: the first is kept. *)
Lemma four_of_five_words :
  let first := Sample.named "Blue Ridge Mountain Fiber Internet" in
  let second := Sample.named "Blue Ridge Mountain Fiber" in
  _deduplicate_businesses [first; second] = Ok [first]
  ∧ _deduplicate_businesses [second; first] = Ok [second].
Proof. split; vm_compute; reflexivity. Qed.

End FuzzyNameDedup.

(* ===================================================================== *)
(** * Running classification and validation twice                         *)
(* ===================================================================== *)

(** From [outside keys k], that [k] differs from each key. *)
Ltac outside_keys H :=
  unfold Stated.outside in H; cbn [forallb] in H;
  repeat (let Hk := fresh "Hk" in
          apply andb_prop in H as [Hk H];
          apply negb_true_iff, String.eqb_neq in Hk);
  clear H.

(** Membership in a list that is written out. *)
Ltac in_list := repeat first [apply list_elem_of_here | apply list_elem_of_further].

(** The title-cased patterns of [_clean_business_name], computed. *)
Ltac show_titles :=
  change (Py.title " inc.") with " Inc.";
  change (Py.title " llc") with " Llc";
  change (Py.title " corp.") with " Corp.";
  change (Py.title " ltd.") with " Ltd.";
  change (Py.title " co.") with " Co.".

Section StringFacts.

Lemma app_cons (c : ascii) (s t : string) : String c s +:+ t = String c (s +:+ t).
Proof. reflexivity. Qed.

Lemma app_empty_l (t : string) : "" +:+ t = t.
Proof. reflexivity. Qed.

Lemma map_app (f : ascii -> ascii) (s t : string) :
  Py.map f (s +:+ t) = Py.map f s +:+ Py.map f t.
Proof. induction s as [|c s IH]; [done|]. rewrite !app_cons. simpl. by rewrite IH, app_cons. Qed.

Lemma map_length (f : ascii -> ascii) (s : string) :
  String.length (Py.map f s) = String.length s.
Proof. induction s as [|c s IH]; simpl; [done|by rewrite IH]. Qed.

Lemma map_empty (f : ascii -> ascii) (s : string) : Py.map f s = "" -> s = "".
Proof. by destruct s. Qed.

Lemma prefix_split (old s : string) :
  String.prefix old s = true -> s = old +:+ Py.drop (String.length old) s.
Proof.
  revert s. induction old as [|c old IH]; intros s; [done|].
  destruct s as [|c' s]; [done|]. simpl.
  destruct (ascii_dec c c') as [->|Hne]; [|done].
  intros H. rewrite app_cons. f_equal. by apply IH.
Qed.

Lemma drop_length_le (n : nat) (s : string) :
  (String.length (Py.drop n s) <= String.length s)%nat.
Proof.
  revert s. induction n as [|n IH]; intros s; [done|].
  destruct s as [|c s]; simpl; [done|]. specialize (IH s). lia.
Qed.

(** A replacement by a string of the same shape keeps the shape. *)
Lemma replace_go_map (f : ascii -> ascii) (old new : string) (fuel : nat) (s : string) :
  Py.map f old = Py.map f new ->
  Py.map f (Py.replace_go fuel old new s) = Py.map f s.
Proof.
  intros Hsame. revert s. induction fuel as [|fuel IH]; intros s; [done|].
  destruct s as [|c s]; [done|]. cbn [Py.replace_go].
  destruct (String.prefix old (String c s)) eqn:Hp.
  - rewrite map_app, IH, <- Hsame, <- map_app. f_equal.
    symmetry. by apply prefix_split.
  - simpl. by rewrite IH.
Qed.

Lemma replace_map (f : ascii -> ascii) (old new s : string) :
  old ≠ "" -> Py.map f old = Py.map f new ->
  Py.map f (Py.replace old new s) = Py.map f s.
Proof.
  intros Hne Hsame. unfold Py.replace. destruct old; [done|].
  by apply replace_go_map.
Qed.

Lemma isspace_shape_char (c : ascii) :
  Py.isspace (Stated.shape_char c) = Py.isspace c.
Proof. unfold Stated.shape_char. destruct (Py.isspace c) eqn:E; [done|reflexivity]. Qed.

Lemma existsb_space_shape (s : string) :
  Py.existsb Py.isspace (Stated.shape s) = Py.existsb Py.isspace s.
Proof.
  unfold Stated.shape. induction s as [|c s IH]; [done|]. simpl.
  by rewrite IH, isspace_shape_char.
Qed.

Lemma shape_char_space : Stated.shape_char " " = " "%char.
Proof. reflexivity. Qed.

(** [split] sees only the shape. *)
Lemma split_shape (s : string) :
  Py.split (Stated.shape s) = Stated.shape <$> Py.split s.
Proof.
  induction s as [|c s IH]; [done|].
  cbn [Stated.shape Py.map Py.split]. fold (Stated.shape s).
  rewrite isspace_shape_char.
  destruct (Py.isspace c); [exact IH|].
  destruct s as [|c' s']; [done|].
  cbn [Stated.shape Py.map] in *. fold (Stated.shape s') in *.
  rewrite isspace_shape_char.
  destruct (Py.isspace c').
  - rewrite fmap_cons. f_equal. exact IH.
  - rewrite IH. by destruct (Py.split (String c' s')).
Qed.

Lemma join_shape (ws : list string) :
  Py.join " " (Stated.shape <$> ws) = Stated.shape (Py.join " " ws).
Proof.
  induction ws as [|w ws IH]; [done|].
  destruct ws as [|w' ws]; [done|].
  rewrite !fmap_cons in *. cbn [Py.join] in *. rewrite IH.
  unfold Stated.shape. by rewrite !map_app.
Qed.

Lemma split_words (s : string) : Forall Stated.is_word (Py.split s).
Proof.
  induction s as [|c s IH]; [constructor|]. cbn [Py.split].
  destruct (Py.isspace c) eqn:Hc; [done|].
  assert (Hone : Stated.is_word (String c "")).
  { split; [done|]. unfold Stated.blank_free. simpl. by rewrite Hc. }
  destruct s as [|c' s']; [by constructor|].
  destruct (Py.isspace c') eqn:Hc'; [by constructor|].
  destruct (Py.split (String c' s')) as [|w ws]; [by constructor|].
  apply Forall_cons in IH as [[Hne Hw] Hws]. constructor; [|done].
  split; [done|]. unfold Stated.blank_free in *. simpl. by rewrite Hc.
Qed.

Lemma split_word_then_space (w rest : string) :
  Stated.is_word w ->
  Py.split (w +:+ String " " rest) = w :: Py.split rest.
Proof.
  intros [Hne Hw]. induction w as [|c w IH]; [done|].
  unfold Stated.blank_free in Hw. simpl in Hw.
  apply negb_true_iff, orb_false_iff in Hw as [Hc Hw].
  rewrite app_cons. cbn [Py.split]. rewrite Hc.
  destruct w as [|c' w'].
  - rewrite app_empty_l. done.
  - rewrite app_cons. simpl in Hw. apply orb_false_iff in Hw as [Hc' Hw'].
    rewrite Hc'. rewrite <- app_cons, IH; [done|done|].
    unfold Stated.blank_free. simpl. by rewrite Hc', Hw'.
Qed.

Lemma split_one_word (w : string) : Stated.is_word w -> Py.split w = [w].
Proof.
  intros [Hne Hw]. induction w as [|c w IH]; [done|].
  unfold Stated.blank_free in Hw. simpl in Hw.
  apply negb_true_iff, orb_false_iff in Hw as [Hc Hw].
  cbn [Py.split]. rewrite Hc. destruct w as [|c' w']; [done|].
  simpl in Hw. apply orb_false_iff in Hw as [Hc' Hw'].
  rewrite Hc', IH; [done|done|].
  unfold Stated.blank_free. simpl. by rewrite Hc', Hw'.
Qed.

Lemma split_join (ws : list string) :
  Forall Stated.is_word ws -> Py.split (Py.join " " ws) = ws.
Proof.
  induction ws as [|w ws IH]; [done|].
  intros [Hw Hws]%Forall_cons. destruct ws as [|w' ws].
  - by apply split_one_word.
  - cbn [Py.join]. change (" " +:+ ?t) with (String " " t).
    rewrite split_word_then_space by done. f_equal. by apply IH.
Qed.

(** Joining the words of a string and splitting again changes nothing. *)
Lemma join_split_idem (s : string) :
  Py.join " " (Py.split (Py.join " " (Py.split s))) = Py.join " " (Py.split s).
Proof. by rewrite split_join by apply split_words. Qed.

Lemma join_split_shape (s : string) :
  Py.join " " (Py.split (Stated.shape s))
  = Stated.shape (Py.join " " (Py.split s)).
Proof. by rewrite split_shape, join_shape. Qed.


Lemma join_nonempty (ws : list string) :
  ws ≠ [] -> Forall Stated.is_word ws -> Py.join " " ws ≠ "".
Proof.
  destruct ws as [|w ws]; [done|]. intros _ [[Hne _] _]%Forall_cons.
  destruct ws; [done|]. cbn [Py.join]. by destruct w.
Qed.

Lemma lstrip_empty (s : string) : Py.lstrip s = "" ↔ Py.split s = [].
Proof.
  induction s as [|c s IH]; [done|]. simpl.
  destruct (Py.isspace c); [exact IH|].
  split; [done|]. destruct s as [|c' s']; [done|].
  destruct (Py.isspace c'); [done|]. by destruct (Py.split (String c' s')).
Qed.

Lemma rstrip_empty (s : string) : Py.rstrip s = "" ↔ Py.split s = [].
Proof.
  induction s as [|c s IH]; [done|]. cbn [Py.rstrip Py.split].
  destruct (Py.rstrip s) as [|c1 r] eqn:Hr.
  - destruct IH as [IH _]. specialize (IH eq_refl).
    destruct (Py.isspace c); [by rewrite IH|].
    split; [done|]. destruct s as [|c' s']; [done|].
    destruct (Py.isspace c'); [done|]. by rewrite IH.
  - destruct (Py.isspace c).
    + split; [done|]. intros H. by apply IH in H.
    + split; [done|]. destruct s as [|c' s']; [done|].
      destruct (Py.isspace c'); [done|]. by destruct (Py.split (String c' s')).
Qed.

Lemma split_lstrip (s : string) : Py.split (Py.lstrip s) = Py.split s.
Proof.
  induction s as [|c s IH]; [done|]. cbn [Py.lstrip].
  destruct (Py.isspace c) eqn:E; [|done]. cbn [Py.split]. by rewrite E.
Qed.

Lemma rstrip_head (c : ascii) (s : string) :
  Py.rstrip (String c s) = "" ∨ ∃ r, Py.rstrip (String c s) = String c r.
Proof.
  cbn [Py.rstrip]. destruct (Py.rstrip s); [|by right; eexists].
  destruct (Py.isspace c); [by left|by right; eexists].
Qed.

Lemma split_cons (c : ascii) (s : string) :
  Py.split (String c s)
  = if Py.isspace c then Py.split s
    else match s with
         | "" => [String c ""]
         | String c' _ =>
             if Py.isspace c' then String c "" :: Py.split s
             else match Py.split s with
                  | w :: ws => String c w :: ws
                  | [] => [String c ""]
                  end
         end.
Proof. by destruct s. Qed.

Lemma split_rstrip (s : string) : Py.split (Py.rstrip s) = Py.split s.
Proof.
  induction s as [|c s IH]; [done|].
  cbn [Py.rstrip]. destruct (Py.rstrip s) as [|c1 r] eqn:Hr.
  - assert (Hs : Py.split s = []) by by apply rstrip_empty.
    cbn [Py.split]. destruct (Py.isspace c) eqn:Hc.
    + by rewrite Hs.
    + cbn [Py.split]. rewrite Hc. destruct s as [|c' s']; [done|].
      destruct (Py.isspace c') eqn:Hc'; [by rewrite Hs|].
      exfalso. cbn [Py.split] in Hs. rewrite Hc' in Hs.
      destruct s' as [|c2 s2]; [done|].
      destruct (Py.isspace c2); [done|]. by destruct (Py.split (String c2 s2)).
  - destruct s as [|c' s']; [done|].
    destruct (rstrip_head c' s') as [He|[r' Hr']]; [congruence|].
    rewrite Hr in Hr'. injection Hr' as -> ->.
    rewrite !(split_cons c). destruct (Py.isspace c); [exact IH|].
    destruct (Py.isspace c'); by rewrite IH.
Qed.

Lemma split_strip (s : string) : Py.split (Py.strip s) = Py.split s.
Proof. unfold Py.strip. by rewrite split_rstrip, split_lstrip. Qed.

Lemma strip_empty (s : string) : Py.strip s = "" ↔ Py.split s = [].
Proof. unfold Py.strip. by rewrite rstrip_empty, split_lstrip. Qed.

Lemma prefix_head (c c' : ascii) (old s : string) :
  String.prefix (String c old) (String c' s) = true -> c = c'.
Proof. simpl. by destruct (ascii_dec c c'). Qed.

(** No pattern that begins with a space occurs in a string without
    blanks. *)
Lemma replace_go_blank_free (fuel : nat) (old new s : string) :
  Stated.blank_free s = true ->
  Py.replace_go fuel (String " " old) new s = s.
Proof.
  revert s. induction fuel as [|fuel IH]; intros s Hs; [done|].
  destruct s as [|c s]; [done|]. cbn [Py.replace_go].
  unfold Stated.blank_free in Hs. simpl in Hs.
  apply negb_true_iff, orb_false_iff in Hs as [Hc Hs].
  destruct (String.prefix _ _) eqn:Hp.
  - apply prefix_head in Hp as <-. done.
  - f_equal. apply IH. unfold Stated.blank_free. by rewrite Hs.
Qed.

Lemma replace_blank_free (old new s : string) :
  Stated.blank_free s = true -> Py.replace (String " " old) new s = s.
Proof. apply replace_go_blank_free. Qed.

Lemma clean_business_name_unfold (name : string) :
  DataValidator._clean_business_name name
  = Stated.replace_suffixes (Py.join " " (Py.split name)).
Proof. reflexivity. Qed.

(** The title-cased patterns. *)
Lemma suffix_titles :
  Py.title <$> DataValidator.suffixes.*1 = [" Inc."; " Llc"; " Corp."; " Ltd."; " Co."].
Proof. reflexivity. Qed.

Lemma replace_suffixes_blank_free (s : string) :
  Stated.blank_free s = true -> Stated.replace_suffixes s = s.
Proof.
  intros Hs. unfold Stated.replace_suffixes, DataValidator.suffixes.
  cbn [fold_left]. show_titles. by rewrite !(replace_blank_free _ _ s Hs).
Qed.

Lemma replace_suffixes_shape (s : string) :
  Stated.shape (Stated.replace_suffixes s) = Stated.shape s.
Proof.
  unfold Stated.replace_suffixes, DataValidator.suffixes. cbn [fold_left].
  show_titles. unfold Stated.shape. rewrite !replace_map; done.
Qed.

Lemma shape_blank_free (s t : string) :
  Stated.shape s = Stated.shape t -> Stated.blank_free s = Stated.blank_free t.
Proof.
  intros H. unfold Stated.blank_free.
  by rewrite <- (existsb_space_shape s), <- (existsb_space_shape t), H.
Qed.

Lemma shape_empty (s t : string) :
  Stated.shape s = Stated.shape t -> s ≠ "" -> t ≠ "".
Proof. intros H Hs ->. destruct s; [done|discriminate H]. Qed.

(** A cleaned name keeps its shape when its words are joined again. *)
Lemma cleaned_name_shape (s : string) :
  let n1 := DataValidator._clean_business_name s in
  Stated.shape (Py.join " " (Py.split n1)) = Stated.shape n1.
Proof.
  intros n1. subst n1. rewrite clean_business_name_unfold.
  rewrite <- join_split_shape, replace_suffixes_shape, join_split_shape.
  by rewrite join_split_idem.
Qed.

(** Validating a validated name again gives a name with the same flag. *)
Lemma name_after_flag (n0 : string) :
  Stated.string_flag (Stated.name_after (Stated.name_after n0))
  = Stated.string_flag (Stated.name_after n0).
Proof.
  unfold Stated.name_after at 2 3.
  destruct (String.eqb (Py.strip n0) "") eqn:Hblank; [vm_compute; reflexivity|].
  apply String.eqb_neq in Hblank.
  set (s0 := Py.strip n0) in *.
  set (n1 := DataValidator._clean_business_name s0).
  pose proof (cleaned_name_shape s0) as Hshape. cbv zeta in Hshape. fold n1 in Hshape.
  assert (Hn1 : n1 ≠ "").
  { unfold n1. rewrite clean_business_name_unfold.
    eapply shape_empty; [symmetry; apply replace_suffixes_shape|].
    apply join_nonempty; [|apply split_words].
    unfold s0. rewrite split_strip. intros H. apply Hblank.
    by apply strip_empty. }
  assert (Hj : Py.join " " (Py.split n1) ≠ "").
  { eapply shape_empty; [symmetry; exact Hshape|done]. }
  assert (Hstrip : Py.strip n1 ≠ "").
  { rewrite strip_empty. intros H. by rewrite H in Hj. }
  unfold Stated.name_after. apply String.eqb_neq in Hstrip as Hstrip'.
  rewrite Hstrip'. rewrite clean_business_name_unfold, split_strip.
  set (n2 := Stated.replace_suffixes (Py.join " " (Py.split n1))).
  assert (Hn2 : n2 ≠ "").
  { eapply shape_empty; [symmetry; apply replace_suffixes_shape|done]. }
  unfold Stated.string_flag.
  rewrite (proj2 (String.eqb_neq _ _) Hn1), (proj2 (String.eqb_neq _ _) Hn2).
  cbn [negb andb]. f_equal.
  destruct (String.eqb n1 "UNKNOWN") eqn:E1.
  - apply String.eqb_eq in E1. subst n2. rewrite E1. vm_compute. reflexivity.
  - destruct (String.eqb n2 "UNKNOWN") eqn:E2; [|done]. exfalso.
    apply String.eqb_eq in E2. apply String.eqb_neq in E1. apply E1.
    assert (Hsh : Stated.shape n1 = Stated.shape "UNKNOWN").
    { rewrite <- Hshape, <- E2. subst n2. by rewrite replace_suffixes_shape. }
    assert (Hbf : Stated.blank_free n1 = true).
    { by rewrite (shape_blank_free _ _ Hsh). }
    assert (Hw : Py.split n1 = [n1]) by (by apply split_one_word).
    subst n2. rewrite Hw in E2. cbn [Py.join] in E2.
    by rewrite replace_suffixes_blank_free in E2.
Qed.

Lemma app_nonempty_r (s t : string) : t ≠ "" -> s +:+ t ≠ "".
Proof. intros Ht. destruct s; [done|]. rewrite app_cons. done. Qed.

Lemma clean_description_nonempty (s : string) :
  Py.strip s ≠ "" -> DataValidator._clean_description (Py.strip s) ≠ "".
Proof.
  intros Hs. unfold DataValidator._clean_description.
  destruct (_ <? _)%nat; [by apply app_nonempty_r|].
  apply join_nonempty; [|apply split_words].
  rewrite split_strip. by rewrite <- strip_empty.
Qed.

End StringFacts.

Section RunSteps.
Import DataValidator.

Lemma classify_outside (d : record) (k : string) :
  Stated.outside Stated.classification_keys k = true ->
  IndustryClassifier.classify d !! k = None.
Proof.
  intros H. outside_keys H. unfold IndustryClassifier.classify.
  destruct (IndustryClassifier._classify_by_keywords _) as [[p c] n].
  destruct (IndustryClassifier._find_secondary_industries _ _);
    by simplify_map_eq.
Qed.

Lemma classify_by_keywords_named (text : string) :
  (IndustryClassifier._classify_by_keywords text).1.1 ≠ "".
Proof.
  unfold IndustryClassifier._classify_by_keywords.
  destruct (fold_left _ _ _) as [[industry|] h]; [|done].
  destruct (String.eqb industry "") eqn:E; [done|].
  simpl. by apply String.eqb_neq.
Qed.

Lemma classify_primary (d : record) :
  ∃ p, IndustryClassifier.classify d !! "industry_primary" = Some (VStr p) ∧ p ≠ "".
Proof.
  unfold IndustryClassifier.classify.
  pose proof (classify_by_keywords_named
    (Py.lower (Val.str (Val.get_or d "business_name" (VStr "")) +:+ " "
               +:+ Val.str (Val.get_or d "business_description" (VStr "")) +:+ " "
               +:+ Val.str (Val.get_or d "industry" (VStr ""))))) as Hp.
  destruct (IndustryClassifier._classify_by_keywords _) as [[p c] n].
  exists p. split; [|exact Hp].
  destruct (IndustryClassifier._find_secondary_industries _ _); by simplify_map_eq.
Qed.

Lemma classify_business_outside (d : record) (k : string) :
  Stated.outside Stated.classification_keys k = true ->
  EnhancedCRMApp.classify_business d !! k = d !! k.
Proof.
  intros H. unfold EnhancedCRMApp.classify_business, Val.update.
  apply lookup_union_r. by apply classify_outside.
Qed.

Lemma classify_business_primary (d : record) :
  ∃ p, EnhancedCRMApp.classify_business d !! "industry_primary" = Some (VStr p)
       ∧ p ≠ "".
Proof.
  destruct (classify_primary d) as (p & Hp & Hne). exists p. split; [|done].
  unfold EnhancedCRMApp.classify_business, Val.update.
  by apply lookup_union_Some_l.
Qed.

Lemma parse_address_outside (address k : string) :
  Stated.outside Stated.core_keys k = true -> _parse_address address !! k = None.
Proof.
  intros H. outside_keys H. unfold _parse_address.
  destruct (_ && _); [|done].
  destruct (last_two _) as [[city last]|]; [|by simplify_map_eq].
  destruct (Re.search_group _ _); by simplify_map_eq.
Qed.

Lemma parse_address_name (address k : string) :
  k = "business_name" ∨ k = "business_description" ∨ k = "address" ->
  _parse_address address !! k = None.
Proof.
  intros Hk. unfold _parse_address.
  destruct (_ && _); [|done].
  destruct (last_two _) as [[city last]|];
    [destruct (Re.search_group _ _)|];
    destruct Hk as [->|[->| ->]]; by simplify_map_eq.
Qed.

Lemma get_or_outside_insert (d : record) (k k' : string) (v dflt : pyval) :
  k ≠ k' -> Val.get_or (<[ k := v ]> d) k' dflt = Val.get_or d k' dflt.
Proof. intros H. unfold Val.get_or. by rewrite lookup_insert_ne. Qed.

Lemma core_fields (d : record) :
  _validate_core_fields d
  = bind (Val.as_str "strip" (Val.get_or d "business_name" (VStr ""))) (fun n0 =>
    bind (Val.as_str "strip" (Val.get_or d "address" (VStr ""))) (fun a0 =>
    bind (Val.as_str "strip" (Val.get_or d "business_description" (VStr ""))) (fun s0 =>
    Ok (Stated.core_of d n0 a0 s0)))).
Proof.
  unfold _validate_core_fields, Stated.core_of, Stated.name_after.
  destruct (Val.as_str "strip" (Val.get_or d "business_name" (VStr ""))) as [n0|e];
    [|done]. cbn [bind].
  assert (Haddr : ∀ v, Val.get_or (<[ "business_name" := v ]> d) "address" (VStr "")
                       = Val.get_or d "address" (VStr "")).
  { intros v. by apply get_or_outside_insert. }
  destruct (negb (String.eqb (Py.strip n0) "")) eqn:Hn;
    apply (f_equal negb) in Hn; rewrite negb_involutive in Hn; cbn [negb] in Hn;
    rewrite Hn; rewrite Haddr;
    (destruct (Val.as_str "strip" (Val.get_or d "address" (VStr ""))) as [a0|e];
     [|done]); cbn [bind].
  all: assert (Hdesc : ∀ m : record,
         m !! "business_description" = d !! "business_description" ->
         Val.get_or (if negb (String.eqb (Py.strip a0) "")
                     then Val.update m (_parse_address (Py.strip a0)) else m)
                    "business_description" (VStr "")
         = Val.get_or d "business_description" (VStr ""))
    by (intros m Hm; unfold Val.get_or, Val.update;
        destruct (negb _); [rewrite lookup_union_r by (by apply parse_address_name; auto)|];
        by rewrite Hm).
  all: rewrite Hdesc by (by rewrite lookup_insert_ne).
  all: by destruct (Val.as_str "strip" (Val.get_or d "business_description" (VStr ""))).
Qed.

Lemma as_str_ok (meth : string) (v : pyval) (x : string) :
  Val.as_str meth v = Ok x ↔ v = VStr x.
Proof. destruct v; simpl; split; congruence. Qed.

Lemma core_ok (d d1 : record) :
  _validate_core_fields d = Ok d1 ->
  ∃ n0 a0 s0,
    Val.get_or d "business_name" (VStr "") = VStr n0
    ∧ Val.get_or d "address" (VStr "") = VStr a0
    ∧ Val.get_or d "business_description" (VStr "") = VStr s0
    ∧ d1 = Stated.core_of d n0 a0 s0.
Proof.
  rewrite core_fields.
  destruct (Val.as_str _ (Val.get_or d "business_name" _)) as [n0|] eqn:Hn; [|done].
  destruct (Val.as_str _ (Val.get_or d "address" _)) as [a0|] eqn:Ha; [|done].
  destruct (Val.as_str _ (Val.get_or d "business_description" _)) as [s0|] eqn:Hs;
    [|done].
  simpl. intros [= <-]. exists n0, a0, s0.
  by rewrite as_str_ok in Hn, Ha, Hs.
Qed.

Lemma core_total (d : record) (n0 a0 s0 : string) :
  Val.get_or d "business_name" (VStr "") = VStr n0 ->
  Val.get_or d "address" (VStr "") = VStr a0 ->
  Val.get_or d "business_description" (VStr "") = VStr s0 ->
  _validate_core_fields d = Ok (Stated.core_of d n0 a0 s0).
Proof. intros Hn Ha Hs. by rewrite core_fields, Hn, Ha, Hs. Qed.

(** Whether the core step raises is decided by three fields. *)
Lemma core_raise_stable (d d' : record) (e : exn) :
  d' !! "business_name" = d !! "business_name" ->
  d' !! "address" = d !! "address" ->
  d' !! "business_description" = d !! "business_description" ->
  _validate_core_fields d = Raise e ->
  _validate_core_fields d' = Raise e.
Proof.
  intros Hn Ha Hs. rewrite !core_fields. unfold Val.get_or. rewrite Hn, Ha, Hs.
  destruct (Val.as_str _ (default _ (d !! "business_name"))); [|done].
  destruct (Val.as_str _ (default _ (d !! "address"))); [|done].
  by destruct (Val.as_str _ (default _ (d !! "business_description"))).
Qed.

Lemma core_of_outside (d : record) (n0 a0 s0 k : string) :
  Stated.outside Stated.core_keys k = true ->
  Stated.core_of d n0 a0 s0 !! k = d !! k.
Proof.
  intros H. pose proof (parse_address_outside (Py.strip a0) k H) as Hp.
  outside_keys H. unfold Stated.core_of, Val.update.
  destruct (negb (String.eqb (Py.strip s0) ""));
    rewrite ?lookup_insert_ne by done;
    (destruct (negb (String.eqb (Py.strip a0) ""));
     [rewrite lookup_union_r by done|]); by rewrite lookup_insert_ne.
Qed.

Lemma core_of_name (d : record) (n0 a0 s0 : string) :
  Stated.core_of d n0 a0 s0 !! "business_name" = Some (VStr (Stated.name_after n0)).
Proof.
  unfold Stated.core_of, Val.update.
  destruct (negb (String.eqb (Py.strip s0) ""));
    rewrite ?lookup_insert_ne by done;
    (destruct (negb (String.eqb (Py.strip a0) ""));
     [rewrite lookup_union_r by (apply parse_address_name; auto)|]);
    by rewrite lookup_insert_eq.
Qed.

Lemma core_of_description (d : record) (n0 a0 s0 : string) :
  Stated.core_of d n0 a0 s0 !! "business_description"
  = Stated.description_after (d !! "business_description") s0.
Proof.
  unfold Stated.core_of, Stated.description_after, Val.update.
  destruct (String.eqb (Py.strip s0) ""); cbn [negb].
  - destruct (negb (String.eqb (Py.strip a0) ""));
      [rewrite lookup_union_r by (apply parse_address_name; auto)|];
      by rewrite lookup_insert_ne.
  - by rewrite lookup_insert_eq.
Qed.

Lemma core_of_address (d : record) (n0 a0 s0 : string) :
  Stated.core_of d n0 a0 s0 !! "address" = d !! "address".
Proof.
  unfold Stated.core_of, Val.update.
  destruct (negb (String.eqb (Py.strip s0) ""));
    rewrite ?lookup_insert_ne by done;
    (destruct (negb (String.eqb (Py.strip a0) ""));
     [rewrite lookup_union_r by (apply parse_address_name; auto)|]);
    by rewrite lookup_insert_ne.
Qed.

(** ** The contact step *)

Lemma found_str (s : string) :
  found (VStr s) = negb (String.eqb s "") && negb (String.eqb s "NOT_FOUND").
Proof. reflexivity. Qed.

Lemma found_guard (v : pyval) :
  found v = true -> negb (Val.truthy v) || Val.eq_str v "NOT_FOUND" = false.
Proof.
  unfold found, Val.ne_str. intros [-> Hn]%andb_prop.
  apply negb_true_iff in Hn. by rewrite Hn.
Qed.

(** A string that a pattern accepts, when the pattern accepts neither
    the empty string nor the sentinel, is a found value. *)
Lemma matched_is_found (r : Re.regex) (s : string) :
  Re.matches r "" = false -> Re.matches r "NOT_FOUND" = false ->
  Re.matches r s = true -> found (VStr s) = true.
Proof.
  intros He Hs Hm. rewrite found_str.
  destruct (String.eqb s "") eqn:E1; [apply String.eqb_eq in E1; congruence|].
  destruct (String.eqb s "NOT_FOUND") eqn:E2; [apply String.eqb_eq in E2; congruence|].
  done.
Qed.

Lemma validate_phone_sound : Stated.sound_check _validate_phone.
Proof.
  intros v Hv. unfold _validate_phone. rewrite (found_guard v Hv).
  destruct v as [| | |s]; try (simpl; congruence).
  cbn [digits_of bind].
  assert (Hfmt : ∀ f, (∃ s0, VStr s = VStr s0)
            ∧ ∃ s', (if Re.matches phone_pattern f then VStr f else VStr s) = VStr s'
                    ∧ found (if Re.matches phone_pattern f then VStr f else VStr s) = true).
  { intros f. split; [by eexists|].
    destruct (Re.matches phone_pattern f) eqn:Hm; [|by eexists].
    eexists; split; [done|]. by apply (matched_is_found phone_pattern). }
  destruct (_ =? 10)%nat; [apply Hfmt|].
  destruct (_ && _); [apply Hfmt|].
  split; by eexists.
Qed.

Lemma validate_email_sound : Stated.sound_check _validate_email.
Proof.
  intros v Hv. unfold _validate_email. rewrite (found_guard v Hv).
  destruct v as [| | |s]; try (simpl; congruence).
  cbn [Val.as_str bind]. split; [by eexists|].
  destruct (Re.matches email_pattern _) eqn:Hm; [|by eexists].
  eexists; split; [done|]. by apply (matched_is_found email_pattern).
Qed.

Lemma validate_website_sound : Stated.sound_check _validate_website.
Proof.
  intros v Hv. unfold _validate_website. rewrite (found_guard v Hv).
  destruct v as [| | |s]; try (simpl; congruence).
  cbn [Val.as_str bind]. split; [by eexists|].
  destruct (Re.matches url_pattern _) eqn:Hm; [|by eexists].
  eexists; split; [done|]. by apply (matched_is_found url_pattern).
Qed.

Lemma contact_checks_sound :
  Forall (fun fc => Stated.sound_check fc.2) Stated.contact_checks.
Proof.
  repeat constructor; simpl;
    auto using validate_phone_sound, validate_email_sound, validate_website_sound.
Qed.

Lemma contact_is_fields (d : record) :
  _validate_contact_info d = Stated.validate_fields Stated.contact_checks d.
Proof.
  unfold _validate_contact_info, Stated.contact_checks, email_fields.
  cbn [Stated.validate_fields validate_emails].
  repeat (destruct (validate_field _ _ _); cbn [bind]; [|done]). done.
Qed.


Lemma get_lookup (d d' : record) (k : string) :
  d' !! k = d !! k -> Val.get d' k = Val.get d k.
Proof. unfold Val.get. by intros ->. Qed.

Lemma found_get_or (d : record) (k : string) :
  found (Val.get_or d k (VStr "")) = found (Val.get d k).
Proof. unfold Val.get_or, Val.get. by destruct (d !! k). Qed.

Lemma found_get_or_value (d : record) (k : string) :
  found (Val.get d k) = true -> Val.get_or d k (VStr "") = Val.get d k.
Proof. unfold Val.get_or, Val.get. by destruct (d !! k). Qed.

Lemma get_some (d : record) (k : string) (v : pyval) :
  d !! k = Some v -> Val.get d k = v.
Proof. unfold Val.get. by intros ->. Qed.

Lemma found_get (d : record) (k : string) :
  found (Val.get d k) = true -> d !! k = Some (Val.get d k).
Proof. unfold Val.get. by destruct (d !! k). Qed.

(** One contact field: the other keys are kept, the flag of the field
    is kept, and a found field ends as a string. *)
Lemma validate_field_step (check : pyval -> result pyval) (f : string) (d : record) :
  Stated.sound_check check ->
  match validate_field check f d with
  | Ok d' =>
      (∀ k, k ≠ f -> d' !! k = d !! k)
      ∧ Stated.found_at d' f = Stated.found_at d f
      ∧ Stated.str_if_found d' f
  | Raise _ => Stated.found_at d f = true ∧ ∀ s, Val.get d f ≠ VStr s
  end.
Proof.
  intros Hsound. unfold validate_field, Stated.found_at, Stated.str_if_found.
  rewrite found_get_or.
  destruct (found (Val.get d f)) eqn:Hf.
  - rewrite (found_get_or_value d f Hf).
    specialize (Hsound _ Hf). destruct (check (Val.get d f)) as [v'|e]; cbn [bind].
    + destruct Hsound as [_ (s' & -> & Hs')]. split_and!.
      * intros k Hk. by rewrite lookup_insert_ne.
      * by rewrite (get_some _ _ (VStr s')) by apply lookup_insert_eq.
      * intros _. exists s'. apply lookup_insert_eq.
    + done.
  - split_and!; [done|done|]. by rewrite Hf.
Qed.

Lemma str_if_found_lookup (d d' : record) (k : string) :
  d' !! k = d !! k -> Stated.str_if_found d k -> Stated.str_if_found d' k.
Proof.
  unfold Stated.str_if_found. intros Hk H. rewrite (get_lookup _ _ _ Hk), Hk. exact H.
Qed.

Lemma found_at_lookup (d d' : record) (k : string) :
  d' !! k = d !! k -> Stated.found_at d' k = Stated.found_at d k.
Proof. unfold Stated.found_at. by intros ->%get_lookup. Qed.

Lemma outside_cons (f : string) (keys : list string) (k : string) :
  Stated.outside (f :: keys) k = true ↔ f ≠ k ∧ Stated.outside keys k = true.
Proof.
  unfold Stated.outside. cbn [forallb].
  rewrite andb_true_iff, negb_true_iff, String.eqb_neq. done.
Qed.

Lemma validate_fields_ok (checks : list (string * (pyval -> result pyval)))
    (d d2 : record) :
  Forall (fun fc => Stated.sound_check fc.2) checks ->
  Stated.validate_fields checks d = Ok d2 ->
  (∀ k, Stated.outside checks.*1 k = true -> d2 !! k = d !! k)
  ∧ (∀ k, Stated.found_at d2 k = Stated.found_at d k)
  ∧ (∀ k, k ∈ checks.*1 ∨ Stated.str_if_found d k -> Stated.str_if_found d2 k).
Proof.
  revert d. induction checks as [|[f check] rest IH]; intros d Hsound.
  - simpl. intros [= <-]. split_and!; [done|done|].
    intros k [Hk|Hk]; [by apply elem_of_nil in Hk|done].
  - apply Forall_cons in Hsound as [Hcheck Hrest]. cbn [Stated.validate_fields].
    pose proof (validate_field_step check f d Hcheck) as Hstep.
    destruct (validate_field check f d) as [d1|e]; [|done]. cbn [bind].
    destruct Hstep as (Hother & Hflag & Hstr).
    intros Hrun. destruct (IH d1 Hrest Hrun) as (IHo & IHf & IHs).
    rewrite fmap_cons. cbn [fst]. split_and!.
    + intros k [Hk Hout]%outside_cons. rewrite IHo by done. by apply Hother.
    + intros k. rewrite IHf. destruct (decide (k = f)) as [->|Hk]; [done|].
      apply found_at_lookup. by apply Hother.
    + intros k Hk. apply IHs.
      destruct Hk as [[->|Hk]%elem_of_cons|Hk]; [by right|by left|].
      right. destruct (decide (k = f)) as [->|Hne]; [done|].
      eapply str_if_found_lookup; [|exact Hk]. by apply Hother.
Qed.

Lemma validate_fields_total (checks : list (string * (pyval -> result pyval)))
    (d : record) :
  Forall (fun fc => Stated.sound_check fc.2) checks ->
  (∀ k, k ∈ checks.*1 -> Stated.str_if_found d k) ->
  ∃ d2, Stated.validate_fields checks d = Ok d2.
Proof.
  revert d. induction checks as [|[f check] rest IH]; intros d Hsound Hstr.
  - by eexists.
  - apply Forall_cons in Hsound as [Hcheck Hrest]. cbn [Stated.validate_fields].
    pose proof (validate_field_step check f d Hcheck) as Hstep.
    destruct (validate_field check f d) as [d1|e]; cbn [bind].
    + destruct Hstep as (Hother & Hflag & Hf). apply IH; [done|].
      intros k Hk. destruct (decide (k = f)) as [->|Hne]; [done|].
      eapply str_if_found_lookup; [by apply Hother|].
      apply Hstr. rewrite fmap_cons. by right.
    + exfalso. destruct Hstep as [Hfound Hno].
      destruct (Hstr f) as [s Hs]; [rewrite fmap_cons; by left|done|].
      apply (Hno s). by apply get_some.
Qed.

Lemma validate_field_agree (check : pyval -> result pyval) (f : string)
    (keys : list string) (d d' : record) :
  f ∈ keys -> Stated.agree keys d d' ->
  match validate_field check f d, validate_field check f d' with
  | Ok d1, Ok d1' => Stated.agree keys d1 d1'
  | Raise e, Raise e' => e = e'
  | _, _ => False
  end.
Proof.
  intros Hf Hag. unfold validate_field, Val.get_or. rewrite (Hag f Hf).
  destruct (found _); [|done].
  destruct (check _) as [v|e]; cbn [bind]; [|done].
  intros k Hk. destruct (decide (f = k)) as [->|Hne].
  - by rewrite !lookup_insert_eq.
  - rewrite !lookup_insert_ne by done. by apply Hag.
Qed.

Lemma validate_fields_raise (checks : list (string * (pyval -> result pyval)))
    (keys : list string) (d d' : record) (e : exn) :
  (∀ k, k ∈ checks.*1 -> k ∈ keys) -> Stated.agree keys d d' ->
  Stated.validate_fields checks d = Raise e ->
  Stated.validate_fields checks d' = Raise e.
Proof.
  revert d d'. induction checks as [|[f check] rest IH]; intros d d' Hsub Hag; [done|].
  cbn [Stated.validate_fields].
  pose proof (validate_field_agree check f keys d d') as Hstep.
  destruct (validate_field check f d) as [d1|e1],
           (validate_field check f d') as [d1'|e1']; cbn [bind].
  - apply IH.
    + intros k Hk. apply Hsub. rewrite fmap_cons. by right.
    + apply Hstep; [|done]. apply Hsub. rewrite fmap_cons. by left.
  - exfalso. apply Hstep; [|done]. apply Hsub. rewrite fmap_cons. by left.
  - exfalso. apply Hstep; [|done]. apply Hsub. rewrite fmap_cons. by left.
  - intros [= <-]. f_equal. symmetry. apply Hstep; [|done].
    apply Hsub. rewrite fmap_cons. by left.
Qed.

Lemma contact_keys_checks : Stated.contact_checks.*1 = Stated.contact_keys.
Proof. reflexivity. Qed.

(** The contact step, when it returns. *)
Lemma contact_ok (d d2 : record) :
  _validate_contact_info d = Ok d2 ->
  (∀ k, Stated.outside Stated.contact_keys k = true -> d2 !! k = d !! k)
  ∧ (∀ k, Stated.found_at d2 k = Stated.found_at d k)
  ∧ (∀ k, k ∈ Stated.contact_keys -> Stated.str_if_found d2 k).
Proof.
  rewrite contact_is_fields. intros Hrun.
  destruct (validate_fields_ok _ _ _ contact_checks_sound Hrun) as (Ho & Hf & Hs).
  rewrite contact_keys_checks in *. split_and!; [done|done|].
  intros k Hk. apply Hs. by left.
Qed.

Lemma contact_total (d : record) :
  (∀ k, k ∈ Stated.contact_keys -> Stated.str_if_found d k) ->
  ∃ d2, _validate_contact_info d = Ok d2.
Proof.
  intros H. rewrite contact_is_fields.
  apply validate_fields_total; [apply contact_checks_sound|].
  by rewrite contact_keys_checks.
Qed.

Lemma contact_raise_stable (d d' : record) (e : exn) :
  Stated.agree Stated.contact_keys d d' ->
  _validate_contact_info d = Raise e -> _validate_contact_info d' = Raise e.
Proof.
  rewrite !contact_is_fields. intros Hag.
  apply (validate_fields_raise _ Stated.contact_keys); [|done].
  by rewrite contact_keys_checks.
Qed.

End RunSteps.

Section RepeatedRun.
Import DataValidator.

Lemma scores_outside (d : record) (k : string) :
  Stated.outside Stated.score_keys k = true ->
  _calculate_quality_scores d !! k = d !! k.
Proof.
  intros H. outside_keys H. unfold _calculate_quality_scores.
  by rewrite !lookup_insert_ne.
Qed.

Lemma scores_lookup (d : record) :
  _calculate_quality_scores d !! "data_quality_score"
  = Some (VInt (_calculate_overall_quality_score d))
  ∧ _calculate_quality_scores d !! "confidence_score"
    = Some (VInt (_calculate_confidence_score d))
  ∧ _calculate_quality_scores d !! "lead_score"
    = Some (VInt (_calculate_lead_score d)).
Proof. unfold _calculate_quality_scores. split_and!; by simplify_map_eq. Qed.

Lemma finish_run (now : string) (d2 : record) :
  Stated.finished d2
    (match _add_validation_metadata now (_calculate_quality_scores d2) with
     | Ok r => r
     | Raise _ => _calculate_quality_scores d2
     end).
Proof.
  destruct (scores_lookup d2) as (Hq & Hc & Hl).
  unfold _add_validation_metadata, Val.get_or.
  rewrite lookup_insert_ne by done. rewrite Hq. cbn [default id as_number bind].
  unfold Stated.finished. split_and!.
  - by rewrite !lookup_insert_ne.
  - by rewrite !lookup_insert_ne.
  - by rewrite !lookup_insert_ne.
  - intros k H. rewrite <- (scores_outside d2 k H). outside_keys H.
    by rewrite !lookup_insert_ne.
Qed.

(** The three ways a run ends. *)
Lemma run_cases (now : string) (business c : record) :
  c = EnhancedCRMApp.classify_business business ->
  (∃ e, _validate_core_fields c = Raise e
        ∧ EnhancedCRMApp.classify_and_validate now business = c)
  ∨ (∃ d1 e, _validate_core_fields c = Ok d1
             ∧ _validate_contact_info d1 = Raise e
             ∧ EnhancedCRMApp.classify_and_validate now business = d1)
  ∨ (∃ d1 d2, _validate_core_fields c = Ok d1
              ∧ _validate_contact_info d1 = Ok d2
              ∧ Stated.finished d2 (EnhancedCRMApp.classify_and_validate now business)).
Proof.
  intros Hc. unfold EnhancedCRMApp.classify_and_validate, validate_and_enhance.
  rewrite <- Hc. clear Hc.
  destruct (_validate_core_fields c) as [d1|e];
    [|left; exists e; split; reflexivity].
  destruct (_validate_contact_info d1) as [d2|e] eqn:Hcontact;
    [|right; left; by exists d1, e].
  right; right. exists d1, d2. split_and!; [done|done|]. apply finish_run.
Qed.

Lemma guard_flag (v : pyval) (s : string) :
  negb (Val.truthy v) || Val.eq_str v s = negb (Val.truthy v && Val.ne_str v s).
Proof. unfold Val.ne_str. by destruct (Val.truthy v), (Val.eq_str v s). Qed.

(** The three scores read the record through its flags only. *)
Lemma scores_same_flags (d d' : record) :
  Stated.same_flags d d' ->
  _calculate_overall_quality_score d = _calculate_overall_quality_score d'
  ∧ _calculate_confidence_score d = _calculate_confidence_score d'
  ∧ _calculate_lead_score d = _calculate_lead_score d'.
Proof.
  intros (Hn & Hd & Hi & Hc & Hs & Hf).
  pose proof (Hf "phone_number" ltac:(in_list)) as Hphone.
  pose proof (Hf "address" ltac:(in_list)) as Haddr.
  pose proof (Hf "website" ltac:(in_list)) as Hweb.
  pose proof (Hf "ceo_name" ltac:(in_list)) as Hceo.
  pose proof (Hf "ceo_email" ltac:(in_list)) as Hmail.
  pose proof (Hf "general_email" ltac:(in_list)) as Hgen.
  unfold Stated.name_flag, Stated.industry_flag, Stated.service_flag,
    Stated.found_at in *.
  unfold _calculate_overall_quality_score, _calculate_confidence_score,
    _calculate_lead_score.
  rewrite !guard_flag. fold (found (Val.get d "phone_number"))
    (found (Val.get d "address")) (found (Val.get d "website"))
    (found (Val.get d' "phone_number")) (found (Val.get d' "address"))
    (found (Val.get d' "website")).
  by rewrite Hn, Hd, Hi, Hc, Hs, Hphone, Haddr, Hweb, Hceo, Hmail, Hgen.
Qed.

Lemma name_flag_str (d : record) (n : string) :
  d !! "business_name" = Some (VStr n) -> Stated.name_flag d = Stated.string_flag n.
Proof. intros H. unfold Stated.name_flag. by rewrite (get_some _ _ _ H). Qed.

Lemma strip_nonempty (s : string) : Py.strip s ≠ "" -> s ≠ "".
Proof. by intros H ->. Qed.

Lemma description_after_truthy (v : option pyval) (s : string) :
  default (VStr "") v = VStr s ->
  Val.truthy (default VNone (Stated.description_after v s))
  = Val.truthy (default VNone v).
Proof.
  intros Hv. unfold Stated.description_after.
  destruct (String.eqb (Py.strip s) "") eqn:E; [done|].
  apply String.eqb_neq in E. pose proof (clean_description_nonempty s E) as Hc.
  apply strip_nonempty in E. cbn [default id Val.truthy].
  apply String.eqb_neq in Hc as ->. destruct v as [v|]; cbn [default id] in *.
  - subst v. cbn [Val.truthy]. by apply String.eqb_neq in E as ->.
  - congruence.
Qed.

Lemma description_after_str (v : option pyval) (s : string) :
  default (VStr "") v = VStr s ->
  ∃ s', default (VStr "") (Stated.description_after v s) = VStr s'.
Proof.
  intros Hv. unfold Stated.description_after.
  destruct (String.eqb (Py.strip s) ""); by eexists.
Qed.

Lemma contact_key_outside (k : string) :
  k ∈ Stated.contact_keys ->
  Stated.outside Stated.classification_keys k = true
  ∧ Stated.outside Stated.core_keys k = true
  ∧ Stated.outside Stated.score_keys k = true.
Proof.
  unfold Stated.contact_keys. intros Hk.
  repeat (apply elem_of_cons in Hk as [->|Hk]; [by split_and!|]).
  by apply elem_of_nil in Hk.
Qed.

Lemma flag_key_outside (k : string) :
  k ∈ ["phone_number"; "address"; "website"; "ceo_name"; "ceo_email";
       "general_email"] ->
  Stated.outside Stated.classification_keys k = true
  ∧ Stated.outside Stated.core_keys k = true
  ∧ Stated.outside Stated.score_keys k = true.
Proof.
  intros Hk.
  repeat (apply elem_of_cons in Hk as [->|Hk]; [by split_and!|]).
  by apply elem_of_nil in Hk.
Qed.

Lemma truthy_lookup (d d' : record) (k : string) :
  d' !! k = d !! k -> Val.truthy (Val.get d' k) = Val.truthy (Val.get d k).
Proof. by intros ->%get_lookup. Qed.

(** C9, as amended. Classifying and validating an already classified
    and validated record again, whatever the two clocks show, stores the
    same data quality score, the same confidence score and the same lead
    score as the first run did. *)
Theorem repeated_run_keeps_scores (now1 now2 : string) (business : record) :
  let once := EnhancedCRMApp.classify_and_validate now1 business in
  let twice := EnhancedCRMApp.classify_and_validate now2 once in
  twice !! "data_quality_score" = once !! "data_quality_score"
  ∧ twice !! "confidence_score" = once !! "confidence_score"
  ∧ twice !! "lead_score" = once !! "lead_score".
Proof.
  intros once twice.
  assert (Hgoal : ∀ k, k ∈ ["data_quality_score"; "confidence_score"; "lead_score"] ->
                       twice !! k = once !! k);
    [|split_and!; apply Hgoal; in_list].
  assert (Hsk : ∀ k, k ∈ ["data_quality_score"; "confidence_score"; "lead_score"] ->
                     Stated.outside Stated.classification_keys k = true
                     ∧ Stated.outside Stated.core_keys k = true
                     ∧ Stated.outside Stated.contact_keys k = true).
  { intros k Hk.
    repeat (apply elem_of_cons in Hk as [->|Hk]; [by split_and!|]).
    by apply elem_of_nil in Hk. }
  assert (Hrun1 := run_cases now1 business _ eq_refl).
  assert (Hrun2 := run_cases now2 once _ eq_refl).
  assert (Hprimary1 := classify_business_primary business).
  assert (Hprimary2 := classify_business_primary once).
  assert (Hc2 := classify_business_outside once).
  fold once in Hrun1. fold twice in Hrun2.
  set (c1 := EnhancedCRMApp.classify_business business) in *.
  set (c2 := EnhancedCRMApp.classify_business once) in *.
  clearbody c2 twice. clearbody c1 once.
  destruct Hrun1
    as [(e & Hcore & Hr1)|[(d1 & e & Hcore & Hcontact & Hr1)
                          |(d1 & d2 & Hcore & Hcontact & Hfin)]].
  - (* the core step raised *)
    assert (Hcore2 : _validate_core_fields c2 = Raise e).
    { apply (core_raise_stable c1); [..|done]; rewrite Hc2 by done; by rewrite Hr1. }
    destruct Hrun2 as [(e' & _ & Hr2)|[(? & ? & Hx & _)|(? & ? & Hx & _)]];
      [|congruence|congruence].
    intros k Hk. destruct (Hsk k Hk) as (Hk1 & _ & _).
    rewrite Hr2. exact (Hc2 k Hk1).
  - (* the contact step raised *)
    destruct (core_ok _ _ Hcore) as (n0 & a0 & s0 & Hn & Ha & Hs & Hd1).
    assert (Hname : c2 !! "business_name" = Some (VStr (Stated.name_after n0))).
    { rewrite Hc2, Hr1, Hd1 by done. apply core_of_name. }
    assert (Haddr : c2 !! "address" = c1 !! "address").
    { rewrite Hc2, Hr1, Hd1 by done. apply core_of_address. }
    assert (Hdesc : c2 !! "business_description"
                    = Stated.description_after (c1 !! "business_description") s0).
    { rewrite Hc2, Hr1, Hd1 by done. apply core_of_description. }
    destruct (description_after_str (c1 !! "business_description") s0 Hs) as [s1 Hs1].
    assert (Hcore2 : _validate_core_fields c2
                     = Ok (Stated.core_of c2 (Stated.name_after n0) a0 s1)).
    { apply core_total; unfold Val.get_or.
      - by rewrite Hname.
      - by rewrite Haddr.
      - by rewrite Hdesc. }
    assert (Hcontact2 : _validate_contact_info
                          (Stated.core_of c2 (Stated.name_after n0) a0 s1) = Raise e).
    { apply (contact_raise_stable d1); [|done].
      intros k Hk. destruct (contact_key_outside k Hk) as (Hk1 & Hk2 & _).
      rewrite (core_of_outside _ _ _ _ k Hk2), (Hc2 k Hk1). by rewrite Hr1. }
    destruct Hrun2
      as [(? & Hx & _)|[(d1' & e' & Hx & _ & Hr2)|(? & ? & Hx & Hy & _)]];
      [congruence| |congruence].
    rewrite Hcore2 in Hx. injection Hx as <-.
    intros k Hk. destruct (Hsk k Hk) as (Hk1 & Hk2 & _).
    rewrite Hr2, (core_of_outside _ _ _ _ k Hk2). exact (Hc2 k Hk1).
  - (* the first run went through *)
    destruct (core_ok _ _ Hcore) as (n0 & a0 & s0 & Hn & Ha & Hs & Hd1).
    destruct (contact_ok _ _ Hcontact) as (Hout & Hfound & Hstr).
    destruct Hfin as (Hq1 & Hc1 & Hl1 & Hkeep).
    assert (Hchain : ∀ k, Stated.outside Stated.classification_keys k = true ->
                          Stated.outside Stated.score_keys k = true ->
                          c2 !! k = d2 !! k).
    { intros k Hk1 Hk2. rewrite (Hc2 k Hk1). exact (Hkeep k Hk2). }
    assert (Hname : c2 !! "business_name" = Some (VStr (Stated.name_after n0))).
    { rewrite Hchain, Hout, Hd1 by done. apply core_of_name. }
    assert (Haddr : c2 !! "address" = c1 !! "address").
    { rewrite Hchain, Hout, Hd1 by done. apply core_of_address. }
    assert (Hdesc2 : d2 !! "business_description"
                     = Stated.description_after (c1 !! "business_description") s0).
    { rewrite Hout, Hd1 by done. apply core_of_description. }
    assert (Hdesc : c2 !! "business_description" = d2 !! "business_description").
    { by rewrite Hchain. }
    destruct (description_after_str (c1 !! "business_description") s0 Hs) as [s1 Hs1].
    rewrite <- Hdesc2, <- Hdesc in Hs1.
    set (d1' := Stated.core_of c2 (Stated.name_after n0) a0 s1).
    assert (Hcore2 : _validate_core_fields c2 = Ok d1').
    { apply core_total; unfold Val.get_or.
      - by rewrite Hname.
      - by rewrite Haddr.
      - done. }
    assert (Hd1' : ∀ k, Stated.outside Stated.classification_keys k = true ->
                        Stated.outside Stated.core_keys k = true ->
                        Stated.outside Stated.score_keys k = true ->
                        d1' !! k = d2 !! k).
    { intros k Hk1 Hk2 Hk3. unfold d1'.
      rewrite (core_of_outside _ _ _ _ k Hk2). exact (Hchain k Hk1 Hk3). }
    destruct (contact_total d1') as [d2' Hcontact2].
    { intros k Hk. destruct (contact_key_outside k Hk) as (Hk1 & Hk2 & Hk3).
      exact (str_if_found_lookup _ _ k (Hd1' k Hk1 Hk2 Hk3) (Hstr k Hk)). }
    destruct (contact_ok _ _ Hcontact2) as (Hout' & Hfound' & _).
    destruct Hrun2
      as [(? & Hx & _)|[(? & ? & Hx & Hy & _)|(x1 & x2 & Hx & Hy & Hfin2)]];
      [congruence|rewrite Hcore2 in Hx; injection Hx as <-; congruence|].
    rewrite Hcore2 in Hx. injection Hx as <-.
    rewrite Hcontact2 in Hy. injection Hy as <-.
    destruct Hfin2 as (Hq2 & Hc2' & Hl2 & _).
    assert (Hflags : Stated.same_flags d2' d2).
    { unfold Stated.same_flags. split_and!.
      - rewrite (name_flag_str d2' (Stated.name_after (Stated.name_after n0))),
          (name_flag_str d2 (Stated.name_after n0)).
        + apply name_after_flag.
        + rewrite Hout, Hd1 by done. apply core_of_name.
        + rewrite Hout' by done. apply core_of_name.
      - unfold Val.get. rewrite Hout' by done. unfold d1'.
        rewrite core_of_description, Hdesc.
        apply description_after_truthy. by rewrite <- Hdesc.
      - destruct Hprimary1 as (p & Hp & Hne).
        destruct Hprimary2 as (p' & Hp' & Hne').
        unfold Stated.industry_flag.
        rewrite (get_some d2' "industry_primary" (VStr p')),
          (get_some d2 "industry_primary" (VStr p)).
        + simpl. apply String.eqb_neq in Hne as ->.
          apply String.eqb_neq in Hne' as ->. by rewrite !orb_true_r.
        + rewrite Hout, Hd1 by done. by rewrite core_of_outside.
        + rewrite Hout' by done. unfold d1'. by rewrite core_of_outside.
      - apply truthy_lookup. rewrite Hout' by done. by apply Hd1'.
      - unfold Stated.service_flag. f_equal; apply truthy_lookup;
          (rewrite Hout' by done; by apply Hd1').
      - intros k Hk. destruct (flag_key_outside k Hk) as (Hk1 & Hk2 & Hk3).
        rewrite Hfound'. apply found_at_lookup. exact (Hd1' k Hk1 Hk2 Hk3). }
    destruct (scores_same_flags _ _ Hflags) as (Eq & Ec & El).
    intros k Hk.
    repeat (apply elem_of_cons in Hk as [->|Hk]); [..|by apply elem_of_nil in Hk].
    + by rewrite Hq1, Hq2, Eq.
    + by rewrite Hc1, Hc2', Ec.
    + by rewrite Hl1, Hl2, El.
Qed.

(** C9, as stated, fails. The second run counts the fields that the
    first run added, so the completeness score of a record with a name
    only goes from 12 to 24; and the first run collapses the blanks of a
    name, so that a pattern may match in the second run only and the code
    goes from UNKNOWN to 517311. *)
Lemma repeated_run_changes_completeness_and_code :
  let run1 := EnhancedCRMApp.classify_and_validate "2024-01-01 09:00:00" in
  let run2 := EnhancedCRMApp.classify_and_validate "2024-01-01 09:05:00" in
  run1 (Sample.named "Acme") !! "completeness_score" = Some (VInt 12)
  ∧ run2 (run1 (Sample.named "Acme")) !! "completeness_score" = Some (VInt 24)
  ∧ run1 (Sample.named "internet  service") !! "naics_code" = Some (VStr "UNKNOWN")
  ∧ run2 (run1 (Sample.named "internet  service")) !! "naics_code"
    = Some (VStr "517311").
Proof. vm_compute. repeat split. Qed.

End RepeatedRun.

(* ===================================================================== *)
(** * Standard forms of phone numbers, e-mail addresses and URLs           *)
(* ===================================================================== *)

Section StandardForms.
Import DataValidator.

Lemma str_filter_app (p : ascii -> bool) (s t : string) :
  Py.filter p (s +:+ t) = Py.filter p s +:+ Py.filter p t.
Proof.
  induction s as [|c s IH]; [done|]. rewrite app_cons. cbn [Py.filter].
  destruct (p c); by rewrite ?app_cons, IH.
Qed.

Lemma str_forallb_filter (p : ascii -> bool) (s : string) :
  Urllib.forallb p (Py.filter p s) = true.
Proof.
  induction s as [|c s IH]; [done|]. simpl.
  destruct (p c) eqn:Hc; [|done]. simpl. by rewrite Hc.
Qed.

Lemma str_filter_forallb (p : ascii -> bool) (s : string) :
  Urllib.forallb p s = true -> Py.filter p s = s.
Proof.
  induction s as [|c s IH]; [done|]. simpl.
  intros [-> Hs]%andb_true_iff. by rewrite IH.
Qed.

Lemma str_forallb_drop (p : ascii -> bool) (n : nat) (s : string) :
  Urllib.forallb p s = true -> Urllib.forallb p (Py.drop n s) = true.
Proof.
  revert s. induction n as [|n IH]; intros s; [done|].
  destruct s as [|c s]; [done|]. simpl. intros [_ Hs]%andb_true_iff. by apply IH.
Qed.

Lemma str_forallb_weaken (p q : ascii -> bool) (s : string) :
  (∀ c, p c = true -> q c = true) ->
  Urllib.forallb p s = true -> Urllib.forallb q s = true.
Proof.
  intros Hpq. induction s as [|c s IH]; [done|]. simpl.
  intros [Hc Hs]%andb_true_iff. by rewrite (Hpq c Hc), IH.
Qed.

Lemma str_take_drop (n : nat) (s : string) : Py.take n s +:+ Py.drop n s = s.
Proof.
  revert s. induction n as [|n IH]; intros s; [done|].
  destruct s as [|c s]; [done|]. cbn [Py.take Py.drop].
  by rewrite app_cons, IH.
Qed.

Lemma str_forallb_app (p : ascii -> bool) (s t : string) :
  Urllib.forallb p (s +:+ t) = Urllib.forallb p s && Urllib.forallb p t.
Proof.
  induction s as [|c s IH]; [done|]. rewrite app_cons. cbn [Urllib.forallb].
  by rewrite IH, andb_assoc.
Qed.

Lemma str_forallb_take (p : ascii -> bool) (n : nat) (s : string) :
  Urllib.forallb p s = true -> Urllib.forallb p (Py.take n s) = true.
Proof.
  intros Hs. rewrite <- (str_take_drop n s), str_forallb_app in Hs.
  by apply andb_true_iff in Hs as [? _].
Qed.

Lemma str_drop_drop (n m : nat) (s : string) :
  Py.drop n (Py.drop m s) = Py.drop (m + n) s.
Proof.
  revert s. induction m as [|m IH]; intros s; [done|].
  destruct s as [|c s]; [by destruct n|]. simpl. apply IH.
Qed.

Lemma str_app_assoc (s t u : string) : (s +:+ t) +:+ u = s +:+ (t +:+ u).
Proof. induction s as [|c s IH]; [done|]. by rewrite !app_cons, IH. Qed.

(** The digits of a formatted number are the digits it was made of. *)
Lemma digits_of_format (d : string) :
  Urllib.forallb Py.isdigit d = true ->
  Py.filter Py.isdigit (format_phone d) = d.
Proof.
  intros Hd. unfold format_phone, Py.slice. rewrite !str_filter_app.
  change (Py.filter Py.isdigit "(") with "".
  change (Py.filter Py.isdigit ") ") with "".
  change (Py.filter Py.isdigit "-") with "".
  rewrite !app_empty_l, !str_filter_forallb
    by (try apply str_forallb_take; try apply str_forallb_drop; done).
  change (6 - 3)%nat with 3%nat.
  replace (Py.drop 6 d) with (Py.drop 3 (Py.drop 3 d)) by by rewrite str_drop_drop.
  by rewrite !str_take_drop.
Qed.

Lemma str_length_drop (n : nat) (s : string) :
  String.length (Py.drop n s) = (String.length s - n)%nat.
Proof.
  revert s. induction n as [|n IH]; intros s; [simpl; lia|].
  destruct s as [|c s]; [done|]. simpl. apply IH.
Qed.

Lemma formatted_is_found (d : string) :
  negb (Val.truthy (VStr (format_phone d)))
  || Val.eq_str (VStr (format_phone d)) "NOT_FOUND" = false.
Proof. done. Qed.

Lemma validate_phone_fixed (phone v : pyval) :
  _validate_phone phone = Ok v -> _validate_phone v = Ok v.
Proof.
  intros H. unfold _validate_phone in H.
  destruct (negb (Val.truthy phone) || Val.eq_str phone "NOT_FOUND") eqn:Hnf.
  { by injection H as <-. }
  destruct phone as [| | |p]; try discriminate H.
  cbn [digits_of bind] in H.
  assert (Hd : Urllib.forallb Py.isdigit (Py.filter Py.isdigit p) = true)
    by apply str_forallb_filter.
  assert (Hsame : ∀ d, Urllib.forallb Py.isdigit d = true ->
                       String.length d = 10%nat ->
                       Re.matches phone_pattern (format_phone d) = true ->
                       _validate_phone (VStr (format_phone d))
                       = Ok (VStr (format_phone d))).
  { intros d Hall Hlen Hm. unfold _validate_phone.
    rewrite formatted_is_found. cbn [digits_of bind].
    rewrite (digits_of_format d Hall), Hlen. cbn [Nat.eqb]. by rewrite Hm. }
  destruct (String.length (Py.filter Py.isdigit p) =? 10)%nat eqn:H10.
  - apply Nat.eqb_eq in H10.
    destruct (Re.matches phone_pattern _) eqn:Hm; injection H as <-.
    + by apply Hsame.
    + unfold _validate_phone. rewrite Hnf. cbn [digits_of bind].
      by rewrite H10, Hm.
  - destruct (_ && _) eqn:H11.
    + apply andb_true_iff in H11 as [H11 _]. apply Nat.eqb_eq in H11.
      destruct (Re.matches phone_pattern _) eqn:Hm; injection H as <-.
      * apply (Hsame (Py.drop 1 (Py.filter Py.isdigit p)));
          [by apply str_forallb_drop|by rewrite str_length_drop, H11|done].
      * unfold _validate_phone. rewrite Hnf. cbn [digits_of bind].
        rewrite H10, H11. cbn [Nat.eqb andb].
        destruct (String.prefix "1" _); by rewrite ?Hm.
    + injection H as <-. unfold _validate_phone. rewrite Hnf.
      cbn [digits_of bind]. by rewrite H10, H11.
Qed.

(** X1. A standardised phone number is a fixed point of the
    standardisation: validating the value that [_validate_phone] returned
    returns it again. *)
Theorem validate_phone_idempotent (phone v : pyval) :
  _validate_phone phone = Ok v -> _validate_phone v = Ok v.
Proof. apply validate_phone_fixed. Qed.

Lemma validate_phone_idempotent_witness :
  _validate_phone (VStr "919.555.0142") = Ok (VStr "(919) 555-0142")
  /\ _validate_phone (VStr "(919) 555-0142") = Ok (VStr "(919) 555-0142").
Proof.
  split; [by vm_compute|].
  apply (validate_phone_idempotent (VStr "919.555.0142")). by vm_compute.
Defined.

(** X2. A phone number with ten decimal digits, whatever stands between
    them, is written as [(XXX) XXX-XXXX]; so is a number with eleven
    digits whose first is 1, which is dropped. *)
Theorem validate_phone_ten_digits (phone : string)
    (c0 c1 c2 c3 c4 c5 c6 c7 c8 c9 : ascii) :
  let digits := string_of_list_ascii [c0; c1; c2; c3; c4; c5; c6; c7; c8; c9] in
  Forall (fun c => Py.isdecimal c = true) [c0; c1; c2; c3; c4; c5; c6; c7; c8; c9] ->
  Py.filter Py.isdigit phone = digits
  ∨ Py.filter Py.isdigit phone = String "1" digits ->
  _validate_phone (VStr phone)
  = Ok (VStr (string_of_list_ascii
                [ "("; c0; c1; c2; ")"; " "; c3; c4; c5; "-"; c6; c7; c8; c9 ]%char)).
Proof.
  intros digits Hall Hdigits.
  assert (Hf : format_phone digits
               = string_of_list_ascii
                   [ "("; c0; c1; c2; ")"; " "; c3; c4; c5; "-"; c6; c7; c8; c9 ]%char)
    by reflexivity.
  assert (Hm : Re.matches phone_pattern (format_phone digits) = true).
  { repeat (apply Forall_cons in Hall as [? Hall]). rewrite Hf.
    unfold Re.matches, Re.match_rest, phone_pattern.
    cbn -[Py.isdecimal].
    by repeat match goal with
              | H : Py.isdecimal _ = true |- _ => rewrite H; clear H
              end. }
  rewrite <- Hf.
  assert (Hnf : negb (Val.truthy (VStr phone)) || Val.eq_str (VStr phone) "NOT_FOUND"
                = false).
  { destruct (negb _ || _) eqn:E; [|done]. exfalso.
    apply orb_true_iff in E as [E|E].
    - apply negb_true_iff, negb_false_iff, String.eqb_eq in E. subst phone.
      by destruct Hdigits.
    - apply String.eqb_eq in E. subst phone. by destruct Hdigits. }
  unfold _validate_phone. rewrite Hnf. cbn [digits_of bind].
  destruct Hdigits as [-> | ->].
  - change (String.length digits =? 10)%nat with true. cbn iota. by rewrite Hm.
  - change (String.length (String "1" digits) =? 10)%nat with false.
    change (String.length (String "1" digits) =? 11)%nat with true.
    change (String.prefix "1" (String "1" digits)) with true.
    change (Py.drop 1 (String "1" digits)) with digits. cbn iota. cbn [andb].
    by rewrite Hm.
Qed.

Lemma validate_phone_ten_digits_witness :
  _validate_phone (VStr "+1 919-555-0142") = Ok (VStr "(919) 555-0142").
Proof.
  apply (validate_phone_ten_digits "+1 919-555-0142" "9" "1" "9" "5" "5" "5" "0" "1" "4" "2").
  - by repeat constructor.
  - by right.
Defined.

Lemma isspace_lower_char (c : ascii) : Py.isspace (Py.lower_char c) = Py.isspace c.
Proof. by destruct c as [[] [] [] [] [] [] [] []]. Qed.

Lemma lower_char_idem (c : ascii) : Py.lower_char (Py.lower_char c) = Py.lower_char c.
Proof. by destruct c as [[] [] [] [] [] [] [] []]. Qed.

Lemma lower_idem (s : string) : Py.lower (Py.lower s) = Py.lower s.
Proof.
  induction s as [|c s IH]; [done|]. cbn [Py.lower]. by rewrite lower_char_idem, IH.
Qed.

Lemma lstrip_lower (s : string) : Py.lstrip (Py.lower s) = Py.lower (Py.lstrip s).
Proof.
  induction s as [|c s IH]; [done|]. cbn [Py.lower Py.lstrip].
  rewrite isspace_lower_char. by destruct (Py.isspace c).
Qed.

Lemma rstrip_lower (s : string) : Py.rstrip (Py.lower s) = Py.lower (Py.rstrip s).
Proof.
  induction s as [|c s IH]; [done|]. cbn [Py.lower Py.rstrip]. rewrite IH.
  destruct (Py.rstrip s); cbn [Py.lower]; [|done].
  rewrite isspace_lower_char. by destruct (Py.isspace c).
Qed.

Lemma strip_lower (s : string) : Py.strip (Py.lower s) = Py.lower (Py.strip s).
Proof. unfold Py.strip. by rewrite lstrip_lower, rstrip_lower. Qed.

Lemma lstrip_head (s : string) :
  Py.lstrip s = "" ∨ ∃ c r, Py.lstrip s = String c r ∧ Py.isspace c = false.
Proof.
  induction s as [|c s IH]; [by left|]. cbn [Py.lstrip].
  destruct (Py.isspace c) eqn:Hc; [done|]. right. by exists c, s.
Qed.

Lemma rstrip_idem (s : string) : Py.rstrip (Py.rstrip s) = Py.rstrip s.
Proof.
  induction s as [|c s IH]; [done|]. cbn [Py.rstrip].
  destruct (Py.rstrip s) as [|c1 r] eqn:Hr.
  - destruct (Py.isspace c) eqn:Hc; [done|]. cbn [Py.rstrip]. by rewrite Hc.
  - cbn [Py.rstrip]. cbn [Py.rstrip] in IH. by rewrite IH.
Qed.

Lemma lstrip_rstrip (c : ascii) (s : string) :
  Py.isspace c = false ->
  Py.lstrip (Py.rstrip (String c s)) = Py.rstrip (String c s).
Proof.
  intros Hc. destruct (rstrip_head c s) as [-> | [r ->]]; [done|].
  cbn [Py.lstrip]. by rewrite Hc.
Qed.

Lemma strip_idem (s : string) : Py.strip (Py.strip s) = Py.strip s.
Proof.
  unfold Py.strip. destruct (lstrip_head s) as [-> | (c & r & -> & Hc)]; [done|].
  by rewrite lstrip_rstrip, rstrip_idem.
Qed.

Lemma validate_email_result (email v : pyval) :
  _validate_email email = Ok v ->
  (v = VStr "NOT_FOUND" ∨ v = VStr "INVALID_EMAIL"
   ∨ ∃ e, v = VStr e ∧ Re.matches email_pattern e = true
          ∧ Py.lower e = e ∧ Py.strip e = e)
  ∧ _validate_email v = Ok v.
Proof.
  intros H. unfold _validate_email in H.
  destruct (negb (Val.truthy email) || Val.eq_str email "NOT_FOUND") eqn:Hnf.
  { injection H as <-. split; [by left|done]. }
  destruct email as [| | |s]; try discriminate H. cbn [Val.as_str bind] in H.
  destruct (Re.matches email_pattern (Py.lower (Py.strip s))) eqn:Hm;
    injection H as <-.
  - assert (Hlower : Py.lower (Py.lower (Py.strip s)) = Py.lower (Py.strip s))
      by apply lower_idem.
    assert (Hstrip : Py.strip (Py.lower (Py.strip s)) = Py.lower (Py.strip s))
      by by rewrite strip_lower, strip_idem.
    split; [right; right; by eexists|].
    unfold _validate_email.
    destruct (negb (Val.truthy (VStr (Py.lower (Py.strip s)))) || _) eqn:Hnf'.
    + exfalso. apply orb_true_iff in Hnf' as [E|E].
      * apply negb_true_iff, negb_false_iff, String.eqb_eq in E.
        by rewrite E in Hm.
      * apply String.eqb_eq in E. by rewrite E in Hm.
    + cbn [Val.as_str bind]. by rewrite Hstrip, Hlower, Hm.
  - split; [by right; left|by vm_compute].
Qed.

(** X3. What [_validate_email] returns is the sentinel [NOT_FOUND], the
    mark [INVALID_EMAIL], or a trimmed lower-case address that matches
    the pattern; and validating it again returns it unchanged. *)
Theorem validate_email_idempotent (email v : pyval) :
  _validate_email email = Ok v ->
  (v = VStr "NOT_FOUND" ∨ v = VStr "INVALID_EMAIL"
   ∨ ∃ e, v = VStr e ∧ Re.matches email_pattern e = true
          ∧ Py.lower e = e ∧ Py.strip e = e)
  ∧ _validate_email v = Ok v.
Proof. apply validate_email_result. Qed.

Lemma validate_email_idempotent_witness :
  _validate_email (VStr " Jane.Doe@Example.COM ") = Ok (VStr "jane.doe@example.com")
  /\ _validate_email (VStr "jane.doe@example.com") = Ok (VStr "jane.doe@example.com").
Proof.
  split; [by vm_compute|].
  apply (validate_email_idempotent (VStr " Jane.Doe@Example.COM ")). by vm_compute.
Defined.

Lemma str_rstrip_app (a t : string) :
  t ≠ "" -> Py.rstrip t = t -> Py.rstrip (a +:+ t) = a +:+ t.
Proof.
  intros Hne Ht. induction a as [|c a IH]; [done|].
  rewrite app_cons. cbn [Py.rstrip]. rewrite IH.
  destruct (a +:+ t) eqn:E; [|done]. by destruct a.
Qed.

Lemma str_prefix_app (a t : string) : String.prefix a (a +:+ t) = true.
Proof.
  induction a as [|c a IH]; [by destruct t|]. rewrite app_cons.
  cbn [String.prefix]. by destruct (ascii_dec c c).
Qed.

Lemma with_scheme_head (u : string) :
  Py.startswith u "http://" || Py.startswith u "https://" = true ->
  ∃ r, u = String "h" r.
Proof.
  intros H. destruct u as [|c r]; [done|]. exists r. f_equal.
  unfold Py.startswith in H. cbn [String.prefix] in H.
  destruct (ascii_dec "h" c) as [<-|]; [done|]. by rewrite orb_false_r in H.
Qed.

Lemma validate_website_result (website v : pyval) :
  _validate_website website = Ok v ->
  (v = VStr "NOT_FOUND" ∨ v = VStr "INVALID_URL"
   ∨ ∃ u, v = VStr u
          ∧ Py.startswith u "http://" || Py.startswith u "https://" = true
          ∧ Re.matches url_pattern u = true)
  ∧ _validate_website v = Ok v.
Proof.
  intros H. unfold _validate_website in H.
  destruct (negb (Val.truthy website) || Val.eq_str website "NOT_FOUND") eqn:Hnf.
  { injection H as <-. split; [by left|done]. }
  clear Hnf. destruct website as [| | |s]; try discriminate H.
  cbn [Val.as_str bind] in H.
  set (t := Py.strip s) in *.
  set (u := if negb (Py.startswith t "http://" || Py.startswith t "https://")
            then "https://" +:+ t else t) in *.
  destruct (Re.matches url_pattern u) eqn:Hm; injection H as <-;
    [|split; [by right; left|by vm_compute]].
  assert (Hscheme : Py.startswith u "http://" || Py.startswith u "https://" = true).
  { subst u.
    destruct (Py.startswith t "http://" || Py.startswith t "https://") eqn:E;
      cbn [negb]; [exact E|].
    apply orb_true_iff. right. apply str_prefix_app. }
  split; [right; right; by eexists|].
  assert (Hstrip : Py.strip u = u).
  { destruct (with_scheme_head u Hscheme) as [r Hr].
    assert (Hl : Py.lstrip u = u) by by rewrite Hr.
    unfold Py.strip. rewrite Hl. subst u.
    destruct (negb _).
    - apply str_rstrip_app.
      + intros E. by rewrite E in Hm.
      + subst t. unfold Py.strip. apply rstrip_idem.
    - subst t. unfold Py.strip. apply rstrip_idem. }
  unfold _validate_website.
  destruct (with_scheme_head u Hscheme) as [r Hr].
  assert (Hnf : negb (Val.truthy (VStr u)) || Val.eq_str (VStr u) "NOT_FOUND" = false)
    by by rewrite Hr.
  rewrite Hnf. cbn [Val.as_str bind]. rewrite Hstrip, Hscheme. cbn [negb].
  by rewrite Hm.
Qed.

(** X4. What [_validate_website] returns is the sentinel [NOT_FOUND], the
    mark [INVALID_URL], or a URL with an [http] or [https] scheme that
    matches the pattern; and validating it again returns it unchanged. *)
Theorem validate_website_idempotent (website v : pyval) :
  _validate_website website = Ok v ->
  (v = VStr "NOT_FOUND" ∨ v = VStr "INVALID_URL"
   ∨ ∃ u, v = VStr u
          ∧ Py.startswith u "http://" || Py.startswith u "https://" = true
          ∧ Re.matches url_pattern u = true)
  ∧ _validate_website v = Ok v.
Proof. apply validate_website_result. Qed.

Lemma validate_website_idempotent_witness :
  _validate_website (VStr " www.example.com ") = Ok (VStr "https://www.example.com")
  /\ _validate_website (VStr "https://www.example.com")
     = Ok (VStr "https://www.example.com").
Proof.
  split; [by vm_compute|].
  apply (validate_website_idempotent (VStr " www.example.com ")). by vm_compute.
Defined.

(** A check that returns its own results unchanged. *)
Lemma contact_checks_fixed :
  Forall (fun fc : string * (pyval -> result pyval) =>
            ∀ v v', fc.2 v = Ok v' -> fc.2 v' = Ok v')
         Stated.contact_checks.
Proof.
  unfold Stated.contact_checks.
  repeat apply Forall_cons_2; try apply Forall_nil_2; cbn [snd]; intros v v' H.
  - by apply (validate_phone_fixed v).
  - by apply (validate_email_result v).
  - by apply (validate_email_result v).
  - by apply (validate_email_result v).
  - by apply (validate_email_result v).
  - by apply (validate_website_result v).
Qed.

Lemma validate_field_fixed (check : pyval -> result pyval) (f : string)
    (d d1 : record) :
  (∀ v v', check v = Ok v' -> check v' = Ok v') ->
  validate_field check f d = Ok d1 -> validate_field check f d1 = Ok d1.
Proof.
  intros Hfix. unfold validate_field.
  destruct (found (Val.get_or d f (VStr ""))) eqn:Hf.
  - destruct (check _) as [checked|] eqn:Hc; [|done]. cbn [bind].
    intros [= <-]. unfold Val.get_or. rewrite lookup_insert_eq.
    change (default (VStr "") (Some checked)) with checked.
    destruct (found checked); [|done].
    rewrite (Hfix _ _ Hc). cbn [bind]. by rewrite insert_insert_eq.
  - intros [= <-]. by rewrite Hf.
Qed.

Lemma validate_field_same_at (check : pyval -> result pyval) (f : string)
    (d1 d' : record) :
  d' !! f = d1 !! f ->
  validate_field check f d1 = Ok d1 -> validate_field check f d' = Ok d'.
Proof.
  intros Hsame. unfold validate_field, Val.get_or. rewrite Hsame.
  destruct (found _); [|done].
  destruct (check _) as [checked|]; [|done]. cbn [bind]. intros [= H].
  f_equal. apply insert_id. rewrite Hsame, <- H. apply lookup_insert_eq.
Qed.

Lemma outside_not_elem (keys : list string) (k : string) :
  k ∉ keys -> Stated.outside keys k = true.
Proof.
  induction keys as [|f keys IH]; [done|].
  intros [Hne Hk]%not_elem_of_cons. apply outside_cons. split; [done|by apply IH].
Qed.

Lemma validate_fields_fixed (checks : list (string * (pyval -> result pyval)))
    (d d2 : record) :
  NoDup checks.*1 ->
  Forall (fun fc => Stated.sound_check fc.2) checks ->
  Forall (fun fc : string * (pyval -> result pyval) =>
            ∀ v v', fc.2 v = Ok v' -> fc.2 v' = Ok v') checks ->
  Stated.validate_fields checks d = Ok d2 ->
  Stated.validate_fields checks d2 = Ok d2.
Proof.
  revert d. induction checks as [|[f check] rest IH]; intros d; [done|].
  rewrite fmap_cons. intros [Hf Hnd]%NoDup_cons [Hs Hsound]%Forall_cons
    [Hc Hfix]%Forall_cons. cbn [Stated.validate_fields fst snd] in *.
  destruct (validate_field check f d) as [d1|] eqn:H1; [|done]. cbn [bind].
  intros Hrest.
  destruct (validate_fields_ok rest d1 d2 Hsound Hrest) as (Hout & _ & _).
  rewrite (validate_field_same_at check f d1 d2).
  - cbn [bind]. by apply (IH d1).
  - apply Hout. by apply outside_not_elem.
  - by apply (validate_field_fixed check f d).
Qed.

(** X5. Validating the contact information of a record whose contact
    information was validated changes nothing. *)
Theorem validate_contact_info_idempotent (data validated : record) :
  _validate_contact_info data = Ok validated ->
  _validate_contact_info validated = Ok validated.
Proof.
  rewrite !contact_is_fields.
  apply validate_fields_fixed;
    [|apply contact_checks_sound|apply contact_checks_fixed].
  unfold Stated.contact_checks. cbn [fmap list_fmap fst].
  apply (bool_decide_unpack _). by vm_compute.
Qed.

Lemma validate_contact_info_idempotent_witness :
  let validated : record :=
    {[ "phone_number" := VStr "(919) 555-0142";
       "ceo_email" := VStr "jane@example.com" ]} in
  _validate_contact_info
    {[ "phone_number" := VStr "919.555.0142";
       "ceo_email" := VStr " Jane@Example.com" ]} = Ok validated
  /\ _validate_contact_info validated = Ok validated.
Proof.
  split; [vm_compute; exact eq_refl|].
  apply (validate_contact_info_idempotent
           {[ "phone_number" := VStr "919.555.0142";
              "ceo_email" := VStr " Jane@Example.com" ]}).
  vm_compute. exact eq_refl.
Defined.

End StandardForms.

(* ===================================================================== *)
(** * The record that validation returns                                   *)
(* ===================================================================== *)

Section ValidatedRecord.
Import DataValidator.

Lemma core_keeps (d d1 : record) :
  _validate_core_fields d = Ok d1 -> dom d ⊆ dom d1.
Proof.
  intros (n0 & a0 & s0 & _ & _ & _ & ->)%core_ok. unfold Stated.core_of, Val.update.
  destruct (negb (String.eqb (Py.strip a0) ""));
    destruct (negb (String.eqb (Py.strip s0) ""));
    rewrite ?dom_insert_L, ?dom_union_L, ?dom_insert_L; set_solver.
Qed.

Lemma validate_field_keeps (check : pyval -> result pyval) (f : string)
    (d d' : record) :
  validate_field check f d = Ok d' -> dom d ⊆ dom d'.
Proof.
  unfold validate_field. destruct (found _); [|by intros [= ->]].
  destruct (check _); [|done]. cbn [bind]. intros [= <-].
  rewrite dom_insert_L. set_solver.
Qed.

Lemma validate_fields_keeps (checks : list (string * (pyval -> result pyval)))
    (d d' : record) :
  Stated.validate_fields checks d = Ok d' -> dom d ⊆ dom d'.
Proof.
  revert d. induction checks as [|[f check] rest IH]; intros d.
  - by intros [= ->].
  - cbn [Stated.validate_fields].
    destruct (validate_field check f d) as [d1|] eqn:H1; [|done]. cbn [bind].
    intros H. etrans; [by eapply validate_field_keeps|by apply IH].
Qed.

Lemma scores_keep (d : record) : dom d ⊆ dom (_calculate_quality_scores d).
Proof. unfold _calculate_quality_scores. rewrite !dom_insert_L. set_solver. Qed.

Lemma metadata_keeps (now : string) (d d' : record) :
  _add_validation_metadata now d = Ok d' -> dom d ⊆ dom d'.
Proof.
  unfold _add_validation_metadata. destruct (as_number _); [|done]. cbn [bind].
  intros [= <-]. rewrite !dom_insert_L. set_solver.
Qed.

(** X6. Validation never drops a field: every key of the record that
    goes in is a key of the record that comes out, whichever step the
    run stops at. *)
Theorem validate_and_enhance_keeps_fields (now : string) (business_data : record) :
  dom business_data ⊆ dom (validate_and_enhance now business_data).
Proof.
  unfold validate_and_enhance.
  destruct (_validate_core_fields business_data) as [d1|] eqn:H1; [|done].
  apply core_keeps in H1.
  destruct (_validate_contact_info d1) as [d2|] eqn:H2; [|done].
  rewrite contact_is_fields in H2. apply validate_fields_keeps in H2.
  pose proof (scores_keep d2) as H3.
  destruct (_add_validation_metadata now _) as [d4|] eqn:H4.
  - apply metadata_keeps in H4. set_solver.
  - set_solver.
Qed.

Lemma confidence_score_flags (data : record) :
  _calculate_confidence_score data
  = Z.max 1 (Z.min 10
      (10 - 3 * Z.b2z (negb (Stated.name_flag data))
       - 2 * Z.b2z (negb (found (Val.get data "phone_number")))
       - 2 * Z.b2z (negb (found (Val.get data "address")))
       - Z.b2z (negb (found (Val.get data "website")))
       + Z.b2z (found (Val.get data "ceo_name"))
       + Z.b2z (found (Val.get data "ceo_email")))).
Proof.
  unfold _calculate_confidence_score.
  rewrite (guard_flag (Val.get data "business_name") "UNKNOWN"),
    (guard_flag (Val.get data "phone_number") "NOT_FOUND"),
    (guard_flag (Val.get data "address") "NOT_FOUND"),
    (guard_flag (Val.get data "website") "NOT_FOUND").
  fold (Stated.name_flag data) (found (Val.get data "phone_number"))
    (found (Val.get data "address")) (found (Val.get data "website")).
  destruct (Stated.name_flag data), (found (Val.get data "phone_number")),
    (found (Val.get data "address")), (found (Val.get data "website")),
    (found (Val.get data "ceo_name")), (found (Val.get data "ceo_email"));
    reflexivity.
Qed.

Lemma confidence_score_range (data : record) :
  2 <= _calculate_confidence_score data <= 10.
Proof.
  rewrite confidence_score_flags.
  destruct (Stated.name_flag data), (found (Val.get data "phone_number")),
    (found (Val.get data "address")), (found (Val.get data "website")),
    (found (Val.get data "ceo_name")), (found (Val.get data "ceo_email"));
    cbn; lia.
Qed.

Lemma quality_score_range (data : record) :
  0 <= _calculate_overall_quality_score data <= 10.
Proof.
  unfold _calculate_overall_quality_score.
  destruct (Val.truthy (Val.get data "business_name") && _);
    destruct (Val.truthy (Val.get data "business_description"));
    destruct (Val.truthy (Val.get data "industry") || _);
    destruct (found (Val.get data "phone_number"));
    destruct (found (Val.get data "address"));
    destruct (found (Val.get data "website"));
    destruct (found (Val.get data "ceo_name"));
    destruct (found (Val.get data "ceo_email"));
    destruct (found (Val.get data "general_email")); simpl; lia.
Qed.

Lemma lead_score_range (data : record) : 5 <= _calculate_lead_score data <= 10.
Proof.
  unfold _calculate_lead_score.
  destruct (Val.truthy (Val.get data "company_size"));
    destruct (Val.truthy (Val.get data "service_type") || _);
    destruct (found (Val.get data "ceo_email"));
    destruct (found (Val.get data "general_email"));
    destruct (found (Val.get data "website")); simpl; lia.
Qed.

(** X7. The confidence score lies between 2 and 10 for every record: the
    four deductions take at most 8 of the 10 points, so the floor of 1
    that the code sets is never reached; and it is 2 exactly when the
    name, the phone, the address, the website and the CEO's name and
    e-mail are all missing. *)
Theorem confidence_score_between_2_and_10 (data : record) :
  2 <= _calculate_confidence_score data <= 10
  ∧ (_calculate_confidence_score data = 2 ↔
       Stated.name_flag data = false
       ∧ found (Val.get data "phone_number") = false
       ∧ found (Val.get data "address") = false
       ∧ found (Val.get data "website") = false
       ∧ found (Val.get data "ceo_name") = false
       ∧ found (Val.get data "ceo_email") = false).
Proof.
  rewrite confidence_score_flags.
  destruct (Stated.name_flag data), (found (Val.get data "phone_number")),
    (found (Val.get data "address")), (found (Val.get data "website")),
    (found (Val.get data "ceo_name")), (found (Val.get data "ceo_email"));
    cbn; (split; [lia|]); split; try lia; try done; intros (?&?&?&?&?&?); done.
Qed.

Lemma completeness_table :
  forallb (fun n => let k := Z.of_nat n in
                    completeness_of k =? (if k =? 29 then 57 else Z.min 100 (2 * k)))
          (seq 0 1001) = true.
Proof. by vm_compute. Qed.

Lemma completeness_of_count (k : Z) :
  0 <= k <= 1000 ->
  completeness_of k = if k =? 29 then 57 else Z.min 100 (2 * k).
Proof.
  intros Hk. pose proof completeness_table as H.
  rewrite forallb_forall in H. specialize (H (Z.to_nat k)).
  cbv zeta in H. rewrite Z2Nat.id in H by lia.
  apply Z.eqb_eq, H, in_seq. lia.
Qed.

(** X8. The completeness score is twice the number of the fields that
    are filled in, at most 100, for a record with up to a thousand such
    fields; but 29 fields give 57, because [29 / 50 * 100] is computed
    in floating point and falls just below 58. *)
Theorem completeness_score_value (data : record) :
  let completed_fields :=
    Z.of_nat (length (List.filter completed (map_to_list data).*2)) in
  completed_fields <= 1000 ->
  _calculate_quality_scores data !! "completeness_score"
  = Some (VInt (if completed_fields =? 29 then 57
                else Z.min 100 (2 * completed_fields))).
Proof.
  intros k Hk. unfold _calculate_quality_scores.
  rewrite !lookup_insert_ne by done. rewrite lookup_insert_eq.
  fold k. by rewrite completeness_of_count by lia.
Qed.

Lemma completeness_score_value_witness :
  _calculate_quality_scores (Sample.with_phone "Acme" "(919) 555-0142")
    !! "completeness_score" = Some (VInt 4).
Proof.
  apply (completeness_score_value (Sample.with_phone "Acme" "(919) 555-0142")).
  by vm_compute.
Defined.

Lemma name_after_nonempty (n0 : string) : Stated.name_after n0 ≠ "".
Proof.
  unfold Stated.name_after.
  destruct (String.eqb (Py.strip n0) "") eqn:E; [done|].
  apply String.eqb_neq in E. rewrite clean_business_name_unfold.
  apply (shape_empty (Py.join " " (Py.split (Py.strip n0)))).
  - by rewrite replace_suffixes_shape.
  - apply join_nonempty; [|apply split_words].
    intros Hs. rewrite split_strip in Hs. by apply E, strip_empty.
Qed.

Lemma str_or_absent_if_found (d : record) (k : string) :
  Stated.str_or_absent d k -> Stated.str_if_found d k.
Proof.
  intros [s Hs] Hf. unfold Val.get_or, Val.get in *.
  destruct (d !! k) as [v|]; [|done]. cbn in Hs. subst v. by exists s.
Qed.

(** X9. For a record whose text fields are strings or are absent, the
    run goes through all its steps: the record that comes out has a name
    that is not empty, the three scores within their ranges, the
    reading of the clock as its validation date, and the status that
    its data quality score calls for. *)
Theorem validate_and_enhance_output (now : string) (business_data : record) :
  (∀ field, field ∈ [ "business_name"; "address"; "business_description";
                      "phone_number"; "ceo_email"; "general_email";
                      "sales_email"; "support_email"; "website" ] ->
            Stated.str_or_absent business_data field) ->
  let enhanced := validate_and_enhance now business_data in
  ∃ name quality confidence lead,
    enhanced !! "business_name" = Some (VStr name) ∧ name ≠ ""
    ∧ enhanced !! "data_quality_score" = Some (VInt quality) ∧ 0 <= quality <= 10
    ∧ enhanced !! "confidence_score" = Some (VInt confidence) ∧ 2 <= confidence <= 10
    ∧ enhanced !! "lead_score" = Some (VInt lead) ∧ 5 <= lead <= 10
    ∧ enhanced !! "validation_date" = Some (VStr now)
    ∧ enhanced !! "validation_status"
      = Some (VStr (if 8 <=? quality then "high_quality"
                    else if 6 <=? quality then "good_quality"
                    else if 4 <=? quality then "acceptable_quality"
                    else "needs_review")).
Proof.
  intros Htext enhanced.
  destruct (Htext "business_name" ltac:(in_list)) as [n0 Hn].
  destruct (Htext "address" ltac:(in_list)) as [a0 Ha].
  destruct (Htext "business_description" ltac:(in_list)) as [s0 Hs].
  pose proof (core_total _ _ _ _ Hn Ha Hs) as Hcore.
  set (d1 := Stated.core_of business_data n0 a0 s0) in *.
  destruct (contact_total d1) as [d2 Hcontact].
  { intros k Hk. apply (str_if_found_lookup business_data).
    - apply core_of_outside.
      repeat (apply elem_of_cons in Hk as [->|Hk]; [done|]).
      by apply elem_of_nil in Hk.
    - apply str_or_absent_if_found, Htext.
      repeat (apply elem_of_cons in Hk as [->|Hk]; [in_list|]).
      by apply elem_of_nil in Hk. }
  destruct (contact_ok _ _ Hcontact) as (Hout & _ & _).
  destruct (scores_lookup d2) as (Hq & Hc & Hl).
  assert (Hrun : enhanced
                 = <[ "validation_status" :=
                        VStr (if 8 <=? _calculate_overall_quality_score d2
                              then "high_quality"
                              else if 6 <=? _calculate_overall_quality_score d2
                              then "good_quality"
                              else if 4 <=? _calculate_overall_quality_score d2
                              then "acceptable_quality"
                              else "needs_review") ]>
                     (<[ "validation_date" := VStr now ]>
                        (_calculate_quality_scores d2))).
  { subst enhanced. unfold validate_and_enhance. rewrite Hcore, Hcontact.
    unfold _add_validation_metadata, Val.get_or.
    rewrite lookup_insert_ne by done. rewrite Hq.
    by cbn [default from_option id as_number bind]. }
  exists (Stated.name_after n0), (_calculate_overall_quality_score d2),
    (_calculate_confidence_score d2), (_calculate_lead_score d2).
  rewrite Hrun. split_and!.
  - rewrite !lookup_insert_ne by done. rewrite scores_outside by done.
    rewrite Hout by done. apply core_of_name.
  - apply name_after_nonempty.
  - by rewrite !lookup_insert_ne.
  - apply quality_score_range.
  - apply quality_score_range.
  - by rewrite !lookup_insert_ne.
  - apply confidence_score_range.
  - apply confidence_score_range.
  - by rewrite !lookup_insert_ne.
  - apply lead_score_range.
  - apply lead_score_range.
  - rewrite lookup_insert_ne by done. apply lookup_insert_eq.
  - apply lookup_insert_eq.
Qed.

Lemma validate_and_enhance_output_witness :
  let enhanced :=
    validate_and_enhance "2024-01-01 09:00:00"
      (Sample.with_phone "Acme" "919.555.0142") in
  ∃ name quality confidence lead,
    enhanced !! "business_name" = Some (VStr name) ∧ name ≠ ""
    ∧ enhanced !! "data_quality_score" = Some (VInt quality) ∧ 0 <= quality <= 10
    ∧ enhanced !! "confidence_score" = Some (VInt confidence) ∧ 2 <= confidence <= 10
    ∧ enhanced !! "lead_score" = Some (VInt lead) ∧ 5 <= lead <= 10
    ∧ enhanced !! "validation_date" = Some (VStr "2024-01-01 09:00:00")
    ∧ enhanced !! "validation_status"
      = Some (VStr (if 8 <=? quality then "high_quality"
                    else if 6 <=? quality then "good_quality"
                    else if 4 <=? quality then "acceptable_quality"
                    else "needs_review")).
Proof.
  apply (validate_and_enhance_output "2024-01-01 09:00:00"
           (Sample.with_phone "Acme" "919.555.0142")).
  intros field Hf.
  repeat (apply elem_of_cons in Hf as [->|Hf]; [eexists; reflexivity|]).
  by apply elem_of_nil in Hf.
Defined.

Lemma str_length_take_le (n : nat) (s : string) : (String.length (Py.take n s) <= n)%nat.
Proof.
  revert s. induction n as [|n IH]; intros s; [done|].
  destruct s as [|c s]; simpl; [lia|]. specialize (IH s). lia.
Qed.

Lemma str_length_take (n : nat) (s : string) :
  (n <= String.length s)%nat -> String.length (Py.take n s) = n.
Proof.
  revert s. induction n as [|n IH]; intros s; [done|].
  destruct s as [|c s]; simpl; [lia|]. intros H. rewrite IH; lia.
Qed.

Lemma str_length_app (s t : string) :
  String.length (s +:+ t) = (String.length s + String.length t)%nat.
Proof. induction s as [|c s IH]; [done|]. rewrite app_cons. simpl. by rewrite IH. Qed.

Lemma str_take_app_le (n : nat) (a b : string) :
  (n <= String.length a)%nat -> Py.take n (a +:+ b) = Py.take n a.
Proof.
  revert a. induction n as [|n IH]; intros a; [done|].
  destruct a as [|c a]; simpl; [lia|]. intros H. rewrite IH; [done|lia].
Qed.

Lemma str_take_app_ge (n : nat) (a b : string) :
  Py.take (String.length a + n) (a +:+ b) = a +:+ Py.take n b.
Proof. induction a as [|c a IH]; [done|]. rewrite !app_cons. simpl. by rewrite IH. Qed.

Lemma blank_free_take (n : nat) (w : string) :
  Stated.blank_free w = true -> Stated.blank_free (Py.take n w) = true.
Proof.
  unfold Stated.blank_free. revert w. induction n as [|n IH]; intros w; [done|].
  destruct w as [|c w]; [done|]. simpl.
  intros [Hc Hw]%negb_true_iff%orb_false_iff. rewrite Hc. cbn [orb].
  apply IH. by rewrite Hw.
Qed.

Lemma blank_free_app (s t : string) :
  Stated.blank_free s = true -> Stated.blank_free t = true ->
  Stated.blank_free (s +:+ t) = true.
Proof.
  unfold Stated.blank_free. induction s as [|c s IH]; [done|].
  rewrite app_cons. simpl.
  intros [Hc Hs]%negb_true_iff%orb_false_iff Ht. rewrite Hc. cbn [orb].
  apply IH; [by rewrite Hs|done].
Qed.

(** A cut of joined words, followed by a word, is a list of joined
    words. *)
Lemma take_join_words (ws : list string) (n : nat) (t : string) :
  Forall Stated.is_word ws -> Stated.is_word t ->
  ∃ ws', ws' ≠ [] ∧ Forall Stated.is_word ws'
         ∧ Py.take n (Py.join " " ws) +:+ t = Py.join " " ws'.
Proof.
  intros Hws [Hne Ht]. revert n. induction Hws as [|w ws Hw Hws IH]; intros n.
  - exists [t]. split_and!; [done|by apply Forall_singleton|by destruct n].
  - assert (Hcut : ∀ m, Stated.is_word (Py.take m w +:+ t)).
    { intros m. split; [by apply app_nonempty_r|].
      apply blank_free_app; [|done]. apply blank_free_take, Hw. }
    destruct ws as [|w2 rest].
    + exists [Py.take n w +:+ t]. split_and!; [done|by apply Forall_singleton|done].
    + change (Py.join " " (w :: w2 :: rest))
        with (w +:+ " " +:+ Py.join " " (w2 :: rest)).
      destruct (le_lt_dec n (String.length w)) as [Hn|Hn].
      * exists [Py.take n w +:+ t]. split_and!; [done|by apply Forall_singleton|].
        by rewrite str_take_app_le.
      * destruct (IH (n - String.length w - 1)%nat) as (ws' & Hne' & Hws' & Heq).
        exists (w :: ws'). split_and!; [done|by constructor|].
        replace n with (String.length w + S (n - String.length w - 1))%nat
          at 1 by lia.
        rewrite str_take_app_ge, (app_cons " " ""), app_empty_l. cbn [Py.take].
        rewrite str_app_assoc, app_cons, Heq. by destruct ws'.
Qed.

Lemma clean_description_result (description : string) :
  (String.length (_clean_description description) <= 500)%nat
  ∧ _clean_description (_clean_description description)
    = _clean_description description.
Proof.
  unfold _clean_description at 1 3 4.
  set (cleaned := Py.join " " (Py.split description)).
  destruct (500 <? String.length cleaned)%nat eqn:Hlong.
  - apply Nat.ltb_lt in Hlong.
    assert (Hlen : String.length (Py.take 497 cleaned +:+ "...") = 500%nat).
    { rewrite str_length_app, str_length_take by lia. done. }
    split; [lia|].
    destruct (take_join_words (Py.split description) 497 "...")
      as (ws' & Hne & Hws & Heq); [apply split_words|done|].
    fold cleaned in Heq. unfold _clean_description.
    rewrite Heq, split_join by done. rewrite <- Heq, Hlen. done.
  - apply Nat.ltb_ge in Hlong. split; [done|].
    unfold _clean_description, cleaned. rewrite join_split_idem.
    fold cleaned. by apply Nat.ltb_ge in Hlong as ->.
Qed.

(** X10. A cleaned description is never longer than 500 characters, and
    cleaning it again changes nothing. *)
Theorem clean_description_bounded_idempotent (description : string) :
  (String.length (_clean_description description) <= 500)%nat
  ∧ _clean_description (_clean_description description)
    = _clean_description description.
Proof. apply clean_description_result. Qed.

End ValidatedRecord.

(* ===================================================================== *)
(** * What the industry classifier can answer                              *)
(* ===================================================================== *)

Section ClassifierAnswers.
Import IndustryClassifier.

Lemma in_Zrange (lo hi s : Z) : lo <= s <= hi -> In s (Facts.Zrange lo hi).
Proof.
  intros H. unfold Facts.Zrange. apply in_map_iff.
  exists (Z.to_nat (s - lo)). split; [lia|]. apply in_seq. lia.
Qed.

Lemma fold_min_le (ws : list Z) (a : Z) :
  fold_left Z.min ws a <= a ∧ ∀ w, w ∈ ws -> fold_left Z.min ws a <= w.
Proof.
  revert a. induction ws as [|w ws IH]; intros a; [split; [simpl; lia|]|].
  - intros w Hw. by apply elem_of_nil in Hw.
  - cbn [fold_left]. destruct (IH (Z.min a w)) as [H1 H2]. split; [lia|].
    intros w' [->|Hw']%elem_of_cons; [lia|by apply H2].
Qed.

Lemma least_weight_le (patterns : list (Re.regex * Z)) (p : Re.regex * Z) :
  p ∈ patterns -> Facts.least_weight patterns <= p.2.
Proof.
  destruct patterns as [|p0 rest]; [by intros ?%elem_of_nil|].
  cbn [Facts.least_weight]. destruct (fold_min_le rest.*2 p0.2) as [H1 H2].
  intros [->|Hp]%elem_of_cons; [done|]. apply H2. by apply list_elem_of_fmap_2.
Qed.

Lemma fold_add_from (ws : list Z) (a : Z) :
  fold_left Z.add ws a = a + fold_left Z.add ws 0.
Proof.
  revert a. induction ws as [|w ws IH]; intros a; [simpl; lia|].
  cbn [fold_left]. rewrite (IH (a + w)), (IH (0 + w)). lia.
Qed.

(** The weight that [tally] adds up lies between the least weight and
    the total weight when a pattern was found. *)
Lemma tally_from (text : string) (patterns : list (Re.regex * Z)) (lo s0 m0 : Z) :
  Forall (fun p => lo <= p.2 ∧ 0 <= p.2) patterns ->
  let '(s, m) :=
    fold_left (fun '(score, matches) '(pattern, weight) =>
                 if Re.search pattern text
                 then (score + weight, matches + 1)
                 else (score, matches))
              patterns (s0, m0) in
  m0 <= m ∧ s0 <= s <= s0 + Facts.total_weight patterns
  ∧ (m0 < m -> s0 + lo <= s).
Proof.
  intros Hall. revert s0 m0.
  induction Hall as [|[pattern weight] rest [Hlo Hpos] Hall IH]; intros s0 m0.
  - unfold Facts.total_weight. simpl. lia.
  - cbn [fold_left]. unfold Facts.total_weight. rewrite fmap_cons.
    cbn [fold_left snd] in *. rewrite fold_add_from.
    fold (Facts.total_weight rest).
    pose proof (fold_add_from rest.*2 0) as _.
    assert (Hrest : 0 <= Facts.total_weight rest).
    { specialize (IH 0 0). destruct (fold_left _ rest (0, 0)). lia. }
    destruct (Re.search pattern text).
    + specialize (IH (s0 + weight) (m0 + 1)).
      destruct (fold_left _ rest _) as [s m]. lia.
    + specialize (IH s0 m0). destruct (fold_left _ rest _) as [s m]. lia.
Qed.

Lemma tally_bounds (text : string) (patterns : list (Re.regex * Z)) :
  Forall (fun p : Re.regex * Z => 0 <= p.2) patterns ->
  0 < (tally text patterns).2 ->
  Facts.least_weight patterns <= (tally text patterns).1
  <= Facts.total_weight patterns.
Proof.
  intros Hpos. unfold tally.
  pose proof (tally_from text patterns (Facts.least_weight patterns) 0 0) as H.
  destruct (fold_left _ patterns (0, 0)) as [s m]. cbn [fst snd]. intros Hm.
  destruct H as (_ & Hs & Hlo); [|lia].
  apply Forall_forall. intros p Hp. split; [by apply least_weight_le|].
  by apply (proj1 (Forall_forall _ _) Hpos).
Qed.

Lemma registry_weights :
  Forall (fun e : string * list (Re.regex * Z) =>
            Forall (fun p : Re.regex * Z => 0 <= p.2) e.2) keyword_patterns.
Proof. unfold keyword_patterns. repeat constructor; done. Qed.

Lemma registry_outcomes :
  forallb (fun e : string * list (Re.regex * Z) =>
             forallb (fun s => Facts.well_classified (Facts.classified e.1 e.2 s))
                     (Facts.Zrange (Facts.least_weight e.2) (Facts.total_weight e.2)))
          keyword_patterns = true.
Proof. by vm_compute. Qed.

(** What the loop of [_classify_by_keywords] holds after any number of
    rounds: nothing yet, or an industry of the registry with one of its
    possible weights. *)
Lemma best_step_candidates (text : string) (rest : list (string * list (Re.regex * Z)))
    (acc : option string * F64.t) :
  (∀ e, e ∈ rest -> e ∈ keyword_patterns) ->
  acc = (None, F64.of_Z 0)
  ∨ (∃ e s, e ∈ keyword_patterns
            ∧ Facts.least_weight e.2 <= s <= Facts.total_weight e.2
            ∧ acc = (Some e.1, F64.truediv s (Z.of_nat (length e.2)))) ->
  let acc' := fold_left (best_step text) rest acc in
  acc' = (None, F64.of_Z 0)
  ∨ (∃ e s, e ∈ keyword_patterns
            ∧ Facts.least_weight e.2 <= s <= Facts.total_weight e.2
            ∧ acc' = (Some e.1, F64.truediv s (Z.of_nat (length e.2)))).
Proof.
  revert acc. induction rest as [|e rest IH]; intros acc Hin Hacc; [done|].
  cbn [fold_left]. apply IH; [intros e' He'; apply Hin; by right|].
  assert (He : e ∈ keyword_patterns) by (apply Hin; by left).
  destruct acc as [best highest], e as [industry patterns].
  unfold best_step.
  pose proof (tally_bounds text patterns) as Hb.
  destruct (tally text patterns) as [score matches]. cbn [fst snd] in Hb.
  destruct (0 <? matches) eqn:Hm; [|done].
  destruct (F64.ltb highest _); [|done].
  right. exists (industry, patterns), score. split; [done|split; [|done]].
  apply Hb; [|by apply Z.ltb_lt].
  exact (proj1 (Forall_forall _ _) registry_weights (industry, patterns) He).
Qed.

Lemma classify_by_keywords_answer (text : string) :
  _classify_by_keywords text = ("Unknown", "UNKNOWN", 1)
  ∨ Facts.well_classified (_classify_by_keywords text) = true.
Proof.
  unfold _classify_by_keywords.
  pose proof (best_step_candidates text keyword_patterns (None, F64.of_Z 0)
                (fun e He => He) (or_introl eq_refl)) as Hloop.
  cbv zeta in Hloop. destruct Hloop as [-> | (e & s & He & Hs & ->)]; [by left|].
  pose proof registry_outcomes as Hok. rewrite forallb_forall in Hok.
  specialize (Hok e (proj1 (list_elem_of_In _ _) He)).
  rewrite forallb_forall in Hok. specialize (Hok s (in_Zrange _ _ _ Hs)).
  right. unfold Facts.classified in Hok.
  destruct (negb (String.eqb e.1 "")) eqn:Hne; [exact Hok|].
  unfold Facts.well_classified in Hok. by rewrite Hne in Hok.
Qed.

(** X11. The industry classifier answers Unknown, with the code UNKNOWN,
    the category Other and the confidence 1, or it names an industry of
    its registry, with the code the NAICS table has for it, a category
    that is not Other and a confidence from 3 to 10; it never answers
    with a confidence of 2, and never leaves a named industry without
    its code. *)
Theorem classify_answers (business_data : record) :
  ∃ industry naics_code confidence,
    classify business_data !! "industry_primary" = Some (VStr industry)
    ∧ classify business_data !! "naics_code" = Some (VStr naics_code)
    ∧ classify business_data !! "industry_confidence" = Some (VInt confidence)
    ∧ classify business_data !! "industry_category"
      = Some (VStr (_get_industry_category industry))
    ∧ classify business_data !! "classification_method"
      = Some (VStr "keyword_matching")
    ∧ ((industry = "Unknown" ∧ naics_code = "UNKNOWN" ∧ confidence = 1
        ∧ _get_industry_category industry = "Other")
       ∨ ((∃ description,
             lookup industry naics_mapping = Some (naics_code, description))
          ∧ (∃ patterns, lookup industry keyword_patterns = Some patterns)
          ∧ _get_industry_category industry ≠ "Other"
          ∧ 3 <= confidence <= 10)).
Proof.
  unfold classify.
  set (text := Py.lower _).
  pose proof (classify_by_keywords_answer text) as Hanswer.
  destruct (_classify_by_keywords text) as [[industry naics_code] confidence].
  exists industry, naics_code, confidence.
  assert (Honeof :
            (industry = "Unknown" ∧ naics_code = "UNKNOWN" ∧ confidence = 1
             ∧ _get_industry_category industry = "Other")
            ∨ ((∃ description,
                  lookup industry naics_mapping = Some (naics_code, description))
               ∧ (∃ patterns, lookup industry keyword_patterns = Some patterns)
               ∧ _get_industry_category industry ≠ "Other"
               ∧ 3 <= confidence <= 10)).
  { destruct Hanswer as [[= -> -> ->]|Hok]; [by left|right].
    unfold Facts.well_classified in Hok.
    repeat (apply andb_true_iff in Hok as [Hok ?]).
    destruct (lookup industry naics_mapping) as [[code description]|] eqn:Hcode;
      [|done].
    destruct (lookup industry keyword_patterns) as [patterns|]; [|done].
    split; [|split; [|split]].
    - exists description. f_equal. f_equal. by apply String.eqb_eq.
    - by exists patterns.
    - by apply String.eqb_neq, negb_true_iff.
    - lia. }
  clear Hanswer.
  destruct (_find_secondary_industries text industry) as [|second others].
  - do 5 (split; [repeat (rewrite lookup_insert_ne by done);
                    first [apply lookup_insert_eq|apply lookup_singleton_eq]|]).
    exact Honeof.
  - do 5 (split; [repeat (rewrite lookup_insert_ne by done);
                    first [apply lookup_insert_eq|apply lookup_singleton_eq]|]).
    exact Honeof.
Qed.

(** The loop of [_find_secondary_industries] keeps, in the order of the
    registry, the industries other than the primary one whose weight is
    2 or more. *)
Lemma secondary_loop (text primary : string)
    (registry : list (string * list (Re.regex * Z))) (secondary : list string) :
  fold_left (fun secondary '(industry, patterns) =>
               if String.eqb industry primary then secondary
               else
                 let score := fst (tally text patterns) in
                 if 2 <=? score then secondary ++ [industry] else secondary)
            registry secondary
  = secondary
    ++ (List.filter (fun e : string * list (Re.regex * Z) =>
                       negb (String.eqb e.1 primary) && (2 <=? (tally text e.2).1))
                    registry).*1.
Proof.
  revert secondary. induction registry as [|[industry patterns] rest IH];
    intros secondary; [by rewrite app_nil_r|].
  cbn [fold_left List.filter fst snd]. rewrite IH.
  destruct (String.eqb industry primary); cbn [negb andb]; [done|].
  destruct (2 <=? _); [|done]. by rewrite fmap_cons, <- app_assoc.
Qed.

Lemma registry_names_differ : NoDup keyword_patterns.*1.
Proof. apply (bool_decide_unpack _). by vm_compute. Qed.

(** X12. The secondary industries are at most three industries of the
    registry, in its order and without repetition; the primary industry
    is never among them, and each has patterns in the text whose weights
    add up to 2 or more. *)
Theorem secondary_industries_are_few (text primary : string) :
  let secondary := _find_secondary_industries text primary in
  (length secondary <= 3)%nat
  ∧ (primary ∉ secondary)
  ∧ NoDup secondary
  ∧ secondary `sublist_of` keyword_patterns.*1
  ∧ ∀ industry, industry ∈ secondary ->
      ∃ patterns, (industry, patterns) ∈ keyword_patterns
                  ∧ 2 <= fst (tally text patterns).
Proof.
  intros secondary. subst secondary. unfold _find_secondary_industries.
  rewrite secondary_loop, app_nil_l.
  set (kept := List.filter _ keyword_patterns).
  assert (Hkept : ∀ e, e ∈ kept ->
            e ∈ keyword_patterns ∧ e.1 ≠ primary ∧ 2 <= fst (tally text e.2)).
  { intros e He. apply list_elem_of_In, filter_In in He as [He Hok].
    apply andb_true_iff in Hok as [Hne Hscore].
    split_and!; [by apply list_elem_of_In|by apply String.eqb_neq, negb_true_iff|lia]. }
  assert (Hall : ∀ industry, industry ∈ take 3 kept.*1 ->
            ∃ patterns, (industry, patterns) ∈ kept).
  { intros industry Hi.
    assert (Hi' : industry ∈ kept.*1)
      by (rewrite <- (take_drop 3 kept.*1); apply elem_of_app; by left).
    apply list_elem_of_fmap in Hi' as ([i patterns] & -> & He). by exists patterns. }
  assert (Hsub : kept.*1 `sublist_of` keyword_patterns.*1).
  { apply fmap_sublist. subst kept. clear.
    induction keyword_patterns as [|e l IH]; [done|]. cbn [List.filter].
    destruct (_ && _); [by apply sublist_skip|by apply sublist_cons]. }
  split_and!.
  - rewrite length_take. lia.
  - intros Hp. destruct (Hall _ Hp) as [patterns He].
    by destruct (Hkept _ He) as (_ & Hne & _).
  - apply (sublist_NoDup _ keyword_patterns.*1); [apply registry_names_differ|].
    etrans; [apply sublist_take|done].
  - etrans; [apply sublist_take|done].
  - intros industry Hi. destruct (Hall _ Hi) as [patterns He].
    exists patterns. by destruct (Hkept _ He) as (? & _ & ?).
Qed.

End ClassifierAnswers.

(* ===================================================================== *)
(** * Deduplicating what was deduplicated                                  *)
(* ===================================================================== *)

Section DedupAgain.

(** The businesses that a loop adds are enough to bring it from the same
    state to the same end. *)
Lemma exact_loop_again (data : list record) (st st' : CRMLeadAgent.state) :
  CRMLeadAgent.dedup_loop data st = Ok st' ->
  ∃ added, st'.2 = st.2 ++ added
           ∧ CRMLeadAgent.dedup_loop added st = Ok st'.
Proof.
  revert st. induction data as [|business rest IH]; intros st.
  - intros [= <-]. exists []. by rewrite app_nil_r.
  - cbn [CRMLeadAgent.dedup_loop].
    destruct (CRMLeadAgent.dedup_step st business) as [st1|] eqn:Hstep; [|done].
    cbn [bind]. intros Hrest. destruct (IH st1 Hrest) as (added & Hadded & Hagain).
    unfold CRMLeadAgent.dedup_step in Hstep. destruct st as [seen kept].
    destruct (CRMLeadAgent.dedup_key business) as [key|] eqn:Hkey; [|done].
    cbn [bind] in Hstep.
    destruct (negb (String.eqb key "") && negb (bool_decide (key ∈ seen))) eqn:Hnew;
      injection Hstep as <-.
    + exists (business :: added). split.
      * cbn [snd] in *. by rewrite Hadded, <- app_assoc.
      * cbn [CRMLeadAgent.dedup_loop]. unfold CRMLeadAgent.dedup_step.
        rewrite Hkey. cbn [bind]. by rewrite Hnew.
    + by exists added.
Qed.

(** X13. Deduplicating on the exact key a list that was deduplicated
    returns the list as it is. *)
Theorem exact_key_deduplication_idempotent (data unique_data : list record) :
  CRMLeadAgent._deduplicate_businesses data = Ok unique_data ->
  CRMLeadAgent._deduplicate_businesses unique_data = Ok unique_data.
Proof.
  unfold CRMLeadAgent._deduplicate_businesses.
  destruct (CRMLeadAgent.dedup_loop data (∅, [])) as [st|] eqn:Hloop; [|done].
  cbn [bind]. intros [= <-].
  destruct (exact_loop_again _ _ _ Hloop) as (added & Hadded & Hagain).
  cbn [snd] in Hadded. rewrite app_nil_l in Hadded. rewrite <- Hadded in Hagain.
  by rewrite Hagain.
Qed.

Lemma exact_key_deduplication_idempotent_witness :
  let a := Sample.with_phone "Acme Fiber" "555-1234" in
  let b := Sample.with_phone "Blue Ridge Net" "555-9876" in
  let a' := Sample.with_phone "ACME Fiber LLC" " 555-1234 " in
  CRMLeadAgent._deduplicate_businesses [a; b; a'] = Ok [a; b]
  ∧ CRMLeadAgent._deduplicate_businesses [a; b] = Ok [a; b].
Proof.
  intros a b a'. split; [vm_compute; exact eq_refl|].
  apply (exact_key_deduplication_idempotent [a; b; a']).
  vm_compute. exact eq_refl.
Defined.

Lemma fuzzy_loop_again (businesses : list record) (st st' : ISPScraper.state) :
  ISPScraper.dedup_loop businesses st = Ok st' ->
  ∃ added, st'.2 = st.2 ++ added
           ∧ ISPScraper.dedup_loop added st = Ok st'.
Proof.
  revert st. induction businesses as [|business rest IH]; intros st.
  - intros [= <-]. exists []. by rewrite app_nil_r.
  - cbn [ISPScraper.dedup_loop].
    destruct (ISPScraper.dedup_step st business) as [st1|] eqn:Hstep; [|done].
    cbn [bind]. intros Hrest. destruct (IH st1 Hrest) as (added & Hadded & Hagain).
    unfold ISPScraper.dedup_step in Hstep. destruct st as [seen kept].
    destruct (ISPScraper.normalized_name business) as [name|] eqn:Hname; [|done].
    cbn [bind] in Hstep.
    destruct (ISPScraper.is_duplicate (ISPScraper.word_set name) seen) eqn:Hdup;
      injection Hstep as <-.
    + by exists added.
    + exists (business :: added). split.
      * cbn [snd] in *. by rewrite Hadded, <- app_assoc.
      * cbn [ISPScraper.dedup_loop]. unfold ISPScraper.dedup_step.
        rewrite Hname. cbn [bind]. by rewrite Hdup.
Qed.

(** X14. Deduplicating on name similarity a list that was deduplicated
    returns the list as it is. *)
Theorem fuzzy_name_deduplication_idempotent (businesses unique : list record) :
  ISPScraper._deduplicate_businesses businesses = Ok unique ->
  ISPScraper._deduplicate_businesses unique = Ok unique.
Proof.
  rewrite !deduplicate_is_loop.
  destruct (ISPScraper.dedup_loop businesses (∅, [])) as [st|] eqn:Hloop; [|done].
  cbn [bind]. intros [= <-].
  destruct (fuzzy_loop_again _ _ _ Hloop) as (added & Hadded & Hagain).
  cbn [snd] in Hadded. rewrite app_nil_l in Hadded. rewrite <- Hadded in Hagain.
  by rewrite Hagain.
Qed.

Lemma fuzzy_name_deduplication_idempotent_witness :
  let first := Sample.named "Carolina Fiber Internet Services" in
  let second := Sample.named "Carolina Fiber Internet, Inc." in
  ISPScraper._deduplicate_businesses [first; second] = Ok [first]
  ∧ ISPScraper._deduplicate_businesses [first] = Ok [first].
Proof.
  intros first second. split; [vm_compute; exact eq_refl|].
  apply (fuzzy_name_deduplication_idempotent [first; second]).
  vm_compute. exact eq_refl.
Defined.

End DedupAgain.

Section KeyedLoop.
Variable key : record -> result string.

Lemma keyed_step_inv (pre : list record) (st st' : gset string * list record)
    (business : record) :
  Facts.keyed_inv key pre st ->
  Facts.keyed_step key st business = Ok st' ->
  Facts.keyed_inv key (pre ++ [business]) st'.
Proof.
  destruct st as [seen kept]. intros (Hsub & Hseen & Hfilter).
  unfold Facts.keyed_step. destruct (key business) as [k0|e] eqn:Hk; [|done].
  cbn [bind fst snd] in *.
  assert (Hone : ∀ k, List.filter (Facts.keyed_as key k) [business]
                      = if String.eqb k0 k then [business] else []).
  { intros k. cbn [List.filter]. unfold Facts.keyed_as. by rewrite Hk. }
  assert (Hdrop : k0 = "" ∨ k0 ∈ seen ->
            Facts.keyed_inv key (pre ++ [business]) (seen, kept)).
  { intros Hold. split_and!; cbn [fst snd].
    - by apply sublist_inserts_r.
    - intros k. rewrite Hseen, List.filter_app, Hone.
      destruct (String.eqb k0 k) eqn:E; [|by rewrite app_nil_r].
      apply String.eqb_eq in E as <-. split.
      + intros [Hne Hpre]. split; [done|]. by destruct (List.filter _ pre).
      + intros [Hne _]. split; [done|]. destruct Hold as [->|Hin]; [done|].
        by apply Hseen in Hin as [_ ?].
    - intros k. rewrite Hfilter, List.filter_app, Hone.
      destruct (String.eqb k "") eqn:Hk0; [done|].
      destruct (String.eqb k0 k) eqn:E; [|by rewrite app_nil_r].
      apply String.eqb_eq in E as <-. destruct Hold as [->|Hin]; [done|].
      apply Hseen in Hin as [_ Hpre]. by destruct (List.filter _ pre). }
  destruct (String.eqb k0 "") eqn:Hempty; cbn [negb andb].
  { apply String.eqb_eq in Hempty. intros [= <-]. apply Hdrop. by left. }
  destruct (bool_decide (k0 ∈ seen)) eqn:Hin; cbn [negb].
  { apply bool_decide_eq_true in Hin. intros [= <-]. apply Hdrop. by right. }
  apply bool_decide_eq_false in Hin. apply String.eqb_neq in Hempty.
  intros [= <-].
  assert (Hnone : List.filter (Facts.keyed_as key k0) pre = []).
  { destruct (List.filter (Facts.keyed_as key k0) pre) eqn:E; [done|].
    exfalso. apply Hin, Hseen. by rewrite E. }
  split_and!; cbn [fst snd].
  - by apply sublist_app.
  - intros k. rewrite elem_of_union, elem_of_singleton, Hseen.
    rewrite List.filter_app, Hone.
    destruct (String.eqb k0 k) eqn:E.
    + apply String.eqb_eq in E as <-. split; [intros _|by left].
      split; [done|]. by destruct (List.filter _ pre).
    + apply String.eqb_neq in E. rewrite app_nil_r. split; [|by right].
      intros [->|?]; done.
  - intros k. rewrite !List.filter_app, Hone, Hfilter.
    destruct (String.eqb k "") eqn:Hk0.
    + apply String.eqb_eq in Hk0 as ->.
      apply String.eqb_neq in Hempty. by rewrite Hempty.
    + destruct (String.eqb k0 k) eqn:E; [|by rewrite !app_nil_r].
      apply String.eqb_eq in E as <-. by rewrite Hnone.
Qed.

Lemma keyed_loop_inv (rest pre : list record) (st st' : gset string * list record) :
  Facts.keyed_inv key pre st ->
  Facts.keyed_loop key rest st = Ok st' ->
  Facts.keyed_inv key (pre ++ rest) st'.
Proof.
  revert pre st. induction rest as [|business rest IH]; intros pre st Hinv.
  - intros [= <-]. by rewrite app_nil_r.
  - cbn [Facts.keyed_loop].
    destruct (Facts.keyed_step key st business) as [st1|e] eqn:Hstep; [|done].
    cbn [bind]. intros Hloop. rewrite (cons_middle business), app_assoc.
    eapply IH; [|exact Hloop]. by eapply keyed_step_inv.
Qed.

Lemma keyed_loop_again (data : list record) (st st' : gset string * list record) :
  Facts.keyed_loop key data st = Ok st' ->
  ∃ added, st'.2 = st.2 ++ added ∧ Facts.keyed_loop key added st = Ok st'.
Proof.
  revert st. induction data as [|business rest IH]; intros st.
  - intros [= <-]. exists []. by rewrite app_nil_r.
  - cbn [Facts.keyed_loop].
    destruct (Facts.keyed_step key st business) as [st1|] eqn:Hstep; [|done].
    cbn [bind]. intros Hrest. destruct (IH st1 Hrest) as (added & Hadded & Hagain).
    unfold Facts.keyed_step in Hstep. destruct st as [seen kept].
    destruct (key business) as [k|] eqn:Hkey; [|done]. cbn [bind] in Hstep.
    destruct (negb (String.eqb k "") && negb (bool_decide (k ∈ seen))) eqn:Hnew;
      injection Hstep as <-.
    + exists (business :: added). split.
      * cbn [snd] in *. by rewrite Hadded, <- app_assoc.
      * cbn [Facts.keyed_loop]. unfold Facts.keyed_step.
        rewrite Hkey. cbn [bind]. by rewrite Hnew.
    + by exists added.
Qed.

End KeyedLoop.

Section NameFilter.
Import NCISPLeadGenerator.

Lemma nc_loop_keyed (data : list record) (st : state) :
  dedup_loop data st = Facts.keyed_loop Facts.nc_key data st.
Proof.
  revert st. induction data as [|business rest IH]; intros st; [done|].
  cbn [dedup_loop Facts.keyed_loop].
  assert (Hstep : dedup_step st business = Facts.keyed_step Facts.nc_key st business).
  { unfold dedup_step, Facts.keyed_step, Facts.nc_key. destruct st as [seen kept].
    by destruct (Val.as_str "lower" _). }
  rewrite Hstep. destruct (Facts.keyed_step _ _ _); [apply IH|done].
Qed.

(** X15. The name filter of the ISP script keeps, of the businesses of
    every name that is not empty, the first one only, in the order of the
    list; names are compared in lower case and trimmed. Filtering what
    was filtered returns it as it is. *)
Theorem nc_deduplication (data unique_businesses : list record) :
  _deduplicate_businesses data = Ok unique_businesses ->
  unique_businesses `sublist_of` data
  ∧ (∀ name,
        List.filter (Facts.keyed_as Facts.nc_key name) unique_businesses
        = if String.eqb name "" then []
          else take 1 (List.filter (Facts.keyed_as Facts.nc_key name) data))
  ∧ _deduplicate_businesses unique_businesses = Ok unique_businesses.
Proof.
  unfold _deduplicate_businesses. rewrite !nc_loop_keyed.
  destruct (Facts.keyed_loop Facts.nc_key data (∅, [])) as [st|] eqn:Hloop; [|done].
  cbn [bind]. intros [= <-].
  assert (Hinit : Facts.keyed_inv Facts.nc_key [] (∅, [])).
  { split_and!; cbn [fst snd]; [done| |by intros k; destruct (String.eqb k "")].
    intros k. split; [by intros ?%elem_of_empty|by intros [_ ?]]. }
  destruct (keyed_loop_inv Facts.nc_key data [] _ _ Hinit Hloop) as (Hsub & _ & Hfilter).
  destruct (keyed_loop_again Facts.nc_key _ _ _ Hloop) as (added & Hadded & Hagain).
  cbn [snd] in Hadded. rewrite app_nil_l in Hadded. rewrite <- Hadded in Hagain.
  split_and!; [done|done|by rewrite Hagain].
Qed.

Lemma nc_deduplication_witness :
  let a := Sample.named "Acme Fiber" in
  let b := Sample.named "Blue Ridge Net" in
  let a' := Sample.named " ACME FIBER " in
  _deduplicate_businesses [a; b; a'] = Ok [a; b]
  ∧ [a; b] `sublist_of` [a; b; a']
  ∧ _deduplicate_businesses [a; b] = Ok [a; b].
Proof.
  intros a b a'. split; [vm_compute; exact eq_refl|].
  destruct (nc_deduplication [a; b; a'] [a; b]) as (Hsub & _ & Hagain);
    [vm_compute; exact eq_refl|].
  split; [exact Hsub|exact Hagain].
Defined.

End NameFilter.

(* ===================================================================== *)
(** * The ISP path: contact defaults, confidence and quality               *)
(* ===================================================================== *)

Section ContactDefaults.
Import ISPScraper.

Lemma fill_missing_lookup (fields : list string) (d : record) (k : string) :
  fill_missing fields d !! k
  = match d !! k with
    | Some v => Some v
    | None => if bool_decide (k ∈ fields) then Some (VStr "NOT_FOUND") else None
    end.
Proof.
  revert d. induction fields as [|f fields IH]; intros d.
  - cbn [fill_missing fold_left]. by destruct (d !! k).
  - cbn [fill_missing fold_left]. fold (fill_missing fields).
    destruct (d !! f) as [vf|] eqn:Hf.
    + rewrite IH. destruct (d !! k) eqn:Hk; [done|].
      destruct (decide (k = f)) as [->|Hne]; [congruence|].
      rewrite (bool_decide_ext (k ∈ f :: fields) (k ∈ fields)); [done|].
      rewrite elem_of_cons. split; [by intros [?|?]|by right].
    + rewrite IH. destruct (decide (k = f)) as [->|Hne].
      * rewrite lookup_insert_eq, Hf, bool_decide_eq_true_2; [done|by left].
      * rewrite lookup_insert_ne by done. destruct (d !! k); [done|].
        rewrite (bool_decide_ext (k ∈ f :: fields) (k ∈ fields)); [done|].
        rewrite elem_of_cons. split; [by intros [?|?]|by right].
Qed.

Lemma fill_missing_get (d : record) (k : string) :
  Val.truthy (Val.get (fill_missing contact_fields d) k)
  && Val.ne_str (Val.get (fill_missing contact_fields d) k) "NOT_FOUND"
  = Val.truthy (Val.get d k) && Val.ne_str (Val.get d k) "NOT_FOUND".
Proof.
  unfold Val.get. rewrite fill_missing_lookup.
  destruct (d !! k); [done|]. by destruct (bool_decide _).
Qed.

Lemma fill_missing_other (d : record) (k : string) :
  k ∉ contact_fields -> Val.get (fill_missing contact_fields d) k = Val.get d k.
Proof.
  intros Hk. unfold Val.get. rewrite fill_missing_lookup.
  destruct (d !! k); [done|]. by rewrite bool_decide_eq_false_2.
Qed.

(** X16. When [_enhance_contact_information] returns, the record has all
    eight contact fields and every field it had before; it fails only
    on a record with a website and no [business_name] key. *)
Theorem enhance_contact_information_fills
    (extract_leadership_contacts : pyval -> pyval -> record)
    (business_data : record) :
  match _enhance_contact_information extract_leadership_contacts business_data with
  | Some enhanced_data =>
      (∀ field, field ∈ contact_fields -> is_Some (enhanced_data !! field))
      ∧ dom business_data ⊆ dom enhanced_data
  | None =>
      Val.truthy (Val.get business_data "website") = true
      ∧ business_data !! "business_name" = None
  end.
Proof.
  unfold _enhance_contact_information.
  assert (Hfill : ∀ d : record,
            (∀ field, field ∈ contact_fields ->
                      is_Some (fill_missing contact_fields d !! field))
            ∧ dom d ⊆ dom (fill_missing contact_fields d)).
  { intros d. split.
    - intros field Hf. rewrite fill_missing_lookup.
      destruct (d !! field); [done|]. by rewrite bool_decide_eq_true_2.
    - intros k [v Hk]%elem_of_dom. apply elem_of_dom.
      by rewrite fill_missing_lookup, Hk. }
  destruct (Val.truthy (Val.get business_data "website")); [|apply Hfill].
  destruct (business_data !! "business_name") as [name|]; [|done].
  destruct (Hfill (Val.update business_data
                     (extract_leadership_contacts
                        (Val.get business_data "website") name))) as [H1 H2].
  split; [done|]. etrans; [|exact H2]. unfold Val.update.
  rewrite dom_union_L. apply union_subseteq_r.
Qed.

(** X17. For a record without a website, the contact fields that were
    missing are set to NOT_FOUND and nothing else changes; the data
    quality score of the record stays what it was. *)
Theorem enhance_without_website_keeps_score
    (extract_leadership_contacts : pyval -> pyval -> record)
    (business_data : record) :
  Val.truthy (Val.get business_data "website") = false ->
  ∃ enhanced_data,
    _enhance_contact_information extract_leadership_contacts business_data
    = Some enhanced_data
    ∧ (∀ field,
          enhanced_data !! field
          = match business_data !! field with
            | Some value => Some value
            | None => if bool_decide (field ∈ contact_fields)
                      then Some (VStr "NOT_FOUND") else None
            end)
    ∧ _calculate_data_quality_score enhanced_data
      = _calculate_data_quality_score business_data.
Proof.
  intros Hweb. unfold _enhance_contact_information. rewrite Hweb.
  eexists. split; [done|]. split; [apply fill_missing_lookup|].
  unfold _calculate_data_quality_score.
  rewrite (fill_missing_get _ "ceo_name"), (fill_missing_get _ "ceo_email").
  rewrite !fill_missing_other; [done|..];
    by apply (bool_decide_unpack _).
Qed.

Lemma enhance_without_website_keeps_score_witness :
  ∃ enhanced_data,
    _enhance_contact_information (fun _ _ => ∅)
      (Sample.with_phone "Acme" "(919) 555-0142") = Some enhanced_data
    ∧ enhanced_data !! "ceo_name" = Some (VStr "NOT_FOUND")
    ∧ _calculate_data_quality_score enhanced_data = 3.
Proof.
  destruct (enhance_without_website_keeps_score (fun _ _ => ∅)
              (Sample.with_phone "Acme" "(919) 555-0142")) as (e & He & Hf & Hs);
    [by vm_compute|].
  exists e. split; [done|]. split; [by rewrite Hf|by rewrite Hs].
Defined.

End ContactDefaults.

Section ISPConfidence.
Import ISPClassifier.

Lemma contains_prefix (sub s : string) :
  String.prefix sub s = true -> Py.contains sub s = true.
Proof. intros H. destruct s; cbn [Py.contains]; by rewrite H. Qed.

Lemma contains_app (pre sub post : string) :
  Py.contains sub (pre +:+ sub +:+ post) = true.
Proof.
  induction pre as [|c pre IH].
  - rewrite app_empty_l. apply contains_prefix, str_prefix_app.
  - rewrite app_cons. cbn [Py.contains]. rewrite IH. apply orb_true_r.
Qed.

Lemma contains_split (sub s : string) :
  Py.contains sub s = true -> ∃ pre post, s = pre +:+ sub +:+ post.
Proof.
  induction s as [|c s IH]; cbn [Py.contains].
  - rewrite orb_false_r. intros H. exists "", "". by destruct sub.
  - intros [H|H]%orb_true_iff.
    + exists "", (Py.drop (String.length sub) (String c s)).
      rewrite app_empty_l. by apply prefix_split.
    + destruct (IH H) as (pre & post & ->). exists (String c pre), post.
      by rewrite app_cons.
Qed.

Lemma contains_trans (a b c : string) :
  Py.contains a b = true -> Py.contains b c = true -> Py.contains a c = true.
Proof.
  intros (p1 & q1 & ->)%contains_split (p2 & q2 & ->)%contains_split.
  rewrite !str_app_assoc, <- (str_app_assoc p2 p1). apply contains_app.
Qed.

(** The loop over the keywords only adds to the score: nothing when no
    keyword occurs, 10 or more when one does. *)
Lemma keyword_loop (combined_text : string) (keywords : list string) (score : Z) :
  let total :=
    fold_left (fun score keyword =>
                 if Py.contains keyword combined_text then
                   if among keyword ["internet service provider"; "isp"]
                   then score + 30
                   else if among keyword ["broadband"; "internet"]
                   then score + 20
                   else score + 10
                 else score)
              keywords score in
  score <= total
  ∧ (∀ keyword, keyword ∈ keywords -> Py.contains keyword combined_text = true ->
                score + 10 <= total)
  ∧ ((∀ keyword, keyword ∈ keywords -> Py.contains keyword combined_text = false) ->
     total = score).
Proof.
  revert score. induction keywords as [|kw rest IH]; intros score total.
  - subst total. cbn [fold_left]. split; [lia|]. split; [|done].
    by intros ? ?%elem_of_nil.
  - subst total. cbn [fold_left].
    set (score1 := if Py.contains kw combined_text then _ else score).
    destruct (IH score1) as (Hle & Hfound & Hnone).
    assert (H1 : score <= score1
                 ∧ (Py.contains kw combined_text = true -> score + 10 <= score1)
                 ∧ (Py.contains kw combined_text = false -> score1 = score)).
    { subst score1. destruct (Py.contains kw combined_text); [|by split_and!].
      destruct (among kw _); [split_and!; (lia || done)|].
      destruct (among kw _); split_and!; (lia || done). }
    destruct H1 as (H1 & H2 & H3). split_and!.
    + lia.
    + intros keyword [->|Hin]%elem_of_cons Hc; [specialize (H2 Hc); lia|].
      specialize (Hfound keyword Hin Hc). lia.
    + intros Hall. rewrite Hnone.
      * apply H3, Hall. by left.
      * intros keyword Hin. apply Hall. by right.
Qed.

Lemma any_in_false (words : list string) (combined_text : string) :
  (∀ word, word ∈ words -> Py.contains word combined_text = false) ->
  any_in words combined_text = false.
Proof.
  intros Hall. unfold any_in. induction words as [|w ws IH]; [done|].
  cbn [List.existsb]. rewrite (Hall w) by by left. cbn [orb].
  apply IH. intros word Hw. apply Hall. by right.
Qed.

Lemma any_in_true (words : list string) (combined_text word : string) :
  word ∈ words -> Py.contains word combined_text = true ->
  any_in words combined_text = true.
Proof.
  intros Hw Hc. unfold any_in. apply existsb_exists. exists word.
  split; [by apply list_elem_of_In|done].
Qed.

(** Every word that earns points contains one of eight short words. *)
Lemma scoring_words_have_roots :
  forallb (fun word =>
             List.existsb (fun root => Py.contains root word)
               ["isp"; "broadband"; "internet"; "telecom"; "fiber"; "dsl";
                "cable"; "satellite"])
          (isp_keywords ++ ["telecommunications"; "telecom"; "fiber"; "cable";
                            "satellite"; "dsl"]) = true.
Proof. by vm_compute. Qed.

(** X18. The confidence of the ISP classifier lies between 0 and 100, and
    it is 0 exactly when the lower-cased name and description contain
    none of the eight words isp, broadband, internet, telecom, fiber,
    dsl, cable and satellite. *)
Theorem isp_confidence_is_zero (name description : string) :
  0 <= _calculate_confidence name description <= 100
  ∧ (_calculate_confidence name description = 0
     ↔ ∀ root, root ∈ ["isp"; "broadband"; "internet"; "telecom"; "fiber"; "dsl";
                       "cable"; "satellite"] ->
               Py.contains root (name +:+ " " +:+ description) = false).
Proof.
  unfold _calculate_confidence.
  set (text := name +:+ " " +:+ description).
  destruct (keyword_loop text isp_keywords 0) as (Hle & Hfound & Hnone).
  cbv zeta in Hle, Hfound, Hnone.
  set (score := fold_left _ isp_keywords 0) in *.
  set (bonus1 := any_in ["telecommunications"; "telecom"] text).
  set (bonus2 := any_in ["fiber"; "cable"; "satellite"; "dsl"] text).
  split; [destruct bonus1, bonus2; lia|]. split.
  - intros Hzero root Hroot.
    destruct (Py.contains root text) eqn:Hc; [exfalso|done].
    assert (Hcases : root ∈ isp_keywords ∨ root = "cable" ∨ root = "satellite").
    { repeat (apply elem_of_cons in Hroot as [->|Hroot];
              [first [by right; left|by right; right|left; in_list]|]).
      by apply elem_of_nil in Hroot. }
    destruct Hcases as [Hk|Hb].
    + specialize (Hfound root Hk Hc). destruct bonus1, bonus2; lia.
    + assert (Hb2 : bonus2 = true).
      { destruct Hb as [-> | ->]; (eapply any_in_true; [|exact Hc]); in_list. }
      rewrite Hb2 in Hzero. destruct bonus1; lia.
  - intros Hroots.
    assert (Habsent : ∀ word,
              word ∈ isp_keywords ++ ["telecommunications"; "telecom"; "fiber";
                                      "cable"; "satellite"; "dsl"] ->
              Py.contains word text = false).
    { intros word Hword. pose proof scoring_words_have_roots as Hall.
      rewrite forallb_forall in Hall.
      specialize (Hall word (proj1 (list_elem_of_In _ _) Hword)).
      apply existsb_exists in Hall as (root & Hroot & Hin).
      destruct (Py.contains word text) eqn:Hc; [|done].
      rewrite <- (Hroots root (proj2 (list_elem_of_In _ _) Hroot)).
      symmetry. by apply (contains_trans root word text). }
    assert (H1 : bonus1 = false).
    { apply any_in_false. intros word Hw. apply Habsent, elem_of_app. right.
      repeat (apply elem_of_cons in Hw as [->|Hw]; [in_list|]).
      by apply elem_of_nil in Hw. }
    assert (H2 : bonus2 = false).
    { apply any_in_false. intros word Hw. apply Habsent, elem_of_app. right.
      repeat (apply elem_of_cons in Hw as [->|Hw]; [in_list|]).
      by apply elem_of_nil in Hw. }
    rewrite H1, H2, Hnone; [done|].
    intros keyword Hk. apply Habsent, elem_of_app. by left.
Qed.

End ISPConfidence.

Section ISPPipeline.
Import ISPDataValidator.

(** X19. In the ISP script the classification is merged into a business
    before the business is validated; the validation reads none of the
    fields that the classification writes, so it returns what it returns
    for the business as it was. *)
Theorem classification_leaves_validation (business classification : record) :
  ISPClassifier.classify business = Ok classification ->
  NCISPLeadGenerator.classify_then_validate business = validate business.
Proof.
  intros Hc. unfold NCISPLeadGenerator.classify_then_validate. rewrite Hc.
  cbn [bind].
  assert (Hget : ∀ k, k ∈ [ "business_name"; "address"; "phone_number"; "website";
                            "business_description"; "service_type"; "coverage" ] ->
                      Val.update business classification !! k = business !! k).
  { intros k Hk. unfold Val.update. apply lookup_union_r.
    unfold ISPClassifier.classify in Hc.
    destruct (Val.as_str "lower" _); [|done].
    destruct (Val.as_str "lower" _); [|done].
    destruct (Val.as_str "lower" _); [|done].
    cbn [bind] in Hc. injection Hc as <-.
    repeat (apply elem_of_cons in Hk as [->|Hk]; [done|]).
    by apply elem_of_nil in Hk. }
  unfold validate, Val.get, Val.get_or.
  rewrite (Hget "business_name"), (Hget "address"), (Hget "phone_number"),
    (Hget "website"), (Hget "business_description"), (Hget "service_type"),
    (Hget "coverage") by in_list.
  reflexivity.
Qed.

Lemma classification_leaves_validation_witness :
  ∃ classification,
    ISPClassifier.classify Sample.spectrum = Ok classification
    ∧ NCISPLeadGenerator.classify_then_validate Sample.spectrum
      = validate Sample.spectrum.
Proof.
  assert (Hok : match ISPClassifier.classify Sample.spectrum with
                | Ok _ => true
                | Raise _ => false
                end = true) by (vm_compute; reflexivity).
  destruct (ISPClassifier.classify Sample.spectrum) as [classification|e] eqn:Hc;
    [|discriminate Hok].
  exists classification. split; [reflexivity|].
  exact (classification_leaves_validation Sample.spectrum classification Hc).
Defined.

Lemma validate_website_default (data : record) :
  _validate_website (Val.get_or data "website" (VStr ""))
  = _validate_website (Val.get data "website").
Proof. unfold Val.get_or, Val.get. by destruct (data !! "website"). Qed.

Lemma isp_validation_cases (data : record) :
  match validate data with
  | Ok v =>
      NCISPLeadGenerator.high_quality v = (70 <? Stated.isp_weights data)
      ∧ (match validation_flags v with [] => true | _ :: _ => false end
         = Val.truthy (Val.get data "business_name")
           && Val.truthy (Val.get data "address")
           && Val.truthy (Val.get data "business_description")
           && phone_valid v && website_valid v)
      ∧ (validation_flags v = [] -> 100 <= Stated.isp_weights data)
  | Raise _ => True
  end.
Proof.
  unfold validate, Stated.isp_weights, NCISPLeadGenerator.high_quality.
  rewrite validate_phone_default, validate_website_default.
  assert (Hweb : Val.truthy (Val.get data "website") = false ->
                 _validate_website (Val.get data "website") = false).
  { unfold _validate_website. by intros ->. }
  revert Hweb.
  generalize (_validate_website (Val.get data "website")).
  unfold _validate_phone.
  generalize (Val.truthy (Val.get data "business_name")).
  generalize (Val.truthy (Val.get data "address")).
  generalize (Val.truthy (Val.get data "website")).
  generalize (Val.truthy (Val.get data "business_description")).
  generalize (Val.truthy (Val.get data "service_type")).
  generalize (Val.truthy (Val.get data "coverage")).
  destruct (Val.truthy (Val.get data "phone_number")) eqn:Hphone.
  - destruct (Val.get data "phone_number") as [| |n|s] eqn:Hval;
      [done|done|done|].
    cbn [negb Val.as_str bind].
    generalize (Re.matches DataValidatorTool.phone_pattern (Py.strip s)).
    intros [] [] [] [] [] [] [] w Hweb;
      try (specialize (Hweb eq_refl); subst w); try destruct w;
      vm_compute; (split; [reflexivity|split; [reflexivity|]]);
      intros; done.
  - intros [] [] [] [] [] [] w Hweb;
      try (specialize (Hweb eq_refl); subst w); try destruct w;
      vm_compute; (split; [reflexivity|split; [reflexivity|]]);
      intros; done.
Qed.

(** X20. A validated ISP record counts as a high quality lead exactly
    when its weights add up to more than 70 hundredths; it carries no
    validation flag exactly when its name, address and description are
    present and its phone and website are well formed, and then its
    weights add up to 100 or more, so that it is a high quality lead. *)
Theorem isp_high_quality_leads (data : record) (v : validation) :
  validate data = Ok v ->
  NCISPLeadGenerator.high_quality v = (70 <? Stated.isp_weights data)
  ∧ (validation_flags v = []
     ↔ Val.truthy (Val.get data "business_name") = true
       ∧ Val.truthy (Val.get data "address") = true
       ∧ Val.truthy (Val.get data "business_description") = true
       ∧ phone_valid v = true ∧ website_valid v = true)
  ∧ (validation_flags v = [] -> NCISPLeadGenerator.high_quality v = true).
Proof.
  intros Hv. pose proof (isp_validation_cases data) as H. rewrite Hv in H.
  destruct H as (Hhigh & Hflags & Hsum). split_and!.
  - exact Hhigh.
  - split.
    + intros Hnone. rewrite Hnone in Hflags. symmetry in Hflags.
      repeat (apply andb_true_iff in Hflags as [Hflags ?]). by split_and!.
    + intros (H1 & H2 & H3 & H4 & H5).
      rewrite H1, H2, H3, H4, H5 in Hflags. by destruct (validation_flags v).
  - intros Hnone. rewrite Hhigh. apply Z.ltb_lt. specialize (Hsum Hnone). lia.
Qed.

Lemma isp_high_quality_leads_witness :
  ∃ v, validate Sample.spectrum = Ok v
       ∧ validation_flags v = []
       ∧ NCISPLeadGenerator.high_quality v = true.
Proof.
  assert (Hok : match validate Sample.spectrum with
                | Ok v => match validation_flags v with
                          | [] => true
                          | _ :: _ => false
                          end
                | Raise _ => false
                end = true) by (vm_compute; reflexivity).
  destruct (validate Sample.spectrum) as [v|e] eqn:Hv; [|discriminate Hok].
  destruct (validation_flags v) as [|flag flags] eqn:Hflags; [|discriminate Hok].
  exists v. split; [reflexivity|]. split; [exact Hflags|].
  apply (isp_high_quality_leads Sample.spectrum v Hv). exact Hflags.
Defined.

End ISPPipeline.

(* ===================================================================== *)
(** * The tools of the agent: validation and classification                *)
(* ===================================================================== *)

Section ToolValidation.
Import DataValidatorTool.

Lemma on_field_cases (check : string -> bool) (d : record) (k : string) :
  on_field check (Val.get_or d k (VStr ""))
  = if Facts.text_or_empty (Val.get d k)
    then Ok (match Val.get d k with
             | VStr s => negb (String.eqb s "") && check s
             | _ => false
             end)
    else on_field check (Val.get d k).
Proof.
  unfold Val.get_or, Val.get, on_field, Facts.text_or_empty.
  destruct (d !! k) as [[|b|n|s]|]; cbn [default from_option id]; try done.
  - by destruct b.
  - cbn [Val.truthy]. by destruct (n =? 0).
  - cbn [Val.truthy negb orb Val.as_str bind]. rewrite orb_true_r.
    by destruct (String.eqb s "").
Qed.

Lemma on_field_raises (check : string -> bool) (value : pyval) :
  Facts.text_or_empty value = false -> ∃ e, on_field check value = Raise e.
Proof.
  unfold Facts.text_or_empty, on_field.
  destruct value as [|b|n|s]; try done.
  - destruct b; [|done]. by eexists.
  - cbn [Val.truthy]. destruct (n =? 0); [done|]. by eexists.
  - cbn [Val.truthy]. by rewrite orb_true_r.
Qed.

Lemma tool_score_is_sum (data : record) (phone email website : bool) :
  _calculate_quality_score data phone email website
  = F64.hundredths
      ((if Val.truthy (Val.get data "business_name") then 30 else 0)
       + (if Val.truthy (Val.get data "address") then 20 else 0)
       + (if phone then 20 else 0) + (if email then 10 else 0)
       + (if website then 10 else 0)
       + (if Val.truthy (Val.get data "business_description") then 10 else 0)).
Proof.
  unfold _calculate_quality_score.
  generalize (Val.truthy (Val.get data "business_name")).
  generalize (Val.truthy (Val.get data "address")).
  generalize (Val.truthy (Val.get data "business_description")).
  intros [] [] []; destruct phone, email, website; vm_compute; reflexivity.
Qed.

Lemma hundredths_at_most_one (k : Z) :
  0 <= k <= 100 ->
  F64.leb (F64.of_Z 0) (F64.hundredths k) = true
  ∧ F64.leb (F64.hundredths k) (F64.of_Z 1) = true.
Proof.
  intros Hk.
  assert (Hall : forallb (fun n => let k := Z.of_nat n in
                     F64.leb (F64.of_Z 0) (F64.hundredths k)
                     && F64.leb (F64.hundredths k) (F64.of_Z 1))
                   (seq 0 101) = true) by (vm_compute; reflexivity).
  rewrite forallb_forall in Hall.
  specialize (Hall (Z.to_nat k)).
  rewrite Z2Nat.id in Hall by lia.
  apply andb_true_iff, Hall, in_seq. lia.
Qed.

Lemma tool_validate_cases (business_data : record) :
  if forallb (fun k => Facts.text_or_empty (Val.get business_data k))
       ["phone_number"; "email_address"; "address"; "website"]
  then validation_flags (validate business_data) = []
       ∧ quality_score (validate business_data)
         = F64.hundredths
             (Facts.tool_weights business_data (validate business_data))
  else validate business_data = validation_error.
Proof.
  unfold validate. cbn [forallb].
  rewrite !on_field_cases.
  destruct (Facts.text_or_empty (Val.get business_data "phone_number")) eqn:H1;
    cbn [andb bind try_except].
  2: { by destruct (on_field_raises _validate_phone _ H1) as [e ->]. }
  destruct (Facts.text_or_empty (Val.get business_data "email_address")) eqn:H2;
    cbn [andb bind try_except].
  2: { by destruct (on_field_raises _validate_email _ H2) as [e ->]. }
  destruct (Facts.text_or_empty (Val.get business_data "address")) eqn:H3;
    cbn [andb bind try_except].
  2: { by destruct (on_field_raises _validate_address _ H3) as [e ->]. }
  destruct (Facts.text_or_empty (Val.get business_data "website")) eqn:H4;
    cbn [andb bind try_except].
  2: { by destruct (on_field_raises _validate_website _ H4) as [e ->]. }
  split; [reflexivity|].
  cbn [quality_score]. rewrite tool_score_is_sum. reflexivity.
Qed.

(** X21. The validation of the tool returns the error record, with the
    score 0.1, exactly when one of the phone, e-mail, address and
    website is a value that is neither falsy nor a string. Otherwise it
    returns no flag, and its score is the sum of the weights: name 0.30
    and address 0.20 when present, phone 0.20, e-mail 0.10 and website
    0.10 when well formed, description 0.10 when present. The score
    lies between 0.0 and 1.0 in both cases. *)
Theorem tool_validation_score (business_data : record) :
  let v := validate business_data in
  (if forallb (fun k => Facts.text_or_empty (Val.get business_data k))
        ["phone_number"; "email_address"; "address"; "website"]
   then validation_flags v = []
        ∧ quality_score v = F64.hundredths (Facts.tool_weights business_data v)
   else v = validation_error)
  ∧ F64.leb (F64.of_Z 0) (quality_score v) = true
  ∧ F64.leb (quality_score v) (F64.of_Z 1) = true.
Proof.
  intros v. pose proof (tool_validate_cases business_data) as H.
  fold v in H. split; [exact H|].
  destruct (forallb _ _).
  - destruct H as [_ ->]. apply hundredths_at_most_one.
    unfold Facts.tool_weights.
    destruct (Val.truthy _), (Val.truthy _), (Val.truthy _), (phone_valid v),
      (email_valid v), (website_valid v); lia.
  - rewrite H. by vm_compute.
Qed.

End ToolValidation.

Section AgentClassification.
Import IndustryClassifierTool CRMLeadGenerationAgent.

(** Every result of [classify] has the same seven keys, and its code is
    a string. *)
Lemma classify_shape (client : option llm_client) (business_info : record) :
  ∃ success code description confidence reasoning source model,
    classify client business_info
    = {[ "success" := success;
         "naics_code" := VStr code;
         "industry_description" := description;
         "confidence_score" := confidence;
         "reasoning" := reasoning;
         "source" := source;
         "model" := model ]}.
Proof.
  assert (Hkw : ∃ success code description confidence reasoning source model,
            _classify_with_keywords business_info
            = {[ "success" := success;
                 "naics_code" := VStr code;
                 "industry_description" := description;
                 "confidence_score" := confidence;
                 "reasoning" := reasoning;
                 "source" := source;
                 "model" := model ]}).
  { destruct (keyword_path_cases business_info)
      as [(best & total & ->)|[->|(e & _ & ->)]]; by eexists _, _, _, _, _, _, _. }
  rewrite classify_unfold. destruct client as [llm|]; [|exact Hkw].
  destruct (ai_accepted _) eqn:Hacc; [|exact Hkw].
  destruct (ai_path_cases llm business_info)
    as [(e & _ & Hr)|(response & code & d & c & Hok & Hr)].
  - rewrite Hr in Hacc. done.
  - rewrite Hr. by eexists _, _, _, _, _, _, _.
Qed.

Lemma classify_business_unfold (client : option llm_client) (business : record) :
  classify_business client business
  = Val.update business
      {[ "naics_code" :=
           Val.get (classify client (classification_input business)) "naics_code";
         "industry_category" :=
           Val.get (classify client (classification_input business))
             "industry_category";
         "industry_description" :=
           Val.get (classify client (classification_input business))
             "industry_description";
         "classification_confidence" :=
           Val.get_or (classify client (classification_input business))
             "confidence_score" (VInt 0) ]}.
Proof. reflexivity. Qed.

(** X22. Whatever the language-model client answers, the classification
    step of the agent leaves every other field of a business as it was,
    writes a string as [naics_code], the description and the confidence
    of the classifier tool, and [None] as [industry_category]: the tool
    returns no such field, and the record of the [except] branch, with
    its category Unknown, is never written. *)
Theorem agent_classification_fields (client : option llm_client)
    (business : record) :
  let classified := classify_business client business in
  let answer := classify client (classification_input business) in
  classified !! "industry_category" = Some VNone
  ∧ (∃ code, classified !! "naics_code" = Some (VStr code)
             ∧ answer !! "naics_code" = Some (VStr code))
  ∧ classified !! "industry_description" = answer !! "industry_description"
  ∧ classified !! "classification_confidence" = answer !! "confidence_score"
  ∧ ∀ k, k ∉ Facts.classification_keys -> classified !! k = business !! k.
Proof.
  intros classified answer. subst classified answer.
  rewrite classify_business_unfold.
  destruct (classify_shape client (classification_input business))
    as (success & code & description & confidence & reasoning & source & model
        & ->).
  set (answer := (<[ "success" := success ]> _ : record)).
  assert (Hcode : answer !! "naics_code" = Some (VStr code)) by reflexivity.
  assert (Hcategory : answer !! "industry_category" = None) by reflexivity.
  assert (Hdescription : answer !! "industry_description" = Some description)
    by reflexivity.
  assert (Hconfidence : answer !! "confidence_score" = Some confidence)
    by reflexivity.
  unfold Val.update, Val.get, Val.get_or.
  rewrite Hcode, Hcategory, Hdescription, Hconfidence.
  cbn [default from_option id]. clearbody answer.
  set (written := (<[ "naics_code" := VStr code ]> _ : record)).
  assert (Hw : ∀ k v, written !! k = Some v -> (written ∪ business) !! k = Some v).
  { intros k v Hk. by apply lookup_union_Some_l. }
  split_and!.
  - by apply Hw.
  - exists code. split; [by apply Hw|done].
  - by apply Hw.
  - by apply Hw.
  - intros k Hk. apply lookup_union_r.
    unfold Facts.classification_keys in Hk.
    rewrite !not_elem_of_cons in Hk. destruct Hk as (? & ? & ? & ? & _).
    subst written. rewrite !lookup_insert_ne by done.
    by apply lookup_singleton_ne.
Qed.

Lemma keyword_input_name (business : record) :
  text_fields (classification_input business)
  = [ Val.get_or business "business_name" (VStr "");
      VStr ""; VStr ""; VStr ""; VStr "" ].
Proof. reflexivity. Qed.

(** X23. Without a language-model client the classification that the
    agent writes depends on the name of the business alone: the keyword
    path looks for the description under a key that the agent does not
    fill, so two businesses with the same name get the same four
    fields. *)
Theorem keyword_fallback_reads_name_only (first second : record) :
  Val.get_or first "business_name" (VStr "")
  = Val.get_or second "business_name" (VStr "") ->
  ∀ k, k ∈ Facts.classification_keys ->
       classify_business None first !! k = classify_business None second !! k.
Proof.
  intros Hname k Hk. rewrite !classify_business_unfold.
  assert (Hsame : classify None (classification_input first)
                  = classify None (classification_input second)).
  { rewrite !classify_unfold. unfold _classify_with_keywords, keywords_body.
    by rewrite !keyword_input_name, Hname. }
  rewrite Hsame. unfold Val.update.
  set (written := (<[ "naics_code" := _ ]> _ : record)).
  assert (Hw : is_Some (written !! k)).
  { subst written. unfold Facts.classification_keys in Hk.
    repeat (apply elem_of_cons in Hk as [->|Hk]; [by eexists|]).
    by apply elem_of_nil in Hk. }
  destruct Hw as [value Hw].
  by rewrite !(lookup_union_Some_l _ _ _ _ Hw).
Qed.

Lemma keyword_fallback_reads_name_only_witness :
  let first : record :=
    {[ "business_name" := VStr "Acme";
       "business_description" := VStr "family dentist and dental clinic" ]} in
  classify_business None first !! "naics_code"
  = classify_business None (Sample.named "Acme") !! "naics_code".
Proof.
  intros first.
  apply (keyword_fallback_reads_name_only first (Sample.named "Acme"));
    [vm_compute; reflexivity|].
  apply list_elem_of_here.
Defined.

End AgentClassification.
